(** * Viimsi terrain pipeline: coordinate transform, map data store, terrain sampling

  A shallow embedding of the terrain / coordinate core of the game client:
  [ViimsiMapLoader] (raw geographic data), [MapDataManager] (coordinate
  transform, snapshot and spatial queries) and [TerrainSystem] (bilinear
  heightmap sampling, mesh elevation, LOD switching).

  JavaScript numbers are modelled as real numbers: arithmetic is exact,
  [Math.sqrt], [Math.sin] and [Math.cos] are the real functions and
  [Math.floor] is the integer part.  Rounding of IEEE doubles and the
  infinities are outside the model; where the source starts a running
  minimum at [Infinity], and where it can produce [NaN] from a text that
  does not parse or from a value that is no number, this is written out
  with an option.  A table written as an object literal is read as the
  language reads it: its own entries first, then the members every object
  inherits from [Object.prototype]. *)

From Stdlib Require Import Reals Lra Lia ZArith List String Bool.
Import ListNotations.

Open Scope R_scope.

(** ** JavaScript values used by the sources *)

Module JS.

(** [x <= y] and [x < y] on numbers. *)
Definition leb (x y : R) : bool := if Rle_dec x y then true else false.
Definition ltb (x y : R) : bool := if Rlt_dec x y then true else false.

(** Truthiness of a number: every number but [0] is truthy. *)
Definition truthy (x : R) : bool := if Req_dec_T x 0 then false else true.

(** [v || d] where [v] is a number or [undefined]. *)
Definition or_else (v : option R) (d : R) : R :=
  match v with
  | Some x => if truthy x then x else d
  | None => d
  end.

Definition Math_floor (x : R) : R := IZR (Zfloor x).
Definition Math_min (x y : R) : R := Rmin x y.
Definition Math_max (x y : R) : R := Rmax x y.
Definition Math_sqrt (x : R) : R := sqrt x.
Definition Math_sin (x : R) : R := sin x.
Definition Math_cos (x : R) : R := cos x.

(** [a.length] as a number. *)
Definition length {A : Type} (a : list A) : R := INR (List.length a).

(** [a[i]] for a number [i]: defined only at the integers
    [0 .. a.length - 1], [undefined] everywhere else. *)
Definition get {A : Type} (a : list A) (i : R) : option A :=
  let k := Zfloor i in
  if Req_dec_T (IZR k) i then
    if (0 <=? k)%Z then nth_error a (Z.to_nat k) else None
  else None.

(** [a.slice(0, n)]. *)
Definition slice0 {A : Type} (a : list A) (n : nat) : list A := firstn n a.

(** An entry of the array [Promise.allSettled] resolves to. *)
Inductive settled (A : Type) : Type :=
| fulfilled (value : A)
| rejected (reason : string).
Arguments fulfilled {A} value.
Arguments rejected {A} reason.

(** How the promise of an [async] function settles. *)
Inductive outcome (A : Type) : Type :=
| Resolved (value : A)
| Rejected (error : string).
Arguments Resolved {A} value.
Arguments Rejected {A} error.

(** What reading a table of numbers written as an object literal can give:
    a number of the table or, for a key that the literal does not have but
    [Object.prototype] does, the member inherited under that name.  Such a
    member is a function (the prototype object itself for [__proto__]): it
    is no number, it is truthy, and arithmetic on it gives [NaN]. *)
Inductive entry : Type :=
| Number (x : R)
| Inherited (name : string).

(** The property names of [Object.prototype]. *)
Definition objectPrototype : list string :=
  [ "constructor"; "hasOwnProperty"; "isPrototypeOf"; "propertyIsEnumerable";
    "toLocaleString"; "toString"; "valueOf"; "__proto__";
    "__defineGetter__"; "__defineSetter__";
    "__lookupGetter__"; "__lookupSetter__" ]%string.

Definition inherits (key : string) : bool :=
  existsb (String.eqb key) objectPrototype.

(** The own properties of the literal. *)
Fixpoint own (table : list (string * R)) (key : string) : option R :=
  match table with
  | [] => None
  | (k, v) :: rest => if String.eqb k key then Some v else own rest key
  end.

(** A property table written as an object literal, [widths[key]]: the own
    property if there is one, else the inherited one, else [undefined]. *)
Definition lookup (table : list (string * R)) (key : string) : option entry :=
  match own table key with
  | Some v => Some (Number v)
  | None => if inherits key then Some (Inherited key) else None
  end.

(** Truthiness of such a value. *)
Definition truthy_entry (v : entry) : bool :=
  match v with
  | Number x => truthy x
  | Inherited _ => true
  end.

(** [v || d] where [v] is such a value or [undefined]. *)
Definition or_default (v : option entry) (d : R) : entry :=
  match v with
  | Some value => if truthy_entry value then value else Number d
  | None => Number d
  end.

(** [v / d] for such a value; [None] is [NaN]. *)
Definition divide (v : entry) (d : R) : option R :=
  match v with
  | Number x => Some (x / d)
  | Inherited _ => None
  end.

(** Truthiness of a string-valued property: present and not empty. *)
Definition truthy_string (v : option string) : bool :=
  match v with
  | Some s => negb (String.eqb s "")
  | None => false
  end.

(** [v || d] where [v] is a string or [undefined]. *)
Definition or_string (v : option string) (d : option string) : option string :=
  if truthy_string v then v else d.

(** A string-keyed object with string values, [tags[key]]; it is read at
    the keys written in the source only, none of which is a name of
    [Object.prototype]. *)
Fixpoint property (object : list (string * string)) (key : string)
  : option string :=
  match object with
  | [] => None
  | (k, v) :: rest => if String.eqb k key then Some v else property rest key
  end.

End JS.

(** ** ViimsiMapLoader.js *)

Module ViimsiMapLoader.

Record GeoBoundingBox : Type := {
  north : R;
  south : R;
  east : R;
  west : R
}.

Definition viimsiParishBounds : GeoBoundingBox := {|
  north := 59.5167;
  south := 59.4167;
  east := 24.8333;
  west := 24.7000
|}.

Record GeoPoint : Type := { lat : R; lon : R }.

(** Raw entities.  Only the properties the transform layer reads are
    kept; [None] stands for a property that is absent. *)
Record Building : Type := {
  building_name : string;
  building_type : string;
  building_lat : option R;
  building_lon : option R;
  building_geometry : option (list GeoPoint);
  building_height : option JS.entry
}.

Record Road : Type := {
  road_name : string;
  road_type : string;
  road_geometry : option (list GeoPoint);
  road_width : option JS.entry
}.

Record Forest : Type := {
  forest_name : string;
  forest_type : string;
  forest_bounds : GeoBoundingBox
}.

Record MapData : Type := {
  elevation : option (list R);
  buildings : list Building;
  roads : list Road;
  forests : list Forest;
  bounds : GeoBoundingBox;
  timestamp : R
}.

(** [estimateRoadWidth(highway)] *)
Definition estimateRoadWidth (highway : string) : JS.entry :=
  let widths := [
    ("primary"%string, 8);
    ("secondary"%string, 6);
    ("tertiary"%string, 5);
    ("residential"%string, 4);
    ("service"%string, 3);
    ("footway"%string, 2);
    ("cycleway"%string, 2);
    ("path"%string, 1.5)
  ] in
  JS.or_default (JS.lookup widths highway) 4.

(** The message of the [TypeError] raised by [value.length] when a
    sub-fetch was fulfilled with [undefined]. *)
Definition length_of_undefined : string :=
  "Cannot read properties of undefined (reading 'length')".

(** One list-valued entry of [loadViimsiData]: the value chosen for the
    aggregate ([x.status === 'fulfilled' ? x.value : []]) and the summary
    line logged for it, which reads [x.value.length] when the entry is
    fulfilled.  The value of a fulfilled entry is an array, or [None] when
    the sub-fetch resolved with something that has no [length]. *)
Definition aggregate_list {A : Type} (entry : JS.settled (option (list A)))
  : string + list A :=
  match entry with
  | JS.fulfilled (Some value) => inr value
  | JS.fulfilled None => inl length_of_undefined
  | JS.rejected _ => inr []
  end.

(** The body of the [try] block of [loadViimsiData], after
    [Promise.allSettled] has produced the four entries. *)
Definition aggregate
    (e : JS.settled (option (list R)))
    (b : JS.settled (option (list Building)))
    (r : JS.settled (option (list Road)))
    (f : JS.settled (option (list Forest)))
    (now : R) : string + MapData :=
  let elevation_value :=
    match e with JS.fulfilled value => value | JS.rejected _ => None end in
  match aggregate_list b with
  | inl error => inl error
  | inr bs =>
    match aggregate_list r with
    | inl error => inl error
    | inr rs =>
      match aggregate_list f with
      | inl error => inl error
      | inr fs =>
        inr {| elevation := elevation_value;
               buildings := bs;
               roads := rs;
               forests := fs;
               bounds := viimsiParishBounds;
               timestamp := now |}
      end
    end
  end.

(** [loadViimsiData()], given how the four sub-fetches settled and the
    value of [Date.now()]. *)
Definition loadViimsiData
    (e : JS.settled (option (list R)))
    (b : JS.settled (option (list Building)))
    (r : JS.settled (option (list Road)))
    (f : JS.settled (option (list Forest)))
    (now : R) : JS.outcome MapData :=
  match aggregate e b r f now with
  | inr mapData => JS.Resolved mapData
  | inl message =>
      JS.Rejected ("Map data loading failed: " ++ message)%string
  end.

(** *** The cache

    [this.cache] is a [Map] from dataset names to [{ data, timestamp }].
    The data of an entry is whatever was stored: one of the four kinds of
    dataset. *)

Inductive CachedData : Type :=
| ElevationData (samples : list R)
| BuildingData (items : list Building)
| RoadData (items : list Road)
| ForestData (items : list Forest).

Record CacheEntry : Type := { data : CachedData; cached_at : R }.

Definition Cache : Type := list (string * CacheEntry).

(** [this.cacheTimeout]: 30 minutes, in milliseconds. *)
Definition cacheTimeout : R := 30 * 60 * 1000.

(** [cache.get(key)] *)
Fixpoint cache_get (cache : Cache) (key : string) : option CacheEntry :=
  match cache with
  | [] => None
  | (k, e) :: rest => if String.eqb k key then Some e else cache_get rest key
  end.

(** [cache.set(key, entry)]: an existing key keeps its place, a new one goes
    to the end. *)
Fixpoint cache_set (cache : Cache) (key : string) (entry : CacheEntry)
  : Cache :=
  match cache with
  | [] => [(key, entry)]
  | (k, e) :: rest =>
      if String.eqb k key then (k, entry) :: rest
      else (k, e) :: cache_set rest key entry
  end.

(** [isCacheValid(key)], with the value of [Date.now()]. *)
Definition isCacheValid (cache : Cache) (key : string) (now : R) : bool :=
  match cache_get cache key with
  | None => false
  | Some cached =>
      let age := now - cached_at cached in
      JS.ltb age cacheTimeout
  end.

(** [clearCache()] *)
Definition clearCache (cache : Cache) : Cache := [].

(** *** What the Overpass API answers

    An element of the answer, with its tags as the string-keyed object they
    are, and the ways a [fetch] of the API can end. *)

Record OsmElement : Type := {
  element_type : string;
  element_id : R;
  element_tags : option (list (string * string));
  element_geometry : option (list GeoPoint)
}.

Inductive JsonBody : Type :=
| JsonFails (message : string)
| JsonData (elements : option (list OsmElement)).

Inductive FetchResult : Type :=
| FetchFails (message : string)
| Response (ok : bool) (body : JsonBody).

(** *** Roads *)

(** The callback of the [filter] of [processOSMRoads]. *)
Definition isRoadElement (element : OsmElement) : bool :=
  String.eqb (element_type element) "way" &&
  match element_tags element, element_geometry element with
  | Some tags, Some _ => JS.truthy_string (JS.property tags "highway")
  | _, _ => false
  end.

(** [processOSMRoads(elements)]; the elements that pass the filter have
    tags, a highway tag and a geometry. *)
Definition processOSMRoads (elements : list OsmElement) : list Road :=
  flat_map
    (fun road =>
       match element_tags road, element_geometry road with
       | Some tags, Some geometry =>
           match JS.property tags "highway" with
           | Some highway =>
               [ {| road_name :=
                      match JS.or_string (JS.property tags "name")
                              (JS.or_string (JS.property tags "ref")
                                            (Some "Road"%string)) with
                      | Some name => name
                      | None => "Road"%string
                      end;
                    road_type := highway;
                    road_geometry := Some geometry;
                    road_width := Some (estimateRoadWidth highway) |} ]
           | None => []
           end
       | _, _ => []
       end)
    (filter isRoadElement elements).

(** [fetchOSMRoads()], as the second of its two definitions in the class
    has it (the later method replaces the earlier one): it throws when the
    request fails, when the answer is not ok, when the body is not JSON and
    when the body has no [elements]. *)
Definition fetchOSMRoads (answer : FetchResult) : string + list Road :=
  match answer with
  | FetchFails message => inl message
  | Response false _ => inl "OpenStreetMap API error"%string
  | Response true (JsonFails message) => inl message
  | Response true (JsonData None) => inl length_of_undefined
  | Response true (JsonData (Some elements)) => inr (processOSMRoads elements)
  end.

(** [generateRealisticViimsiRoads()] *)
Definition generateRealisticViimsiRoads : list Road :=
  [ {| road_name := "Viimsi tee"; road_type := "primary";
       road_geometry := Some [ {| lat := 59.4800; lon := 24.7600 |};
                               {| lat := 59.4850; lon := 24.7650 |};
                               {| lat := 59.4900; lon := 24.7700 |} ];
       road_width := None |};
    {| road_name := "Muuga tee"; road_type := "secondary";
       road_geometry := Some [ {| lat := 59.4750; lon := 24.8000 |};
                               {| lat := 59.4700; lon := 24.8100 |} ];
       road_width := None |};
    {| road_name := "Haabneeme tee"; road_type := "residential";
       road_geometry := Some [ {| lat := 59.4950; lon := 24.7750 |};
                               {| lat := 59.5000; lon := 24.7800 |} ];
       road_width := None |};
    {| road_name := "Prangli Ferry Route"; road_type := "ferry";
       road_geometry := Some [ {| lat := 59.5100; lon := 24.7900 |};
                               {| lat := 59.5200; lon := 24.8200 |} ];
       road_width := None |} ].

(** [fetchRoadData()]: what it returns and the cache afterwards, given the
    cache before, [Date.now()] at the cache test, how the request ends and
    [Date.now()] when the answer is stored. *)
Definition fetchRoadData (cache : Cache) (now : R) (answer : FetchResult)
    (later : R) : CachedData * Cache :=
  let cacheKey := "viimsi-roads"%string in
  if isCacheValid cache cacheKey now then
    match cache_get cache cacheKey with
    | Some cached => (data cached, cache)
    | None => (RoadData [], cache) (* excluded by the test above *)
    end
  else
    match fetchOSMRoads answer with
    | inr roads =>
        (RoadData roads,
         cache_set cache cacheKey {| data := RoadData roads; cached_at := later |})
    | inl _ => (RoadData generateRealisticViimsiRoads, cache)
    end.

(** *** Buildings *)

Section Parsing.

(** [parseFloat] and [parseInt] of the language; [None] is [NaN]. *)
Variable parseFloat : string -> option R.
Variable parseInt : string -> option R.

(** [estimateBuildingHeight(tags)]; [None] is [NaN]. *)
Definition estimateBuildingHeight (tags : list (string * string))
  : option JS.entry :=
  if JS.truthy_string (JS.property tags "height") then
    match JS.property tags "height" with
    | Some height => option_map JS.Number (parseFloat height)
    | None => None (* excluded by the test above *)
    end
  else if JS.truthy_string (JS.property tags "levels") ||
          JS.truthy_string (JS.property tags "building:levels") then
    match JS.or_string (JS.property tags "levels")
            (JS.property tags "building:levels") with
    | Some text =>
        match parseInt text with
        | Some levels => Some (JS.Number (levels * 3))
        | None => None
        end
    | None => None (* excluded by the test above *)
    end
  else
    let typeHeights := [
      ("house"%string, 6);
      ("residential"%string, 8);
      ("commercial"%string, 10);
      ("industrial"%string, 12);
      ("school"%string, 8);
      ("hospital"%string, 12);
      ("church"%string, 15)
    ] in
    Some (JS.or_default
            match JS.property tags "building" with
            | Some kind => JS.lookup typeHeights kind
            | None => None
            end
            6).

(** The callback of the first [filter] of [processOSMBuildings]. *)
Definition isBuildingElement (element : OsmElement) : bool :=
  String.eqb (element_type element) "way" &&
  match element_tags element, element_geometry element with
  | Some tags, Some _ => JS.truthy_string (JS.property tags "building")
  | _, _ => false
  end.

(** [coords.reduce((sum, coord) => sum + f(coord), 0)] *)
Definition sumOf (f : GeoPoint -> R) (coords : list GeoPoint) : R :=
  fold_left (fun sum coord => sum + f coord) coords 0.

(** [processOSMBuildings(elements)]: the centre of the footprint becomes the
    position; an element with an empty footprint maps to [null] and is
    filtered out.  A height that is [NaN] is kept as an absent height: the
    transform layer only tests it for truthiness. *)
Definition processOSMBuildings (elements : list OsmElement) : list Building :=
  flat_map
    (fun building =>
       match element_tags building, element_geometry building with
       | Some tags, Some coords =>
           match coords, JS.property tags "building" with
           | [], _ => []
           | _ :: _, Some kind =>
               let centerLat := sumOf lat coords / JS.length coords in
               let centerLon := sumOf lon coords / JS.length coords in
               [ {| building_name :=
                      match JS.or_string (JS.property tags "name")
                              (JS.or_string (JS.property tags "addr:housename")
                                            (Some "Building"%string)) with
                      | Some name => name
                      | None => "Building"%string
                      end;
                    building_type := kind;
                    building_lat := Some centerLat;
                    building_lon := Some centerLon;
                    building_geometry := Some coords;
                    building_height := estimateBuildingHeight tags |} ]
           | _ :: _, None => []
           end
       | _, _ => []
       end)
    (filter isBuildingElement elements).

(** [generateFallbackBuildings()] *)
Definition generateFallbackBuildings : list Building :=
  [ {| building_name := "Viimsi Manor"; building_type := "historic";
       building_lat := Some 59.4833; building_lon := Some 24.7667;
       building_geometry := None; building_height := Some (JS.Number 12) |};
    {| building_name := "Viimsi Gymnasium"; building_type := "school";
       building_lat := Some 59.4900; building_lon := Some 24.7700;
       building_geometry := None; building_height := Some (JS.Number 8) |};
    {| building_name := "Muuga Harbor Office"; building_type := "industrial";
       building_lat := Some 59.4700; building_lon := Some 24.8100;
       building_geometry := None; building_height := Some (JS.Number 15) |} ].

(** [fetchOSMBuildings()]: every failure inside its [try] block, including
    [processOSMBuildings(undefined)], ends in the fallback landmarks; the
    function never throws. *)
Definition fetchOSMBuildings (answer : FetchResult) : list Building :=
  match answer with
  | Response true (JsonData (Some elements)) => processOSMBuildings elements
  | _ => generateFallbackBuildings
  end.

(** [fetchBuildingData()].  As [fetchOSMBuildings] never throws, the
    [catch] branch of this function is not reached. *)
Definition fetchBuildingData (cache : Cache) (now : R) (answer : FetchResult)
    (later : R) : CachedData * Cache :=
  let cacheKey := "viimsi-buildings"%string in
  if isCacheValid cache cacheKey now then
    match cache_get cache cacheKey with
    | Some cached => (data cached, cache)
    | None => (BuildingData [], cache) (* excluded by the test above *)
    end
  else
    let buildings := fetchOSMBuildings answer in
    (BuildingData buildings,
     cache_set cache cacheKey
       {| data := BuildingData buildings; cached_at := later |}).

End Parsing.

End ViimsiMapLoader.

(** ** MapDataManager.js *)

Module MapDataManager.

Record CoordinateTransform : Type := {
  gameWorldSize : R;
  realWorldBounds : ViimsiMapLoader.GeoBoundingBox
}.

Definition scaleX (ct : CoordinateTransform) : R :=
  gameWorldSize ct /
  (ViimsiMapLoader.east (realWorldBounds ct) -
   ViimsiMapLoader.west (realWorldBounds ct)).

Definition scaleZ (ct : CoordinateTransform) : R :=
  gameWorldSize ct /
  (ViimsiMapLoader.north (realWorldBounds ct) -
   ViimsiMapLoader.south (realWorldBounds ct)).

(** [{ x, z }] *)
Record GameCoords : Type := { coord_x : R; coord_z : R }.

(** [gamePosition: { x, y, z }] *)
(** [pos_y] is [None] when the height it is computed from is no number
    ([NaN]). *)
Record GamePosition : Type := { pos_x : R; pos_y : option R; pos_z : R }.

(** A transformed building: the raw record ([...building]) and what
    [transformBuildingData] attaches to it. *)
Record Building : Type := {
  building : ViimsiMapLoader.Building;
  gamePosition : GamePosition;
  gameHeight : JS.entry;
  realWorldCoords : option R * option R
}.

(** An element of [gameGeometry]. *)
Record GamePoint : Type := {
  point_x : R;
  point_z : R;
  realLat : R;
  realLon : R
}.

Record Road : Type := {
  road : ViimsiMapLoader.Road;
  gameGeometry : list GamePoint;
  width : JS.entry
}.

Record GameBounds : Type := { minX : R; maxX : R; minZ : R; maxZ : R }.

Record Forest : Type := {
  forest : ViimsiMapLoader.Forest;
  gameBounds : GameBounds;
  forest_realWorldBounds : ViimsiMapLoader.GeoBoundingBox
}.

(** [this.mapData] once loaded. *)
Record MapData : Type := {
  elevation : option (list R);
  buildings : list Building;
  roads : list Road;
  forests : list Forest;
  bounds : ViimsiMapLoader.GeoBoundingBox;
  gameWorldBounds : GameBounds;
  timestamp : R
}.

(** The manager.  [loaderCalls] counts the calls made so far to
    [this.mapLoader.loadViimsiData]; the source has no such field, the
    tests read it off the mocked loader. *)
Record t : Type := {
  coordinateTransform : CoordinateTransform;
  mapData : option MapData;
  isLoading : bool;
  loaderCalls : nat
}.

(** [new MapDataManager(gameEngine)] *)
Definition create : t := {|
  coordinateTransform := {|
    gameWorldSize := 2000;
    realWorldBounds := ViimsiMapLoader.viimsiParishBounds
  |};
  mapData := None;
  isLoading := false;
  loaderCalls := 0
|}.

(** [realWorldToGameWorld(lat, lon)] *)
Definition realWorldToGameWorld (this : t) (lat lon : R) : GameCoords :=
  let bounds := realWorldBounds (coordinateTransform this) in
  let normalizedX :=
    (lon - ViimsiMapLoader.west bounds) /
    (ViimsiMapLoader.east bounds - ViimsiMapLoader.west bounds) in
  let normalizedZ :=
    (lat - ViimsiMapLoader.south bounds) /
    (ViimsiMapLoader.north bounds - ViimsiMapLoader.south bounds) in
  let gameX := (normalizedX - 0.5) * gameWorldSize (coordinateTransform this) in
  let gameZ := (normalizedZ - 0.5) * gameWorldSize (coordinateTransform this) in
  {| coord_x := gameX; coord_z := gameZ |}.

(** [gameWorldToRealWorld(x, z)] *)
Definition gameWorldToRealWorld (this : t) (x z : R)
  : ViimsiMapLoader.GeoPoint :=
  let bounds := realWorldBounds (coordinateTransform this) in
  let normalizedX := (x / gameWorldSize (coordinateTransform this)) + 0.5 in
  let normalizedZ := (z / gameWorldSize (coordinateTransform this)) + 0.5 in
  let lon :=
    ViimsiMapLoader.west bounds +
    normalizedX * (ViimsiMapLoader.east bounds - ViimsiMapLoader.west bounds) in
  let lat :=
    ViimsiMapLoader.south bounds +
    normalizedZ * (ViimsiMapLoader.north bounds - ViimsiMapLoader.south bounds) in
  {| ViimsiMapLoader.lat := lat; ViimsiMapLoader.lon := lon |}.

(** [transformElevationData(elevationData)]: a copy, sample by sample. *)
Definition transformElevationData (elevationData : option (list R))
  : option (list R) :=
  match elevationData with
  | None => None
  | Some data => Some (map (fun sample => sample) data)
  end.

(** The callback of [transformBuildingData]. *)
Definition transformBuilding (this : t) (b : ViimsiMapLoader.Building)
  : Building :=
  let gameCoords :=
    match ViimsiMapLoader.building_lat b, ViimsiMapLoader.building_lon b,
          ViimsiMapLoader.building_geometry b with
    | Some lat, Some lon, geometry =>
        if JS.truthy lat && JS.truthy lon then realWorldToGameWorld this lat lon
        else
          match geometry with
          | Some (firstPoint :: _) =>
              realWorldToGameWorld this (ViimsiMapLoader.lat firstPoint)
                                        (ViimsiMapLoader.lon firstPoint)
          | _ => {| coord_x := 0; coord_z := 0 |}
          end
    | _, _, Some (firstPoint :: _) =>
        realWorldToGameWorld this (ViimsiMapLoader.lat firstPoint)
                                  (ViimsiMapLoader.lon firstPoint)
    | _, _, _ => {| coord_x := 0; coord_z := 0 |}
    end in
  {| building := b;
     gamePosition := {|
       pos_x := coord_x gameCoords;
       pos_y :=
         match ViimsiMapLoader.building_height b with
         | Some height =>
             if JS.truthy_entry height then JS.divide height 2 else Some 3
         | None => Some 3
         end;
       pos_z := coord_z gameCoords
     |};
     gameHeight := JS.or_default (ViimsiMapLoader.building_height b) 6;
     realWorldCoords :=
       (ViimsiMapLoader.building_lat b, ViimsiMapLoader.building_lon b) |}.

Definition transformBuildingData (this : t)
    (buildings : list ViimsiMapLoader.Building) : list Building :=
  map (transformBuilding this) buildings.

(** [getRoadWidth(roadType)] *)
Definition getRoadWidth (roadType : string) : JS.entry :=
  let widths := [
    ("motorway"%string, 12);
    ("trunk"%string, 10);
    ("primary"%string, 8);
    ("secondary"%string, 6);
    ("tertiary"%string, 5);
    ("residential"%string, 4);
    ("service"%string, 3);
    ("footway"%string, 1.5);
    ("path"%string, 1)
  ] in
  JS.or_default (JS.lookup widths roadType) 4.

(** The callback of [transformRoadData]. *)
Definition transformRoad (this : t) (r : ViimsiMapLoader.Road) : Road :=
  let gameGeometry :=
    match ViimsiMapLoader.road_geometry r with
    | Some geometry =>
        map (fun point =>
               let gameCoords :=
                 realWorldToGameWorld this (ViimsiMapLoader.lat point)
                                           (ViimsiMapLoader.lon point) in
               {| point_x := coord_x gameCoords;
                  point_z := coord_z gameCoords;
                  realLat := ViimsiMapLoader.lat point;
                  realLon := ViimsiMapLoader.lon point |})
            geometry
    | None => []
    end in
  {| road := r;
     gameGeometry := gameGeometry;
     width := getRoadWidth (ViimsiMapLoader.road_type r) |}.

Definition transformRoadData (this : t) (roads : list ViimsiMapLoader.Road)
  : list Road :=
  map (transformRoad this) roads.

(** The callback of [transformForestData]. *)
Definition transformForest (this : t) (f : ViimsiMapLoader.Forest) : Forest :=
  let bounds := ViimsiMapLoader.forest_bounds f in
  let gameNorthWest :=
    realWorldToGameWorld this (ViimsiMapLoader.north bounds)
                              (ViimsiMapLoader.west bounds) in
  let gameSouthEast :=
    realWorldToGameWorld this (ViimsiMapLoader.south bounds)
                              (ViimsiMapLoader.east bounds) in
  {| forest := f;
     gameBounds := {|
       minX := JS.Math_min (coord_x gameNorthWest) (coord_x gameSouthEast);
       maxX := JS.Math_max (coord_x gameNorthWest) (coord_x gameSouthEast);
       minZ := JS.Math_min (coord_z gameNorthWest) (coord_z gameSouthEast);
       maxZ := JS.Math_max (coord_z gameNorthWest) (coord_z gameSouthEast)
     |};
     forest_realWorldBounds := bounds |}.

Definition transformForestData (this : t)
    (forests : list ViimsiMapLoader.Forest) : list Forest :=
  map (transformForest this) forests.

(** The object literal assigned to [this.mapData] in [loadMapData]. *)
Definition transformMapData (this : t) (rawMapData : ViimsiMapLoader.MapData)
  : MapData := {|
  elevation := transformElevationData (ViimsiMapLoader.elevation rawMapData);
  buildings := transformBuildingData this (ViimsiMapLoader.buildings rawMapData);
  roads := transformRoadData this (ViimsiMapLoader.roads rawMapData);
  forests := transformForestData this (ViimsiMapLoader.forests rawMapData);
  bounds := ViimsiMapLoader.bounds rawMapData;
  gameWorldBounds := {| minX := -1000; maxX := 1000; minZ := -1000; maxZ := 1000 |};
  timestamp := ViimsiMapLoader.timestamp rawMapData
|}.

(** *** [loadMapData] as a coroutine

    [loadMapData] is an [async] function; between two [await]s its body runs
    without interruption on the single event loop.  A call is therefore a
    task that is either suspended at one of the two [await]s of the source
    or settled, and the body is cut into the three pieces that run between
    the suspension points. *)

Inductive suspension : Type :=
| AwaitLoader  (* [await this.mapLoader.loadViimsiData()] *)
| AwaitTimer.  (* [await new Promise(resolve => setTimeout(resolve, 10))] *)

Inductive task : Type :=
| Suspended (at_ : suspension)
| Settled (result : JS.outcome (option MapData)).

(** From the call to the first [await]. *)
Definition loadMapData_call (this : t) : t * task :=
  if isLoading this then
    (* [while (this.isLoading)] holds: wait on the timer *)
    (this, Suspended AwaitTimer)
  else
    ({| coordinateTransform := coordinateTransform this;
        mapData := mapData this;
        isLoading := true;
        loaderCalls := S (loaderCalls this) |},
     Suspended AwaitLoader).

(** From the settling of [loadViimsiData()] to the end of the function:
    the rest of the [try] block, [catch] and [finally]. *)
Definition loadMapData_loaded (this : t)
    (loaded : JS.outcome ViimsiMapLoader.MapData) : t * task :=
  match loaded with
  | JS.Resolved rawMapData =>
      let data := transformMapData this rawMapData in
      ({| coordinateTransform := coordinateTransform this;
          mapData := Some data;
          isLoading := false;
          loaderCalls := loaderCalls this |},
       Settled (JS.Resolved (Some data)))
  | JS.Rejected error =>
      ({| coordinateTransform := coordinateTransform this;
          mapData := mapData this;
          isLoading := false;
          loaderCalls := loaderCalls this |},
       Settled (JS.Rejected error))
  end.

(** From the firing of the 10 ms timer to the next suspension: the loop
    test again, then [return this.mapData]. *)
Definition loadMapData_timer (this : t) : t * task :=
  if isLoading this then (this, Suspended AwaitTimer)
  else (this, Settled (JS.Resolved (mapData this))).

(** The event loop: the manager and the calls made so far, in call order. *)
Record system : Type := { manager : t; tasks : list task }.

Inductive event : Type :=
| Call
| LoaderSettles (call : nat) (loaded : JS.outcome ViimsiMapLoader.MapData)
| TimerFires (call : nat).

Fixpoint set_task (ts : list task) (i : nat) (k : task) : list task :=
  match ts, i with
  | [], _ => []
  | _ :: rest, O => k :: rest
  | a :: rest, S j => a :: set_task rest j k
  end.

(** One turn of the event loop; [None] when the event cannot happen (the
    call is not suspended there). *)
Definition step (s : system) (e : event) : option system :=
  match e with
  | Call =>
      let (this, k) := loadMapData_call (manager s) in
      Some {| manager := this; tasks := tasks s ++ [k] |}
  | LoaderSettles i loaded =>
      match nth_error (tasks s) i with
      | Some (Suspended AwaitLoader) =>
          let (this, k) := loadMapData_loaded (manager s) loaded in
          Some {| manager := this; tasks := set_task (tasks s) i k |}
      | _ => None
      end
  | TimerFires i =>
      match nth_error (tasks s) i with
      | Some (Suspended AwaitTimer) =>
          let (this, k) := loadMapData_timer (manager s) in
          Some {| manager := this; tasks := set_task (tasks s) i k |}
      | _ => None
      end
  end.

Fixpoint run (s : system) (events : list event) : option system :=
  match events with
  | [] => Some s
  | e :: rest =>
      match step s e with
      | Some s' => run s' rest
      | None => None
      end
  end.

(** No call of [loadMapData] is pending. *)
Definition idle (this : t) : system := {| manager := this; tasks := [] |}.

(** *** Spatial queries *)

(** [getBuildingsInArea(centerX, centerZ, radius)] *)
Definition getBuildingsInArea (this : t) (centerX centerZ radius : R)
  : list Building :=
  match mapData this with
  | None => []
  | Some data =>
      filter (fun b =>
                let dx := pos_x (gamePosition b) - centerX in
                let dz := pos_z (gamePosition b) - centerZ in
                let distance := JS.Math_sqrt (dx * dx + dz * dz) in
                JS.leb distance radius)
             (buildings data)
  end.

(** [getRoadsInArea(centerX, centerZ, radius)] *)
Definition getRoadsInArea (this : t) (centerX centerZ radius : R)
  : list Road :=
  match mapData this with
  | None => []
  | Some data =>
      filter (fun r =>
                existsb (fun point =>
                           let dx := point_x point - centerX in
                           let dz := point_z point - centerZ in
                           let distance := JS.Math_sqrt (dx * dx + dz * dz) in
                           JS.leb distance radius)
                        (gameGeometry r))
             (roads data)
  end.

(** The conversion written out twice in [getElevationAt]:
    [(x + 1000) / 2000], from -1000:1000 to 0:1. *)
Definition normalized (c : R) : R := (c + 1000) / 2000.

(** [getElevationAt(x, z)] *)
Definition getElevationAt (this : t) (x z : R) : R :=
  match mapData this with
  | None => 0
  | Some data =>
      match elevation data with
      | None => 0
      | Some elevation =>
          let size := JS.Math_sqrt (JS.length elevation) in
          let normalizedX := normalized x in
          let normalizedZ := normalized z in
          let mapX := JS.Math_floor (normalizedX * size) in
          let mapZ := JS.Math_floor (normalizedZ * size) in
          let clampedX := JS.Math_max 0 (JS.Math_min (size - 1) mapX) in
          let clampedZ := JS.Math_max 0 (JS.Math_min (size - 1) mapZ) in
          let index := clampedZ * size + clampedX in
          JS.or_else (JS.get elevation index) 0
      end
  end.

(** [isInViimsiParish(lat, lon)] *)
Definition isInViimsiParish (lat lon : R) : bool :=
  let bounds := ViimsiMapLoader.viimsiParishBounds in
  JS.leb (ViimsiMapLoader.south bounds) lat &&
  JS.leb lat (ViimsiMapLoader.north bounds) &&
  JS.leb (ViimsiMapLoader.west bounds) lon &&
  JS.leb lon (ViimsiMapLoader.east bounds).

Record LocationInfo : Type := {
  info_gameCoords : GameCoords;
  info_realWorldCoords : ViimsiMapLoader.GeoPoint;
  info_elevation : R;
  nearbyBuildings : list Building;
  nearbyRoads : list Road;
  inViimsiParish : bool
}.

(** [getLocationInfo(x, z)] *)
Definition getLocationInfo (this : t) (x z : R) : LocationInfo :=
  let realWorldCoords := gameWorldToRealWorld this x z in
  let elevation := getElevationAt this x z in
  let nearbyBuildings := getBuildingsInArea this x z 100 in
  let nearbyRoads := getRoadsInArea this x z 50 in
  {| info_gameCoords := {| coord_x := x; coord_z := z |};
     info_realWorldCoords := realWorldCoords;
     info_elevation := elevation;
     nearbyBuildings := JS.slice0 nearbyBuildings 5;
     nearbyRoads := JS.slice0 nearbyRoads 3;
     inViimsiParish :=
       isInViimsiParish (ViimsiMapLoader.lat realWorldCoords)
                        (ViimsiMapLoader.lon realWorldCoords) |}.

(** Distance from the point [(x, z)], as both area queries compute it. *)
Definition distanceTo (x z px pz : R) : R :=
  JS.Math_sqrt ((px - x) * (px - x) + (pz - z) * (pz - z)).

(** *** Statistics and disposal *)

(** What [getStats()] returns; [cacheStats] is the loader's answer to
    [getCacheStats()], passed through. *)
Record Stats (C : Type) : Type := {
  stats_loaded : bool;
  stats_timestamp : R;
  stats_buildings : R;
  stats_roads : R;
  stats_forests : R;
  stats_elevationPoints : R;
  stats_cacheStats : C
}.
Arguments stats_loaded {C} _.
Arguments stats_timestamp {C} _.
Arguments stats_buildings {C} _.
Arguments stats_roads {C} _.
Arguments stats_forests {C} _.
Arguments stats_elevationPoints {C} _.
Arguments stats_cacheStats {C} _.

(** [getStats()]; [None] is [null]. *)
Definition getStats {C : Type} (this : t) (cacheStats : C) : option (Stats C) :=
  match mapData this with
  | None => None
  | Some data =>
      Some {| stats_loaded := true;
              stats_timestamp := timestamp data;
              stats_buildings := JS.length (buildings data);
              stats_roads := JS.length (roads data);
              stats_forests := JS.length (forests data);
              stats_elevationPoints :=
                match elevation data with
                | Some samples => JS.length samples
                | None => 0
                end;
              stats_cacheStats := cacheStats |}
  end.

(** [dispose()], on the manager; the loader's cache is cleared beside. *)
Definition dispose (this : t) : t := {|
  coordinateTransform := coordinateTransform this;
  mapData := None;
  isLoading := isLoading this;
  loaderCalls := loaderCalls this
|}.

End MapDataManager.

(** ** The coordinate transform in rounded arithmetic

    The two functions of the coordinate transform once more, with the result
    of every arithmetic operation passed through a rounding [rnd], in the
    order in which the source performs the operations.  With the identity
    for [rnd] these are the functions above; with rounding to the nearest
    double they are what the engine computes (short of overflow and
    underflow). *)

Module Rounded.

Section Operations.

Variable rnd : R -> R.

Definition realWorldToGameWorld (this : MapDataManager.t) (lat lon : R)
  : MapDataManager.GameCoords :=
  let bounds :=
    MapDataManager.realWorldBounds (MapDataManager.coordinateTransform this) in
  let size :=
    MapDataManager.gameWorldSize (MapDataManager.coordinateTransform this) in
  let normalizedX :=
    rnd (rnd (lon - ViimsiMapLoader.west bounds) /
         rnd (ViimsiMapLoader.east bounds - ViimsiMapLoader.west bounds)) in
  let normalizedZ :=
    rnd (rnd (lat - ViimsiMapLoader.south bounds) /
         rnd (ViimsiMapLoader.north bounds - ViimsiMapLoader.south bounds)) in
  let gameX := rnd (rnd (normalizedX - 0.5) * size) in
  let gameZ := rnd (rnd (normalizedZ - 0.5) * size) in
  {| MapDataManager.coord_x := gameX; MapDataManager.coord_z := gameZ |}.

Definition gameWorldToRealWorld (this : MapDataManager.t) (x z : R)
  : ViimsiMapLoader.GeoPoint :=
  let bounds :=
    MapDataManager.realWorldBounds (MapDataManager.coordinateTransform this) in
  let size :=
    MapDataManager.gameWorldSize (MapDataManager.coordinateTransform this) in
  let normalizedX := rnd (rnd (x / size) + 0.5) in
  let normalizedZ := rnd (rnd (z / size) + 0.5) in
  let lon :=
    rnd (ViimsiMapLoader.west bounds +
         rnd (normalizedX *
              rnd (ViimsiMapLoader.east bounds - ViimsiMapLoader.west bounds))) in
  let lat :=
    rnd (ViimsiMapLoader.south bounds +
         rnd (normalizedZ *
              rnd (ViimsiMapLoader.north bounds - ViimsiMapLoader.south bounds))) in
  {| ViimsiMapLoader.lat := lat; ViimsiMapLoader.lon := lon |}.

End Operations.

End Rounded.

(** ** TerrainSystem.js *)

Module TerrainSystem.

Record LodConfig : Type := {
  levels : Z;
  distances : list R;
  lod_segments : list Z
}.

Record Config : Type := {
  segments : Z;
  worldSize : R;
  heightScale : R;
  lod : LodConfig
}.

(** [this.config] as the constructor sets it. *)
Definition defaultConfig : Config := {|
  segments := 64;
  worldSize := 1000;
  heightScale := 100.0;
  lod := {| levels := 2; distances := [1000; 2000]; lod_segments := [64%Z; 32%Z] |}
|}.

(** One entry of [geometry.attributes.position], read with
    [getX]/[getY]/[getZ] and written with [setY]. *)
Record Vertex : Type := { vx : R; vy : R; vz : R }.

Definition setY (p : Vertex) (y : R) : Vertex :=
  {| vx := vx p; vy := y; vz := vz p |}.

Record Mesh : Type := {
  positions : list Vertex;
  visible : bool;
  lodLevel : Z;
  maxDistance : R
}.

Record Stats : Type := {
  triangles : R;
  vertices : R;
  lodSwitches : nat;
  lastLODSwitch : R
}.

(** The terrain system.  Mesh objects live in [objects] and are referred to
    by their position there: [lodMeshes] is an array of references and
    [terrainMesh] is a reference to one of the same objects (or [null]). *)
Record t : Type := {
  config : Config;
  objects : list Mesh;
  lodMeshes : list nat;
  terrainMesh : option nat;
  currentLOD : Z;
  heightmapData : option (list R);
  stats : Stats
}.

(** [sampleHeightmap(u, v, size)], over the array [this.heightmapData]. *)
Definition sampleHeightmap (heightmapData : list R) (u v size : R) : R :=
  let u := JS.Math_max 0 (JS.Math_min 1 u) in
  let v := JS.Math_max 0 (JS.Math_min 1 v) in
  let x := u * (size - 1) in
  let y := v * (size - 1) in
  let x0 := JS.Math_floor x in
  let y0 := JS.Math_floor y in
  let x1 := JS.Math_min (x0 + 1) (size - 1) in
  let y1 := JS.Math_min (y0 + 1) (size - 1) in
  let fx := x - x0 in
  let fy := y - y0 in
  let h00 := JS.or_else (JS.get heightmapData (y0 * size + x0)) 0 in
  let h10 := JS.or_else (JS.get heightmapData (y0 * size + x1)) 0 in
  let h01 := JS.or_else (JS.get heightmapData (y1 * size + x0)) 0 in
  let h11 := JS.or_else (JS.get heightmapData (y1 * size + x1)) 0 in
  let h0 := h00 * (1 - fx) + h10 * fx in
  let h1 := h01 * (1 - fx) + h11 * fx in
  h0 * (1 - fy) + h1 * fy.

(** World coordinate to heightmap coordinate, as [applyElevationData] and
    [getHeightAt] both write it: [(x + worldSize / 2) / worldSize]. *)
Definition heightmapCoordinate (this : t) (c : R) : R :=
  (c + worldSize (config this) / 2) / worldSize (config this).

(** The vertex update of the no-heightmap branch of [applyElevationData]. *)
Definition proceduralVertex (p : Vertex) : Vertex :=
  let x := vx p in
  let z := vz p in
  let distanceFromCenter := JS.Math_sqrt (x * x + z * z) in
  let mountainHeight := JS.Math_max 0 (150 - distanceFromCenter * 0.3) in
  let height :=
    JS.Math_sin (x * 0.01) * JS.Math_cos (z * 0.01) * 50 +
    JS.Math_sin (x * 0.005) * JS.Math_cos (z * 0.005) * 30 +
    JS.Math_sin (x * 0.02) * JS.Math_cos (z * 0.02) * 20 +
    mountainHeight in
  setY p (JS.Math_max height 0).

(** The vertex update of the main loop of [applyElevationData]. *)
Definition elevatedVertex (this : t) (heightmapData : list R)
    (heightmapSize : R) (p : Vertex) : Vertex :=
  let x := vx p in
  let z := vz p in
  let u := heightmapCoordinate this x in
  let v := heightmapCoordinate this z in
  let height := sampleHeightmap heightmapData u v heightmapSize in
  let scaledHeight := height * heightScale (config this) in
  setY p scaledHeight.

(** The vertex update of the loop that runs when the terrain is too flat. *)
Definition variedVertex (p : Vertex) : Vertex :=
  let x := vx p in
  let z := vz p in
  let distanceFromCenter := JS.Math_sqrt (x * x + z * z) in
  let mountainHeight := JS.Math_max 0 (200 - distanceFromCenter * 0.5) in
  let proceduralHeight :=
    JS.Math_sin (x * 0.01) * JS.Math_cos (z * 0.01) * 50 +
    JS.Math_sin (x * 0.005) * JS.Math_cos (z * 0.005) * 30 +
    JS.Math_sin (x * 0.02) * JS.Math_cos (z * 0.02) * 15 in
  let currentHeight := vy p in
  setY p (currentHeight + proceduralHeight + mountainHeight).

(** [appliedMinHeight] and [appliedMaxHeight] after the main loop; [None]
    is the initial [Infinity] (resp. [-Infinity]), left when the geometry
    has no vertex. *)
Definition appliedMinHeight (applied : list Vertex) : option R :=
  fold_left (fun acc p =>
               match acc with
               | None => Some (vy p)
               | Some m => Some (JS.Math_min m (vy p))
               end)
            applied None.

Definition appliedMaxHeight (applied : list Vertex) : option R :=
  fold_left (fun acc p =>
               match acc with
               | None => Some (vy p)
               | Some m => Some (JS.Math_max m (vy p))
               end)
            applied None.

(** [appliedMaxHeight - appliedMinHeight < 50] *)
Definition tooFlat (applied : list Vertex) : bool :=
  match appliedMaxHeight applied, appliedMinHeight applied with
  | Some hi, Some lo => JS.ltb (hi - lo) 50
  | _, _ => true
  end.

(** [applyElevationData(geometry, segments)]: the positions of [geometry]
    afterwards.  The debug loop over the first 100 samples only logs. *)
Definition applyElevationData (this : t) (geometry : list Vertex)
    (segments : Z) : list Vertex :=
  match heightmapData this with
  | None => map proceduralVertex geometry
  | Some [] => map proceduralVertex geometry
  | Some heightmapData =>
      let heightmapSize := JS.Math_sqrt (JS.length heightmapData) in
      let applied :=
        map (elevatedVertex this heightmapData heightmapSize) geometry in
      if tooFlat applied then map variedVertex applied else applied
  end.

(** [getHeightAt(x, z)] *)
Definition getHeightAt (this : t) (x z : R) : R :=
  match heightmapData this with
  | None => 0
  | Some heightmapData =>
      let u := heightmapCoordinate this x in
      let v := heightmapCoordinate this z in
      let heightmapSize := JS.Math_sqrt (JS.length heightmapData) in
      sampleHeightmap heightmapData u v heightmapSize *
      heightScale (config this)
  end.

(** [a[i]] for an integer index. *)
Definition at_index {A : Type} (a : list A) (i : Z) : option A :=
  if (i <? 0)%Z then None else nth_error a (Z.to_nat i).

(** [mesh.visible = flag] on the object a reference points to. *)
Fixpoint setVisible (objects : list Mesh) (ref : nat) (flag : bool)
  : list Mesh :=
  match objects, ref with
  | [], _ => []
  | m :: rest, O =>
      {| positions := positions m; visible := flag;
         lodLevel := lodLevel m; maxDistance := maxDistance m |} :: rest
  | m :: rest, S r => m :: setVisible rest r flag
  end.

(** [switchLOD(newLOD)], with the value of [Date.now()]. *)
Definition switchLOD (this : t) (newLOD : Z) (now : R) : t :=
  if ((newLOD <? 0)%Z || (Z.of_nat (List.length (lodMeshes this)) <=? newLOD)%Z)%bool
  then this
  else
    let hidden :=
      match at_index (lodMeshes this) (currentLOD this) with
      | Some current => setVisible (objects this) current false
      | None => objects this
      end in
    match at_index (lodMeshes this) newLOD with
    | Some shown =>
        {| config := config this;
           objects := setVisible hidden shown true;
           lodMeshes := lodMeshes this;
           terrainMesh := Some shown;
           currentLOD := newLOD;
           heightmapData := heightmapData this;
           stats := {| triangles := triangles (stats this);
                       vertices := vertices (stats this);
                       lodSwitches := S (lodSwitches (stats this));
                       lastLODSwitch := now |} |}
    | None => this (* excluded by the range test above *)
    end.

(** The scan of [config.lod.distances] in [updateLOD]. *)
Fixpoint firstWithin (distance : R) (thresholds : list R) (i : Z)
    (otherwise : Z) : Z :=
  match thresholds with
  | [] => otherwise
  | d :: rest =>
      if JS.leb distance d then i
      else firstWithin distance rest (i + 1)%Z otherwise
  end.

(** [updateLOD(cameraPosition)]; the terrain centre is the origin. *)
Definition updateLOD (this : t) (cameraPosition : option Vertex) (now : R)
  : t :=
  match terrainMesh this, cameraPosition with
  | Some _, Some camera =>
      let distance :=
        JS.Math_sqrt (vx camera * vx camera + vy camera * vy camera +
                      vz camera * vz camera) in
      let newLOD :=
        firstWithin distance (distances (lod (config this))) 0%Z
                    (levels (lod (config this)) - 1)%Z in
      if (newLOD =? currentLOD this)%Z then this
      else switchLOD this newLOD now
  | _, _ => this
  end.



(** [dispose()], on the fields of the terrain system; the mesh objects
    themselves are released by the rendering library. *)
Definition dispose (this : t) : t := {|
  config := config this;
  objects := objects this;
  lodMeshes := [];
  terrainMesh := None;
  currentLOD := currentLOD this;
  heightmapData := None;
  stats := stats this
|}.

End TerrainSystem.

(** ** Inputs used in the tests of the repository and in the examples below *)

Module Scenarios.

(** The 4 x 4 raster of the bilinear sampling test. *)
Definition raster4 : list R :=
  [ 0; 10; 20; 30;
    5; 15; 25; 35;
    10; 20; 30; 40;
    15; 25; 35; 45 ].

(** [new Float32Array(4)], the all-zero 2 x 2 raster of the LOD tests. *)
Definition zeros4 : list R := [0; 0; 0; 0].

(** A 2 x 2 raster that rises by one metre from west to east. *)
Definition ramp4 : list R := [0; 1; 0; 1].

(** The positions of [PlaneGeometry(1000, 1000, 2, 2)], the plane that
    [generateTerrainMesh(3, lodLevel)] builds with the default world size:
    three rows of three vertices in the XY plane, row by row from the top. *)
Definition plane3 : list TerrainSystem.Vertex :=
  [ {| TerrainSystem.vx := -500; TerrainSystem.vy := 500; TerrainSystem.vz := 0 |};
    {| TerrainSystem.vx := 0; TerrainSystem.vy := 500; TerrainSystem.vz := 0 |};
    {| TerrainSystem.vx := 500; TerrainSystem.vy := 500; TerrainSystem.vz := 0 |};
    {| TerrainSystem.vx := -500; TerrainSystem.vy := 0; TerrainSystem.vz := 0 |};
    {| TerrainSystem.vx := 0; TerrainSystem.vy := 0; TerrainSystem.vz := 0 |};
    {| TerrainSystem.vx := 500; TerrainSystem.vy := 0; TerrainSystem.vz := 0 |};
    {| TerrainSystem.vx := -500; TerrainSystem.vy := -500; TerrainSystem.vz := 0 |};
    {| TerrainSystem.vx := 0; TerrainSystem.vy := -500; TerrainSystem.vz := 0 |};
    {| TerrainSystem.vx := 500; TerrainSystem.vy := -500; TerrainSystem.vz := 0 |} ].

Definition noStats : TerrainSystem.Stats := {|
  TerrainSystem.triangles := 0;
  TerrainSystem.vertices := 0;
  TerrainSystem.lodSwitches := 0;
  TerrainSystem.lastLODSwitch := 0
|}.

(** A terrain system right after construction, holding a heightmap. *)
Definition terrainWith (heightmap : list R) : TerrainSystem.t := {|
  TerrainSystem.config := TerrainSystem.defaultConfig;
  TerrainSystem.objects := [];
  TerrainSystem.lodMeshes := [];
  TerrainSystem.terrainMesh := None;
  TerrainSystem.currentLOD := 0;
  TerrainSystem.heightmapData := Some heightmap;
  TerrainSystem.stats := noStats
|}.

Definition lodMesh (level : Z) (distance : R) (shown : bool)
  : TerrainSystem.Mesh := {|
  TerrainSystem.positions := [];
  TerrainSystem.visible := shown;
  TerrainSystem.lodLevel := level;
  TerrainSystem.maxDistance := distance
|}.

(** A terrain system after [generateTerrainLOD] with the default two
    levels: two mesh objects, the first one visible and primary. *)
Definition terrainTwoLevels : TerrainSystem.t := {|
  TerrainSystem.config := TerrainSystem.defaultConfig;
  TerrainSystem.objects := [lodMesh 0 1000 true; lodMesh 1 2000 false];
  TerrainSystem.lodMeshes := [0%nat; 1%nat];
  TerrainSystem.terrainMesh := Some 0%nat;
  TerrainSystem.currentLOD := 0;
  TerrainSystem.heightmapData := Some zeros4;
  TerrainSystem.stats := noStats
|}.

(** A snapshot that holds the given raster and buildings. *)
Definition snapshotWith (heightmap : option (list R))
    (bs : list MapDataManager.Building) : MapDataManager.MapData := {|
  MapDataManager.elevation := heightmap;
  MapDataManager.buildings := bs;
  MapDataManager.roads := [];
  MapDataManager.forests := [];
  MapDataManager.bounds := ViimsiMapLoader.viimsiParishBounds;
  MapDataManager.gameWorldBounds := {|
    MapDataManager.minX := -1000; MapDataManager.maxX := 1000;
    MapDataManager.minZ := -1000; MapDataManager.maxZ := 1000 |};
  MapDataManager.timestamp := 0
|}.

(** A manager after one successful load of that snapshot. *)
Definition managerWith (heightmap : option (list R))
    (bs : list MapDataManager.Building) : MapDataManager.t := {|
  MapDataManager.coordinateTransform :=
    MapDataManager.coordinateTransform MapDataManager.create;
  MapDataManager.mapData := Some (snapshotWith heightmap bs);
  MapDataManager.isLoading := false;
  MapDataManager.loaderCalls := 1
|}.

(** A building of height 6 standing at [(x, 0)] in the game world. *)
Definition buildingAt (name : string) (x : R) : MapDataManager.Building := {|
  MapDataManager.building := {|
    ViimsiMapLoader.building_name := name;
    ViimsiMapLoader.building_type := "house";
    ViimsiMapLoader.building_lat := None;
    ViimsiMapLoader.building_lon := None;
    ViimsiMapLoader.building_geometry := None;
    ViimsiMapLoader.building_height := Some (JS.Number 6)
  |};
  MapDataManager.gamePosition := {|
    MapDataManager.pos_x := x;
    MapDataManager.pos_y := Some 3;
    MapDataManager.pos_z := 0
  |};
  MapDataManager.gameHeight := JS.Number 6;
  MapDataManager.realWorldCoords := (None, None)
|}.

(** Six buildings within 100 units of the origin; the last one stored is
    the nearest. *)
Definition sixBuildings : list MapDataManager.Building :=
  [ buildingAt "A" 60; buildingAt "B" 60; buildingAt "C" 60;
    buildingAt "D" 60; buildingAt "E" 60; buildingAt "F" 10 ].

(** What the mocked loader of the tests resolves with: a 2 x 2 raster and
    no entities. *)
Definition rawSquare : ViimsiMapLoader.MapData := {|
  ViimsiMapLoader.elevation := Some [1; 2; 3; 4];
  ViimsiMapLoader.buildings := [];
  ViimsiMapLoader.roads := [];
  ViimsiMapLoader.forests := [];
  ViimsiMapLoader.bounds := ViimsiMapLoader.viimsiParishBounds;
  ViimsiMapLoader.timestamp := 0
|}.

(** The event loop while the first call of [loadMapData] waits for the
    loader and the second one polls the flag. *)
Definition bothPending (this : MapDataManager.t) : MapDataManager.system := {|
  MapDataManager.manager := {|
    MapDataManager.coordinateTransform := MapDataManager.coordinateTransform this;
    MapDataManager.mapData := MapDataManager.mapData this;
    MapDataManager.isLoading := true;
    MapDataManager.loaderCalls := S (MapDataManager.loaderCalls this)
  |};
  MapDataManager.tasks :=
    [ MapDataManager.Suspended MapDataManager.AwaitLoader;
      MapDataManager.Suspended MapDataManager.AwaitTimer ]
|}.

(** The manager once the first call has run to its end. *)
Definition afterLoad (this : MapDataManager.t)
    (loaded : JS.outcome ViimsiMapLoader.MapData) : MapDataManager.t := {|
  MapDataManager.coordinateTransform := MapDataManager.coordinateTransform this;
  MapDataManager.mapData :=
    match loaded with
    | JS.Resolved rawMapData =>
        Some (MapDataManager.transformMapData this rawMapData)
    | JS.Rejected _ => MapDataManager.mapData this
    end;
  MapDataManager.isLoading := false;
  MapDataManager.loaderCalls := S (MapDataManager.loaderCalls this)
|}.

(** What the first call settles to. *)
Definition firstResult (this : MapDataManager.t)
    (loaded : JS.outcome ViimsiMapLoader.MapData)
  : JS.outcome (option MapDataManager.MapData) :=
  match loaded with
  | JS.Resolved rawMapData =>
      JS.Resolved (Some (MapDataManager.transformMapData this rawMapData))
  | JS.Rejected error => JS.Rejected error
  end.

(** The event loop once the loader has settled and the second call still
    waits for its timer. *)
Definition firstSettled (this : MapDataManager.t)
    (loaded : JS.outcome ViimsiMapLoader.MapData) : MapDataManager.system := {|
  MapDataManager.manager := afterLoad this loaded;
  MapDataManager.tasks :=
    [ MapDataManager.Settled (firstResult this loaded);
      MapDataManager.Suspended MapDataManager.AwaitTimer ]
|}.

(** The event loop once the timer of the second call has fired again. *)
Definition bothSettled (this : MapDataManager.t)
    (loaded : JS.outcome ViimsiMapLoader.MapData) : MapDataManager.system := {|
  MapDataManager.manager := afterLoad this loaded;
  MapDataManager.tasks :=
    [ MapDataManager.Settled (firstResult this loaded);
      MapDataManager.Settled
        (JS.Resolved (MapDataManager.mapData (afterLoad this loaded))) ]
|}.

Definition settled (k : MapDataManager.task) : Prop :=
  match k with
  | MapDataManager.Settled _ => True
  | MapDataManager.Suspended _ => False
  end.

(** An answer of the Overpass API with one house, a square footprint within
    the parish, and one way that is no building. *)
Definition osmHouse : ViimsiMapLoader.OsmElement := {|
  ViimsiMapLoader.element_type := "way";
  ViimsiMapLoader.element_id := 101;
  ViimsiMapLoader.element_tags :=
    Some [ ("building"%string, "house"%string);
           ("name"%string, "Rannamaja"%string) ];
  ViimsiMapLoader.element_geometry :=
    Some [ {| ViimsiMapLoader.lat := 59.48; ViimsiMapLoader.lon := 24.76 |};
           {| ViimsiMapLoader.lat := 59.48; ViimsiMapLoader.lon := 24.78 |};
           {| ViimsiMapLoader.lat := 59.50; ViimsiMapLoader.lon := 24.78 |};
           {| ViimsiMapLoader.lat := 59.50; ViimsiMapLoader.lon := 24.76 |} ]
|}.

Definition osmTrack : ViimsiMapLoader.OsmElement := {|
  ViimsiMapLoader.element_type := "way";
  ViimsiMapLoader.element_id := 102;
  ViimsiMapLoader.element_tags := Some [ ("highway"%string, "track"%string) ];
  ViimsiMapLoader.element_geometry :=
    Some [ {| ViimsiMapLoader.lat := 59.47; ViimsiMapLoader.lon := 24.75 |};
           {| ViimsiMapLoader.lat := 59.48; ViimsiMapLoader.lon := 24.76 |} ]
|}.

(** A [parseFloat] or [parseInt] that reads nothing: every text is [NaN]. *)
Definition parsesNothing (text : string) : option R := None.

(** The state of the level-of-detail meshes as [generateTerrainLOD] leaves
    it: the references in [lodMeshes] are distinct objects of the store,
    [currentLOD] is the index of one of them, that one is the primary mesh,
    and it is the only one of them that is visible. *)
Definition oneLevelShown (this : TerrainSystem.t) : Prop :=
  NoDup (TerrainSystem.lodMeshes this) /\
  (forall ref, In ref (TerrainSystem.lodMeshes this) ->
               (ref < List.length (TerrainSystem.objects this))%nat) /\
  (0 <= TerrainSystem.currentLOD this
   < Z.of_nat (List.length (TerrainSystem.lodMeshes this)))%Z /\
  TerrainSystem.terrainMesh this
  = nth_error (TerrainSystem.lodMeshes this)
              (Z.to_nat (TerrainSystem.currentLOD this)) /\
  (forall i ref m,
      nth_error (TerrainSystem.lodMeshes this) i = Some ref ->
      nth_error (TerrainSystem.objects this) ref = Some m ->
      TerrainSystem.visible m
      = Nat.eqb i (Z.to_nat (TerrainSystem.currentLOD this))).

End Scenarios.

(** * Properties *)

(** ** Numbers, comparisons and array access *)

Lemma leb_true (x y : R) : x <= y -> JS.leb x y = true.
Proof. intros H. unfold JS.leb. destruct (Rle_dec x y); [reflexivity | contradiction]. Qed.

Lemma leb_false (x y : R) : y < x -> JS.leb x y = false.
Proof. intros H. unfold JS.leb. destruct (Rle_dec x y); [lra | reflexivity]. Qed.

Lemma ltb_true (x y : R) : x < y -> JS.ltb x y = true.
Proof. intros H. unfold JS.ltb. destruct (Rlt_dec x y); [reflexivity | contradiction]. Qed.

Lemma ltb_false (x y : R) : y <= x -> JS.ltb x y = false.
Proof. intros H. unfold JS.ltb. destruct (Rlt_dec x y); [lra | reflexivity]. Qed.

Lemma truthy_true (x : R) : x <> 0 -> JS.truthy x = true.
Proof. intros H. unfold JS.truthy. destruct (Req_dec_T x 0); [contradiction | reflexivity]. Qed.

Lemma truthy_zero : JS.truthy 0 = false.
Proof. unfold JS.truthy. destruct (Req_dec_T 0 0); [reflexivity | contradiction]. Qed.

(** [v || 0] is [v] itself when [v] is a number. *)
Lemma or_else_zero (x : R) : JS.or_else (Some x) 0 = x.
Proof.
  unfold JS.or_else, JS.truthy.
  destruct (Req_dec_T x 0) as [E | _]; [symmetry; exact E | reflexivity].
Qed.

Lemma or_else_nonzero (x d : R) : x <> 0 -> JS.or_else (Some x) d = x.
Proof. intros H. unfold JS.or_else. now rewrite truthy_true. Qed.

(** [a[i] || 0] reads the list with default [0]. *)
Lemma or_else_nth (a : list R) (k : nat) :
  JS.or_else (nth_error a k) 0 = nth k a 0.
Proof.
  revert k. induction a as [| h a IH]; intros [| k]; simpl; try reflexivity.
  - apply or_else_zero.
  - apply IH.
Qed.

Lemma get_integer {A : Type} (a : list A) (k : Z) :
  (0 <= k)%Z -> JS.get a (IZR k) = nth_error a (Z.to_nat k).
Proof.
  intros Hk. unfold JS.get. rewrite ZfloorZ.
  destruct (Req_dec_T (IZR k) (IZR k)) as [_ | N]; [| contradiction].
  apply Z.leb_le in Hk. now rewrite Hk.
Qed.

Lemma floor_integer (k : Z) : JS.Math_floor (IZR k) = IZR k.
Proof. unfold JS.Math_floor. now rewrite ZfloorZ. Qed.

Lemma min_integer (a b : Z) : JS.Math_min (IZR a) (IZR b) = IZR (Z.min a b).
Proof.
  unfold JS.Math_min, Rmin. destruct (Rle_dec (IZR a) (IZR b)) as [H | H].
  - apply le_IZR in H. now rewrite Z.min_l.
  - rewrite Z.min_r; [reflexivity |].
    apply Z.lt_le_incl, lt_IZR. lra.
Qed.

Lemma max_integer (a b : Z) : JS.Math_max (IZR a) (IZR b) = IZR (Z.max a b).
Proof.
  unfold JS.Math_max, Rmax. destruct (Rle_dec (IZR a) (IZR b)) as [H | H].
  - apply le_IZR in H. now rewrite Z.max_r.
  - rewrite Z.max_l; [reflexivity |].
    apply Z.lt_le_incl, lt_IZR. lra.
Qed.

(** [Math.max(0, Math.min(1, u))] is [u] on the unit interval and stays in
    it everywhere. *)
Lemma clamp01_id (u : R) : 0 <= u <= 1 -> JS.Math_max 0 (JS.Math_min 1 u) = u.
Proof.
  intros [H0 H1]. unfold JS.Math_max, JS.Math_min, Rmax, Rmin.
  destruct (Rle_dec 1 u); destruct (Rle_dec 0 _); lra.
Qed.

Lemma clamp01_range (u : R) : 0 <= JS.Math_max 0 (JS.Math_min 1 u) <= 1.
Proof.
  unfold JS.Math_max, JS.Math_min, Rmax, Rmin.
  destruct (Rle_dec 1 u); destruct (Rle_dec 0 _); lra.
Qed.

(** [Math.sqrt(a.length)] for an array of [n * n] entries. *)
Lemma sqrt_square_length {A : Type} (a : list A) (n : Z) :
  (0 <= n)%Z -> Z.of_nat (List.length a) = (n * n)%Z ->
  JS.Math_sqrt (JS.length a) = IZR n.
Proof.
  intros Hn Hlen. unfold JS.Math_sqrt, JS.length.
  rewrite INR_IZR_INZ, Hlen, mult_IZR.
  apply sqrt_square. now apply IZR_le.
Qed.

(** [Math.sqrt(s) <= r] compares [s] with the square of [r]. *)
Lemma sqrt_le_square (s r : R) :
  0 <= s -> 0 <= r -> (JS.Math_sqrt s <= r <-> s <= r * r).
Proof.
  intros Hs Hr. unfold JS.Math_sqrt. split; intros H.
  - apply sqrt_le_0; [lra | nra |]. now rewrite sqrt_square.
  - rewrite <- (sqrt_square r Hr). apply sqrt_le_1; [lra | nra | exact H].
Qed.

(** ** Coordinate transform *)

Section RoundTrip.

Variable this : MapDataManager.t.

Let bounds := MapDataManager.realWorldBounds (MapDataManager.coordinateTransform this).

Hypothesis size_nonzero :
  MapDataManager.gameWorldSize (MapDataManager.coordinateTransform this) <> 0.
Hypothesis wider : ViimsiMapLoader.east bounds <> ViimsiMapLoader.west bounds.
Hypothesis taller : ViimsiMapLoader.north bounds <> ViimsiMapLoader.south bounds.

(** Whatever the box and the world size, [gameWorldToRealWorld] undoes
    [realWorldToGameWorld]. *)
Lemma gameWorldToRealWorld_realWorldToGameWorld (lat lon : R) :
  let g := MapDataManager.realWorldToGameWorld this lat lon in
  MapDataManager.gameWorldToRealWorld this
    (MapDataManager.coord_x g) (MapDataManager.coord_z g)
  = {| ViimsiMapLoader.lat := lat; ViimsiMapLoader.lon := lon |}.
Proof.
  unfold MapDataManager.gameWorldToRealWorld, MapDataManager.realWorldToGameWorld.
  cbn [MapDataManager.coord_x MapDataManager.coord_z].
  fold bounds. f_equal; field; split; lra.
Qed.

End RoundTrip.

(** C1.  For every latitude and longitude inside the Viimsi Parish bounding
    box (north 59.5167, south 59.4167, east 24.8333, west 24.7000),
    [realWorldToGameWorld] followed by [gameWorldToRealWorld] gives back the
    latitude and the longitude within 0.001 degrees. *)
Theorem roundtrip_within_tolerance :
  forall lat lon : R,
    59.4167 <= lat <= 59.5167 ->
    24.7000 <= lon <= 24.8333 ->
    let g := MapDataManager.realWorldToGameWorld MapDataManager.create lat lon in
    let back :=
      MapDataManager.gameWorldToRealWorld MapDataManager.create
        (MapDataManager.coord_x g) (MapDataManager.coord_z g) in
    Rabs (ViimsiMapLoader.lat back - lat) < 0.001 /\
    Rabs (ViimsiMapLoader.lon back - lon) < 0.001.
Proof.
  intros lat lon _ _ g back. subst g back.
  rewrite gameWorldToRealWorld_realWorldToGameWorld; cbn; try lra.
  rewrite !Rminus_diag, Rabs_R0. lra.
Qed.

Lemma roundtrip_within_tolerance_witness :
  (59.4167 <= 59.4833 <= 59.5167) /\ (24.7000 <= 24.7667 <= 24.8333) /\
  let g := MapDataManager.realWorldToGameWorld MapDataManager.create 59.4833 24.7667 in
  let back :=
    MapDataManager.gameWorldToRealWorld MapDataManager.create
      (MapDataManager.coord_x g) (MapDataManager.coord_z g) in
  Rabs (ViimsiMapLoader.lat back - 59.4833) < 0.001 /\
  Rabs (ViimsiMapLoader.lon back - 24.7667) < 0.001.
Proof.
  split; [lra |]. split; [lra |].
  apply (roundtrip_within_tolerance 59.4833 24.7667); lra.
Defined.

(** *** The round trip in rounded arithmetic *)

Lemma Rabs_le_both (x e : R) : Rabs x <= e -> - e <= x <= e.
Proof.
  intros H. pose proof (Rle_abs x). pose proof (Rle_abs (- x)) as H1.
  rewrite Rabs_Ropp in H1. lra.
Qed.

Section Rounding.

Variable rnd : R -> R.
Variable eps : R.

Hypothesis eps_range : 0 <= eps <= 1 / 10000000.
Hypothesis rnd_ok : forall x, Rabs (rnd x - x) <= eps * Rabs x.

Lemma rnd_close (x M : R) :
  Rabs x <= M -> x - eps * M <= rnd x <= x + eps * M.
Proof.
  intros H. pose proof (rnd_ok x) as Hx.
  assert (H0 : Rabs (rnd x - x) <= eps * M)
    by (apply Rle_trans with (eps * Rabs x); [exact Hx | nra]).
  apply Rabs_le_both in H0. lra.
Qed.

(** One axis of the transform, there and back: a coordinate [c] of an
    interval [lo, hi] comes back within 200 roundings' worth of itself. *)
Lemma axis_roundtrip (lo hi c : R) :
  0 <= lo <= 100 -> 1 / 20 <= hi - lo <= 1 -> lo <= c <= hi ->
  Rabs (rnd (lo +
             rnd (rnd (rnd (rnd (rnd (rnd (rnd (c - lo) / rnd (hi - lo)) - 0.5)
                                 * 2000) / 2000) + 0.5)
                  * rnd (hi - lo)))
        - c) <= 200 * eps.
Proof.
  intros lo_range width inside.
  set (D := hi - lo). set (A := c - lo).
  assert (HD : 1 / 20 <= D <= 1) by (unfold D; lra).
  assert (HA : 0 <= A <= D) by (unfold A, D; lra).
  assert (Hd : D - eps * 1 <= rnd D <= D + eps * 1)
    by (apply rnd_close, Rabs_le; lra).
  set (d := rnd D) in *.
  assert (Ha : A - eps * 1 <= rnd A <= A + eps * 1)
    by (apply rnd_close, Rabs_le; lra).
  set (a := rnd A) in *.
  assert (Hdpos : 1 / 25 <= d) by lra.
  set (N := A / D).
  assert (HN : 0 <= N <= 1).
  { unfold N. split.
    - apply Rmult_le_pos; [lra |]. left. apply Rinv_0_lt_compat. lra.
    - apply Rmult_le_reg_r with D; [lra |].
      unfold Rdiv. rewrite Rmult_assoc, Rinv_l by lra. lra. }
  assert (HND : N * D = A) by (unfold N; field; lra).
  set (q := a / d).
  assert (Hqd : q * d = a) by (unfold q; field; lra).
  assert (Hq : N - 50 * eps <= q <= N + 50 * eps).
  { split; apply Rmult_le_reg_r with d; try lra; rewrite Hqd; nra. }
  assert (Hn : q - eps * 2 <= rnd q <= q + eps * 2)
    by (apply rnd_close, Rabs_le; lra).
  set (n := rnd q) in *.
  assert (Hb : (n - 0.5) - eps * 1 <= rnd (n - 0.5) <= (n - 0.5) + eps * 1)
    by (apply rnd_close, Rabs_le; lra).
  set (b := rnd (n - 0.5)) in *.
  assert (Hg : b * 2000 - eps * 2000 <= rnd (b * 2000) <= b * 2000 + eps * 2000)
    by (apply rnd_close, Rabs_le; lra).
  set (g := rnd (b * 2000)) in *.
  assert (Hc : g / 2000 - eps * 1 <= rnd (g / 2000) <= g / 2000 + eps * 1)
    by (apply rnd_close, Rabs_le; lra).
  set (c' := rnd (g / 2000)) in *.
  assert (Hn' : (c' + 0.5) - eps * 2 <= rnd (c' + 0.5) <= (c' + 0.5) + eps * 2)
    by (apply rnd_close, Rabs_le; lra).
  set (n' := rnd (c' + 0.5)) in *.
  assert (Hn'N : N - 60 * eps <= n' <= N + 60 * eps) by lra.
  assert (Hprod : A - 70 * eps <= n' * d <= A + 70 * eps) by nra.
  assert (Hp : n' * d - eps * 2 <= rnd (n' * d) <= n' * d + eps * 2)
    by (apply rnd_close, Rabs_le; lra).
  set (p := rnd (n' * d)) in *.
  assert (Hl : (lo + p) - eps * 102 <= rnd (lo + p) <= (lo + p) + eps * 102)
    by (apply rnd_close, Rabs_le; lra).
  apply Rabs_le. unfold A in *. lra.
Qed.

(** The round trip survives rounding.  Let every operation be rounded with
    a relative error of at most [eps <= 1e-7] (the unit roundoff of doubles
    is 2^-53, that of single precision 2^-24), in a world of size 2000 and a
    box between 0 and 100 degrees that is between 0.05 and 1 degree wide and
    high, as the Viimsi box is.  Then a point of the box comes back within
    [200 * eps], which is less than 0.001 degrees. *)
Lemma roundtrip_survives_rounding (this : MapDataManager.t) (lat lon : R) :
  let bounds :=
    MapDataManager.realWorldBounds (MapDataManager.coordinateTransform this) in
  MapDataManager.gameWorldSize (MapDataManager.coordinateTransform this) = 2000 ->
  0 <= ViimsiMapLoader.south bounds <= 100 ->
  0 <= ViimsiMapLoader.west bounds <= 100 ->
  1 / 20 <= ViimsiMapLoader.north bounds - ViimsiMapLoader.south bounds <= 1 ->
  1 / 20 <= ViimsiMapLoader.east bounds - ViimsiMapLoader.west bounds <= 1 ->
  ViimsiMapLoader.south bounds <= lat <= ViimsiMapLoader.north bounds ->
  ViimsiMapLoader.west bounds <= lon <= ViimsiMapLoader.east bounds ->
  let g := Rounded.realWorldToGameWorld rnd this lat lon in
  let back :=
    Rounded.gameWorldToRealWorld rnd this
      (MapDataManager.coord_x g) (MapDataManager.coord_z g) in
  Rabs (ViimsiMapLoader.lat back - lat) <= 200 * eps /\
  Rabs (ViimsiMapLoader.lon back - lon) <= 200 * eps /\
  200 * eps < 0.001.
Proof.
  intros bounds Hsize Hs Hw Hns Hew Hlat Hlon g back.
  unfold back, g, Rounded.gameWorldToRealWorld, Rounded.realWorldToGameWorld.
  cbn [MapDataManager.coord_x MapDataManager.coord_z
       ViimsiMapLoader.lat ViimsiMapLoader.lon].
  fold bounds. rewrite Hsize.
  split; [apply axis_roundtrip; assumption |].
  split; [apply axis_roundtrip; assumption |].
  lra.
Qed.

End Rounding.

(** Without rounding the rounded functions are the exact ones. *)
Lemma rounded_identity (this : MapDataManager.t) (a b : R) :
  Rounded.realWorldToGameWorld (fun x => x) this a b
  = MapDataManager.realWorldToGameWorld this a b /\
  Rounded.gameWorldToRealWorld (fun x => x) this a b
  = MapDataManager.gameWorldToRealWorld this a b.
Proof. split; reflexivity. Qed.

(** The Viimsi box and the manager's world size meet the conditions. *)
Lemma roundtrip_survives_rounding_on_viimsi (rnd : R -> R) (lat lon : R) :
  (forall x, Rabs (rnd x - x) <= / 2 ^ 53 * Rabs x) ->
  59.4167 <= lat <= 59.5167 ->
  24.7000 <= lon <= 24.8333 ->
  let g := Rounded.realWorldToGameWorld rnd MapDataManager.create lat lon in
  let back :=
    Rounded.gameWorldToRealWorld rnd MapDataManager.create
      (MapDataManager.coord_x g) (MapDataManager.coord_z g) in
  Rabs (ViimsiMapLoader.lat back - lat) < 0.001 /\
  Rabs (ViimsiMapLoader.lon back - lon) < 0.001.
Proof.
  intros Hrnd Hlat Hlon g back.
  assert (Heps : 0 <= / 2 ^ 53 <= 1 / 10000000).
  { split; [left; apply Rinv_0_lt_compat; apply pow_lt; lra |].
    replace (1 / 10000000) with (/ 10000000) by lra.
    apply Rinv_le_contravar; [lra |].
    replace 10000000 with (10 ^ 7) by lra.
    apply Rle_trans with (16 ^ 7); [apply pow_incr; lra |].
    replace 16 with (2 ^ 4) by lra. rewrite <- pow_mult.
    apply Rle_pow; [lra | lia]. }
  assert (H : Rabs (ViimsiMapLoader.lat back - lat) <= 200 * / 2 ^ 53 /\
              Rabs (ViimsiMapLoader.lon back - lon) <= 200 * / 2 ^ 53 /\
              200 * / 2 ^ 53 < 0.001).
  { apply (roundtrip_survives_rounding rnd (/ 2 ^ 53) Heps Hrnd
             MapDataManager.create lat lon); cbn; lra. }
  lra.
Qed.

(** ** Bilinear sampling *)

(** Reads of a literal raster at a literal index are computed. *)
Ltac read_raster :=
  repeat match goal with
  | |- context [nth (Z.to_nat ?e) ?l ?d] =>
      let k := eval vm_compute in (Z.to_nat e) in
      change (nth (Z.to_nat e) l d) with (nth k l d)
  end.

(** Reading the raster at integer column [a] and row [b]. *)
Lemma sample_cell (hm : list R) (n a b : Z) :
  (0 <= n)%Z -> (0 <= a)%Z -> (0 <= b)%Z ->
  JS.or_else (JS.get hm (IZR b * IZR n + IZR a)) 0
  = nth (Z.to_nat (b * n + a)) hm 0.
Proof.
  intros Hn Ha Hb.
  rewrite <- mult_IZR, <- plus_IZR, get_integer by nia.
  apply or_else_nth.
Qed.

(** [sampleHeightmap] blends the four samples around the clamped point
    linearly along each axis: with [i], [j] the integer parts of the grid
    coordinates and [fx], [fy] the fractional parts, the result is the
    bilinear interpolant of the samples at columns [i], [i+1] and rows [j],
    [j+1], the upper indices held at [n - 1]. *)
Lemma sampleHeightmap_bilinear (hm : list R) (n : Z) (u v : R) :
  (1 <= n)%Z ->
  let x := JS.Math_max 0 (JS.Math_min 1 u) * (IZR n - 1) in
  let y := JS.Math_max 0 (JS.Math_min 1 v) * (IZR n - 1) in
  let i := Zfloor x in
  let j := Zfloor y in
  let i1 := Z.min (i + 1) (n - 1) in
  let j1 := Z.min (j + 1) (n - 1) in
  let fx := x - IZR i in
  let fy := y - IZR j in
  TerrainSystem.sampleHeightmap hm u v (IZR n) =
    (nth (Z.to_nat (j * n + i)) hm 0 * (1 - fx) +
     nth (Z.to_nat (j * n + i1)) hm 0 * fx) * (1 - fy) +
    (nth (Z.to_nat (j1 * n + i)) hm 0 * (1 - fx) +
     nth (Z.to_nat (j1 * n + i1)) hm 0 * fx) * fy.
Proof.
  intros Hn x y i j i1 j1 fx fy.
  assert (Hn' : 0 <= IZR n - 1) by (apply IZR_le in Hn; lra).
  assert (Hx : 0 <= x).
  { unfold x. apply Rmult_le_pos; [apply clamp01_range | exact Hn']. }
  assert (Hy : 0 <= y).
  { unfold y. apply Rmult_le_pos; [apply clamp01_range | exact Hn']. }
  assert (Hi : (0 <= i)%Z) by (apply Zfloor_lub; exact Hx).
  assert (Hj : (0 <= j)%Z) by (apply Zfloor_lub; exact Hy).
  assert (Hi1 : (0 <= i1)%Z) by (unfold i1; lia).
  assert (Hj1 : (0 <= j1)%Z) by (unfold j1; lia).
  unfold TerrainSystem.sampleHeightmap, JS.Math_floor.
  fold x y. fold i j.
  replace (IZR i + 1) with (IZR (i + 1)) by (rewrite plus_IZR; reflexivity).
  replace (IZR j + 1) with (IZR (j + 1)) by (rewrite plus_IZR; reflexivity).
  replace (IZR n - 1) with (IZR (n - 1)) by (rewrite minus_IZR; reflexivity).
  rewrite !min_integer. fold i1 j1.
  rewrite !sample_cell by lia.
  reflexivity.
Qed.

(** At a grid corner the blend is the sample stored there. *)
Lemma sampleHeightmap_corner (hm : list R) (n i j : Z) :
  (2 <= n)%Z -> (0 <= i < n)%Z -> (0 <= j < n)%Z ->
  TerrainSystem.sampleHeightmap hm
    (IZR i / (IZR n - 1)) (IZR j / (IZR n - 1)) (IZR n)
  = nth (Z.to_nat (j * n + i)) hm 0.
Proof.
  intros Hn Hi Hj.
  assert (Hn' : 1 <= IZR n - 1) by (apply IZR_le in Hn; lra).
  assert (Hu : forall k : Z, (0 <= k < n)%Z -> 0 <= IZR k / (IZR n - 1) <= 1).
  { intros k [Hk0 Hk1]. apply IZR_le in Hk0.
    assert (IZR k <= IZR n - 1).
    { rewrite <- minus_IZR. apply IZR_le. lia. }
    split.
    - apply Rmult_le_pos; [exact Hk0 |]. left. apply Rinv_0_lt_compat. lra.
    - apply Rmult_le_reg_r with (IZR n - 1); [lra |].
      unfold Rdiv. rewrite Rmult_assoc, Rinv_l by lra. lra. }
  rewrite sampleHeightmap_bilinear by lia.
  rewrite !clamp01_id by (apply Hu; assumption).
  replace (IZR i / (IZR n - 1) * (IZR n - 1)) with (IZR i) by (field; lra).
  replace (IZR j / (IZR n - 1) * (IZR n - 1)) with (IZR j) by (field; lra).
  rewrite !ZfloorZ. lra.
Qed.

Lemma sampleHeightmap_centre :
  TerrainSystem.sampleHeightmap Scenarios.raster4 0.5 0.5 4 = 22.5.
Proof.
  rewrite (sampleHeightmap_bilinear Scenarios.raster4 4 0.5 0.5) by lia.
  rewrite !clamp01_id by lra.
  replace (Zfloor (0.5 * (4 - 1))) with 1%Z
    by (symmetry; apply Zfloor_eq; lra).
  read_raster. unfold Scenarios.raster4. cbn [nth]. lra.
Qed.

(** C2.  [sampleHeightmap] is exact bilinear interpolation over the
    row-major raster: the result is the linear blend, along each axis, of
    the four samples around the clamped point.  On the 4 x 4 test raster the
    centre sample is 22.5 and the corner samples are 0 and 45, and at every
    exact grid corner of every raster the value stored at that corner comes
    back unchanged. *)
Theorem sampleHeightmap_exact :
  TerrainSystem.sampleHeightmap Scenarios.raster4 0.5 0.5 4 = 22.5 /\
  TerrainSystem.sampleHeightmap Scenarios.raster4 0 0 4 = 0 /\
  TerrainSystem.sampleHeightmap Scenarios.raster4 1 1 4 = 45 /\
  (forall (hm : list R) (n i j : Z) (h : R),
      (2 <= n)%Z -> (0 <= i < n)%Z -> (0 <= j < n)%Z ->
      nth_error hm (Z.to_nat (j * n + i)) = Some h ->
      TerrainSystem.sampleHeightmap hm
        (IZR i / (IZR n - 1)) (IZR j / (IZR n - 1)) (IZR n) = h) /\
  (forall (hm : list R) (n : Z) (u v : R),
      (1 <= n)%Z ->
      let x := JS.Math_max 0 (JS.Math_min 1 u) * (IZR n - 1) in
      let y := JS.Math_max 0 (JS.Math_min 1 v) * (IZR n - 1) in
      let i := Zfloor x in
      let j := Zfloor y in
      let i1 := Z.min (i + 1) (n - 1) in
      let j1 := Z.min (j + 1) (n - 1) in
      let fx := x - IZR i in
      let fy := y - IZR j in
      (0 <= i <= n - 1)%Z /\ (0 <= j <= n - 1)%Z /\
      0 <= fx < 1 /\ 0 <= fy < 1 /\
      TerrainSystem.sampleHeightmap hm u v (IZR n) =
        (1 - fx) * (1 - fy) * nth (Z.to_nat (j * n + i)) hm 0 +
        fx * (1 - fy) * nth (Z.to_nat (j * n + i1)) hm 0 +
        (1 - fx) * fy * nth (Z.to_nat (j1 * n + i)) hm 0 +
        fx * fy * nth (Z.to_nat (j1 * n + i1)) hm 0).
Proof.
  split; [exact sampleHeightmap_centre |].
  split.
  { replace 0 with (IZR 0 / (IZR 4 - 1)) at 1 2 by lra.
    rewrite sampleHeightmap_corner by lia.
    read_raster. reflexivity. }
  split.
  { replace 1 with (IZR 3 / (IZR 4 - 1)) at 1 2 by lra.
    rewrite sampleHeightmap_corner by lia.
    read_raster. reflexivity. }
  split.
  { intros hm n i j h Hn Hi Hj Hh.
    rewrite sampleHeightmap_corner by assumption.
    now apply nth_error_nth. }
  intros hm n u v Hn x y i j i1 j1 fx fy.
  assert (Hn' : 0 <= IZR n - 1) by (apply IZR_le in Hn; lra).
  assert (Hx : 0 <= x <= IZR n - 1).
  { unfold x. pose proof (clamp01_range u). nra. }
  assert (Hy : 0 <= y <= IZR n - 1).
  { unfold y. pose proof (clamp01_range v). nra. }
  assert (Hi : (0 <= i <= n - 1)%Z).
  { split; [apply Zfloor_lub; tauto |].
    apply le_IZR. rewrite minus_IZR.
    apply Rle_trans with x; [apply Zfloor_bound | tauto]. }
  assert (Hj : (0 <= j <= n - 1)%Z).
  { split; [apply Zfloor_lub; tauto |].
    apply le_IZR. rewrite minus_IZR.
    apply Rle_trans with y; [apply Zfloor_bound | tauto]. }
  split; [exact Hi |]. split; [exact Hj |].
  split; [unfold fx, i; pose proof (Zfloor_bound x); lra |].
  split; [unfold fy, j; pose proof (Zfloor_bound y); lra |].
  rewrite (sampleHeightmap_bilinear hm n u v Hn).
  fold x y. fold i j. fold i1 j1. fold fx fy. ring.
Qed.

Lemma sampleHeightmap_exact_witness :
  (2 <= 4)%Z /\ (0 <= 1 < 4)%Z /\ (0 <= 2 < 4)%Z /\
  nth_error Scenarios.raster4 (Z.to_nat (2 * 4 + 1)) = Some 20 /\
  TerrainSystem.sampleHeightmap Scenarios.raster4
    (IZR 1 / (IZR 4 - 1)) (IZR 2 / (IZR 4 - 1)) (IZR 4) = 20.
Proof.
  assert (H : nth_error Scenarios.raster4 (Z.to_nat (2 * 4 + 1)) = Some 20)
    by reflexivity.
  split; [lia |]. split; [lia |]. split; [lia |]. split; [exact H |].
  apply (proj1 (proj2 (proj2 (proj2 sampleHeightmap_exact)))
           Scenarios.raster4 4%Z 1%Z 2%Z 20); try lia; exact H.
Defined.

(** ** Road widths *)

Lemma inherits_iff (key : string) :
  JS.inherits key = true <-> In key JS.objectPrototype.
Proof.
  unfold JS.inherits. rewrite existsb_exists. split.
  - intros (name & Hin & Heq). apply String.eqb_eq in Heq. now subst name.
  - intros Hin. exists key. split; [exact Hin | apply String.eqb_refl].
Qed.

Lemma inherits_false (key : string) :
  ~ In key JS.objectPrototype -> JS.inherits key = false.
Proof.
  intros H. destruct (JS.inherits key) eqn:E; [| reflexivity].
  apply inherits_iff in E. contradiction.
Qed.

(** Comparisons of literal keys are computed. *)
Ltac literal_keys :=
  repeat match goal with
  | |- context [String.eqb ?a ?b] =>
      let v := eval vm_compute in (String.eqb a b) in
      change (String.eqb a b) with v
  end;
  cbv iota.

(** A table read at a literal key: the own entry, which is nonzero so that
    [||] keeps it, or the default when the key is neither in the table nor
    inherited. *)
Ltac road_table :=
  unfold JS.lookup, JS.inherits, JS.objectPrototype;
  cbn [JS.own existsb];
  literal_keys;
  cbn [orb JS.or_default JS.truthy_entry];
  try (rewrite truthy_true by lra);
  try reflexivity.

(** A table read at a key that is a name of [Object.prototype] and no key of
    the table: the inherited member, which [||] keeps. *)
Ltac inherited_member :=
  match goal with
  | H : In _ JS.objectPrototype |- _ =>
      unfold JS.objectPrototype in H; cbn [In] in H;
      repeat (destruct H as [<- | H]); [.. | contradiction]
  end;
  unfold JS.lookup, JS.inherits, JS.objectPrototype;
  cbn [JS.own existsb];
  literal_keys;
  reflexivity.

Lemma estimateRoadWidth_motorway :
  ViimsiMapLoader.estimateRoadWidth "motorway" = JS.Number 4.
Proof. unfold ViimsiMapLoader.estimateRoadWidth. road_table. Qed.

Lemma getRoadWidth_motorway :
  MapDataManager.getRoadWidth "motorway" = JS.Number 12.
Proof. unfold MapDataManager.getRoadWidth. road_table. Qed.

(** The two tables give different widths for a motorway: the raw-data layer
    has no such entry and falls back to 4, the transform layer has 12. *)
Lemma road_width_tables_differ_on_motorway :
  ViimsiMapLoader.estimateRoadWidth "motorway" = JS.Number 4 /\
  MapDataManager.getRoadWidth "motorway" = JS.Number 12 /\
  ViimsiMapLoader.estimateRoadWidth "motorway"
  <> MapDataManager.getRoadWidth "motorway".
Proof.
  rewrite estimateRoadWidth_motorway, getRoadWidth_motorway.
  split; [reflexivity |]. split; [reflexivity |].
  intros H. injection H as H. lra.
Qed.

(** The remaining entries on which the two tables differ. *)
Lemma road_width_tables_differ_elsewhere :
  (ViimsiMapLoader.estimateRoadWidth "trunk" = JS.Number 4 /\
   MapDataManager.getRoadWidth "trunk" = JS.Number 10) /\
  (ViimsiMapLoader.estimateRoadWidth "footway" = JS.Number 2 /\
   MapDataManager.getRoadWidth "footway" = JS.Number 1.5) /\
  (ViimsiMapLoader.estimateRoadWidth "cycleway" = JS.Number 2 /\
   MapDataManager.getRoadWidth "cycleway" = JS.Number 4) /\
  (ViimsiMapLoader.estimateRoadWidth "path" = JS.Number 1.5 /\
   MapDataManager.getRoadWidth "path" = JS.Number 1).
Proof.
  unfold ViimsiMapLoader.estimateRoadWidth, MapDataManager.getRoadWidth.
  repeat split; road_table.
Qed.

(** For a name of [Object.prototype] neither table has an entry of its own,
    the lookup finds the inherited member, and both functions return it: no
    width at all. *)
Lemma road_width_of_inherited_name (c : string) :
  In c JS.objectPrototype ->
  MapDataManager.getRoadWidth c = JS.Inherited c /\
  ViimsiMapLoader.estimateRoadWidth c = JS.Inherited c.
Proof.
  intros Hc.
  unfold ViimsiMapLoader.estimateRoadWidth, MapDataManager.getRoadWidth.
  split; inherited_member.
Qed.

(** C4 (as amended).  The two road-width tables agree on every category
    other than motorway, trunk, footway, cycleway and path; the transform
    layer returns 12 for a motorway, both layers return 4 for a residential
    road, and each layer returns the default 4 for a category that its own
    table does not list, unless the category is the name of a member of
    [Object.prototype]: for such a name both layers return the inherited
    member, which is no number. *)
Theorem road_width_tables_agree_off_five :
  (forall c : string,
      c <> "motorway"%string -> c <> "trunk"%string -> c <> "footway"%string ->
      c <> "cycleway"%string -> c <> "path"%string ->
      ViimsiMapLoader.estimateRoadWidth c = MapDataManager.getRoadWidth c) /\
  MapDataManager.getRoadWidth "motorway" = JS.Number 12 /\
  MapDataManager.getRoadWidth "residential" = JS.Number 4 /\
  ViimsiMapLoader.estimateRoadWidth "residential" = JS.Number 4 /\
  MapDataManager.getRoadWidth "totally-unknown" = JS.Number 4 /\
  ViimsiMapLoader.estimateRoadWidth "totally-unknown" = JS.Number 4 /\
  (forall c : string,
      ~ In c ["motorway"; "trunk"; "primary"; "secondary"; "tertiary";
              "residential"; "service"; "footway"; "path"]%string ->
      ~ In c ["constructor"; "hasOwnProperty"; "isPrototypeOf";
              "propertyIsEnumerable"; "toLocaleString"; "toString"; "valueOf";
              "__proto__"; "__defineGetter__"; "__defineSetter__";
              "__lookupGetter__"; "__lookupSetter__"]%string ->
      MapDataManager.getRoadWidth c = JS.Number 4) /\
  (forall c : string,
      ~ In c ["primary"; "secondary"; "tertiary"; "residential"; "service";
              "footway"; "cycleway"; "path"]%string ->
      ~ In c ["constructor"; "hasOwnProperty"; "isPrototypeOf";
              "propertyIsEnumerable"; "toLocaleString"; "toString"; "valueOf";
              "__proto__"; "__defineGetter__"; "__defineSetter__";
              "__lookupGetter__"; "__lookupSetter__"]%string ->
      ViimsiMapLoader.estimateRoadWidth c = JS.Number 4) /\
  (forall c : string,
      In c ["constructor"; "hasOwnProperty"; "isPrototypeOf";
            "propertyIsEnumerable"; "toLocaleString"; "toString"; "valueOf";
            "__proto__"; "__defineGetter__"; "__defineSetter__";
            "__lookupGetter__"; "__lookupSetter__"]%string ->
      MapDataManager.getRoadWidth c = JS.Inherited c /\
      ViimsiMapLoader.estimateRoadWidth c = JS.Inherited c).
Proof.
  split.
  { intros c H1 H2 H3 H4 H5.
    unfold ViimsiMapLoader.estimateRoadWidth, MapDataManager.getRoadWidth,
      JS.lookup.
    cbn [JS.own].
    repeat match goal with
    | |- context [String.eqb ?k c] =>
        destruct (String.eqb_spec k c); try congruence
    end;
    reflexivity. }
  split; [exact getRoadWidth_motorway |].
  split; [unfold MapDataManager.getRoadWidth; road_table |].
  split; [unfold ViimsiMapLoader.estimateRoadWidth; road_table |].
  split; [unfold MapDataManager.getRoadWidth; road_table |].
  split; [unfold ViimsiMapLoader.estimateRoadWidth; road_table |].
  split.
  { intros c Hc Hown.
    unfold MapDataManager.getRoadWidth, JS.lookup.
    rewrite (inherits_false c Hown). cbn [JS.own].
    repeat match goal with
    | |- context [String.eqb ?k c] =>
        destruct (String.eqb_spec k c);
        [exfalso; apply Hc; subst c; cbn; tauto |]
    end.
    reflexivity. }
  split.
  { intros c Hc Hown.
    unfold ViimsiMapLoader.estimateRoadWidth, JS.lookup.
    rewrite (inherits_false c Hown). cbn [JS.own].
    repeat match goal with
    | |- context [String.eqb ?k c] =>
        destruct (String.eqb_spec k c);
        [exfalso; apply Hc; subst c; cbn; tauto |]
    end.
    reflexivity. }
  intros c Hc. apply road_width_of_inherited_name. exact Hc.
Qed.

Lemma road_width_tables_agree_off_five_witness :
  "primary"%string <> "motorway"%string /\ "primary"%string <> "trunk"%string /\
  "primary"%string <> "footway"%string /\ "primary"%string <> "cycleway"%string /\
  "primary"%string <> "path"%string /\
  ViimsiMapLoader.estimateRoadWidth "primary" = MapDataManager.getRoadWidth "primary".
Proof.
  do 5 (split; [discriminate |]).
  apply (proj1 road_width_tables_agree_off_five "primary"%string); discriminate.
Defined.

(** ** Aggregation of the four sub-fetches *)

(** The aggregation step throws exactly when a fulfilled list entry carries
    a value without [length]. *)
Lemma aggregate_throws_iff
    (e : JS.settled (option (list R)))
    (b : JS.settled (option (list ViimsiMapLoader.Building)))
    (r : JS.settled (option (list ViimsiMapLoader.Road)))
    (f : JS.settled (option (list ViimsiMapLoader.Forest)))
    (now : R) :
  (exists message, ViimsiMapLoader.aggregate e b r f now = inl message) <->
  (b = JS.fulfilled None \/ r = JS.fulfilled None \/ f = JS.fulfilled None).
Proof.
  unfold ViimsiMapLoader.aggregate, ViimsiMapLoader.aggregate_list.
  split.
  - intros [message H].
    destruct b as [[bs |] | ?]; auto;
      destruct r as [[rs |] | ?]; auto;
      destruct f as [[fs |] | ?]; auto; discriminate.
  - intros [-> | [-> | ->]].
    + eexists; reflexivity.
    + destruct b as [[bs |] | ?]; eexists; reflexivity.
    + destruct b as [[bs |] | ?]; destruct r as [[rs |] | ?];
        eexists; reflexivity.
Qed.

(** C7.  [loadViimsiData] does not reject because sub-fetches failed.
    Whichever of the four entries are rejected, as long as the fulfilled
    list entries are arrays the call resolves with the aggregate that holds
    [null] for a failed elevation fetch and the empty list for a failed
    buildings, roads or forests fetch, and the values of the fulfilled
    entries otherwise; and whenever the call rejects, the aggregation step
    itself threw, on a fulfilled entry whose value has no [length]. *)
Theorem loadViimsiData_absorbs_failed_fetches :
  forall (e : JS.settled (option (list R)))
         (b : JS.settled (option (list ViimsiMapLoader.Building)))
         (r : JS.settled (option (list ViimsiMapLoader.Road)))
         (f : JS.settled (option (list ViimsiMapLoader.Forest)))
         (now : R),
    (b <> JS.fulfilled None -> r <> JS.fulfilled None ->
     f <> JS.fulfilled None ->
     ViimsiMapLoader.loadViimsiData e b r f now =
     JS.Resolved {|
       ViimsiMapLoader.elevation :=
         match e with JS.fulfilled value => value | JS.rejected _ => None end;
       ViimsiMapLoader.buildings :=
         match b with JS.fulfilled (Some value) => value | _ => [] end;
       ViimsiMapLoader.roads :=
         match r with JS.fulfilled (Some value) => value | _ => [] end;
       ViimsiMapLoader.forests :=
         match f with JS.fulfilled (Some value) => value | _ => [] end;
       ViimsiMapLoader.bounds := ViimsiMapLoader.viimsiParishBounds;
       ViimsiMapLoader.timestamp := now
     |}) /\
    (forall error,
        ViimsiMapLoader.loadViimsiData e b r f now = JS.Rejected error ->
        (exists message, ViimsiMapLoader.aggregate e b r f now = inl message) /\
        (b = JS.fulfilled None \/ r = JS.fulfilled None \/
         f = JS.fulfilled None)).
Proof.
  intros e b r f now. split.
  - intros Hb Hr Hf. unfold ViimsiMapLoader.loadViimsiData,
      ViimsiMapLoader.aggregate, ViimsiMapLoader.aggregate_list.
    destruct b as [[bs |] | ?]; try congruence;
      destruct r as [[rs |] | ?]; try congruence;
      destruct f as [[fs |] | ?]; try congruence; reflexivity.
  - intros error H. unfold ViimsiMapLoader.loadViimsiData in H.
    assert (T : exists message,
               ViimsiMapLoader.aggregate e b r f now = inl message).
    { destruct (ViimsiMapLoader.aggregate e b r f now) as [message | data].
      - exists message. reflexivity.
      - discriminate. }
    split; [exact T |]. apply (aggregate_throws_iff e b r f now). exact T.
Qed.

(** All four sub-fetches fail: the call still resolves, with the
    substitutes only. *)
Lemma loadViimsiData_absorbs_failed_fetches_witness :
  (JS.rejected "buildings down" <> JS.fulfilled (@None (list ViimsiMapLoader.Building))) /\
  (JS.rejected "roads down" <> JS.fulfilled (@None (list ViimsiMapLoader.Road))) /\
  (JS.rejected "forests down" <> JS.fulfilled (@None (list ViimsiMapLoader.Forest))) /\
  ViimsiMapLoader.loadViimsiData
    (JS.rejected "elevation down") (JS.rejected "buildings down")
    (JS.rejected "roads down") (JS.rejected "forests down") 0
  = JS.Resolved {|
      ViimsiMapLoader.elevation := None;
      ViimsiMapLoader.buildings := [];
      ViimsiMapLoader.roads := [];
      ViimsiMapLoader.forests := [];
      ViimsiMapLoader.bounds := ViimsiMapLoader.viimsiParishBounds;
      ViimsiMapLoader.timestamp := 0
    |}.
Proof.
  do 3 (split; [discriminate |]).
  apply (proj1 (loadViimsiData_absorbs_failed_fetches
                  (JS.rejected "elevation down") (JS.rejected "buildings down")
                  (JS.rejected "roads down") (JS.rejected "forests down") 0));
    discriminate.
Defined.

(** ** Switching the level of detail *)

(** C10.  For an index below zero or not below the number of LOD meshes,
    [switchLOD] returns the terrain system as it was: the current level, the
    primary mesh, the visibility flag of every mesh object and the switch
    counter are those of before. *)
Theorem switchLOD_out_of_range :
  forall (this : TerrainSystem.t) (i : Z) (now : R),
    (i < 0 \/ Z.of_nat (List.length (TerrainSystem.lodMeshes this)) <= i)%Z ->
    let after := TerrainSystem.switchLOD this i now in
    TerrainSystem.currentLOD after = TerrainSystem.currentLOD this /\
    TerrainSystem.terrainMesh after = TerrainSystem.terrainMesh this /\
    map TerrainSystem.visible (TerrainSystem.objects after)
    = map TerrainSystem.visible (TerrainSystem.objects this) /\
    TerrainSystem.lodSwitches (TerrainSystem.stats after)
    = TerrainSystem.lodSwitches (TerrainSystem.stats this) /\
    after = this.
Proof.
  intros this i now Hi after.
  assert (E : after = this).
  { unfold after, TerrainSystem.switchLOD.
    destruct Hi as [Hi | Hi].
    - apply Z.ltb_lt in Hi. now rewrite Hi.
    - apply Z.leb_le in Hi. rewrite Hi. now rewrite orb_true_r. }
  rewrite E. repeat split.
Qed.

Lemma switchLOD_out_of_range_witness :
  (10 < 0 \/ Z.of_nat (List.length (TerrainSystem.lodMeshes Scenarios.terrainTwoLevels)) <= 10)%Z /\
  let after := TerrainSystem.switchLOD Scenarios.terrainTwoLevels 10 1 in
  TerrainSystem.currentLOD after = TerrainSystem.currentLOD Scenarios.terrainTwoLevels /\
  TerrainSystem.terrainMesh after = TerrainSystem.terrainMesh Scenarios.terrainTwoLevels /\
  map TerrainSystem.visible (TerrainSystem.objects after)
  = map TerrainSystem.visible (TerrainSystem.objects Scenarios.terrainTwoLevels) /\
  TerrainSystem.lodSwitches (TerrainSystem.stats after)
  = TerrainSystem.lodSwitches (TerrainSystem.stats Scenarios.terrainTwoLevels) /\
  after = Scenarios.terrainTwoLevels.
Proof.
  assert (H : (10 < 0 \/ Z.of_nat (List.length (TerrainSystem.lodMeshes Scenarios.terrainTwoLevels)) <= 10)%Z)
    by (right; cbn; lia).
  split; [exact H |].
  exact (switchLOD_out_of_range Scenarios.terrainTwoLevels 10 1 H).
Defined.

(** A switch to a level in range does take effect: the old mesh is hidden,
    the new one is shown and becomes the primary mesh, and the counter
    moves. *)
Lemma switchLOD_in_range_example :
  let after := TerrainSystem.switchLOD Scenarios.terrainTwoLevels 1 7 in
  TerrainSystem.currentLOD after = 1%Z /\
  TerrainSystem.terrainMesh after = Some 1%nat /\
  map TerrainSystem.visible (TerrainSystem.objects after) = [false; true] /\
  TerrainSystem.lodSwitches (TerrainSystem.stats after) = 1%nat /\
  TerrainSystem.lastLODSwitch (TerrainSystem.stats after) = 7.
Proof. cbn. repeat split. Qed.

(** ** Elevation lookup of the map data store *)

(** The index clamp of [getElevationAt] on integers. *)
Lemma clamp_integer (n k : Z) :
  JS.Math_max 0 (JS.Math_min (IZR n - 1) (JS.Math_floor (IZR k)))
  = IZR (Z.max 0 (Z.min (n - 1) k)).
Proof.
  rewrite floor_integer.
  replace (IZR n - 1) with (IZR (n - 1)) by (rewrite minus_IZR; reflexivity).
  now rewrite min_integer, max_integer.
Qed.

(** The column (or row) read for a world coordinate lies on the raster,
    on its first line at or below -1000 and on its last at or above 1000. *)
Lemma cell_range (n : Z) (c : R) :
  (1 <= n)%Z ->
  (0 <= Z.max 0 (Z.min (n - 1) (Zfloor (MapDataManager.normalized c * IZR n)))
     <= n - 1)%Z.
Proof. lia. Qed.

Lemma cell_low (n : Z) (c : R) :
  (1 <= n)%Z -> c <= -1000 ->
  Z.max 0 (Z.min (n - 1) (Zfloor (MapDataManager.normalized c * IZR n))) = 0%Z.
Proof.
  intros Hn Hc.
  assert (H : (Zfloor (MapDataManager.normalized c * IZR n) <= 0)%Z).
  { apply le_IZR.
    apply Rle_trans with (MapDataManager.normalized c * IZR n);
      [apply Zfloor_bound |].
    unfold MapDataManager.normalized. apply IZR_le in Hn. nra. }
  lia.
Qed.

Lemma cell_high (n : Z) (c : R) :
  (1 <= n)%Z -> 1000 <= c ->
  Z.max 0 (Z.min (n - 1) (Zfloor (MapDataManager.normalized c * IZR n)))
  = (n - 1)%Z.
Proof.
  intros Hn Hc.
  assert (H : (n <= Zfloor (MapDataManager.normalized c * IZR n))%Z).
  { apply Zfloor_lub. unfold MapDataManager.normalized.
    apply IZR_le in Hn. nra. }
  lia.
Qed.

(** Inside the world the cell read is the one whose span holds the
    coordinate: the world is cut into [n] spans of [2000 / n]. *)
Lemma cell_inside (n : Z) (c : R) :
  (1 <= n)%Z -> -1000 <= c < 1000 ->
  let cell := Z.max 0 (Z.min (n - 1) (Zfloor ((c + 1000) / 2000 * IZR n))) in
  -1000 + IZR cell * (2000 / IZR n) <= c
  < -1000 + (IZR cell + 1) * (2000 / IZR n).
Proof.
  intros Hn Hc cell.
  assert (Hn' : 1 <= IZR n) by (apply IZR_le in Hn; exact Hn).
  set (g := (c + 1000) / 2000 * IZR n) in *.
  assert (Hg : 0 <= g < IZR n) by (unfold g; split; nra).
  pose proof (Zfloor_bound g) as [Hlo Hhi].
  assert (H0 : (0 <= Zfloor g)%Z) by (apply Zfloor_lub; tauto).
  assert (H1 : (Zfloor g <= n - 1)%Z).
  { apply Z.lt_le_pred. apply lt_IZR. lra. }
  assert (Hcell : cell = Zfloor g) by (unfold cell; lia).
  rewrite Hcell.
  assert (Hc' : c = -1000 + g * (2000 / IZR n)) by (unfold g; field; lra).
  assert (Hspan : 0 < 2000 / IZR n).
  { apply Rdiv_lt_0_compat; lra. }
  assert (Hbelow : IZR (Zfloor g) * (2000 / IZR n) <= g * (2000 / IZR n))
    by (apply Rmult_le_compat_r; lra).
  assert (Habove : g * (2000 / IZR n) < (IZR (Zfloor g) + 1) * (2000 / IZR n))
    by (apply Rmult_lt_compat_r; lra).
  lra.
Qed.

(** With a square raster loaded, [getElevationAt] is the sample stored at
    the clamped row and column. *)
Lemma getElevationAt_cell (this : MapDataManager.t)
    (data : MapDataManager.MapData) (heightmap : list R) (n : Z) (x z : R) :
  MapDataManager.mapData this = Some data ->
  MapDataManager.elevation data = Some heightmap ->
  (1 <= n)%Z ->
  Z.of_nat (List.length heightmap) = (n * n)%Z ->
  nth_error heightmap
    (Z.to_nat
       (Z.max 0 (Z.min (n - 1) (Zfloor (MapDataManager.normalized z * IZR n))) * n +
        Z.max 0 (Z.min (n - 1) (Zfloor (MapDataManager.normalized x * IZR n)))))
  = Some (MapDataManager.getElevationAt this x z).
Proof.
  intros loaded raster side square.
  unfold MapDataManager.getElevationAt. rewrite loaded, raster.
  rewrite (sqrt_square_length heightmap n) by (assumption || lia).
  unfold JS.Math_floor at 1 2.
  pose proof (cell_range n x side) as Hx.
  pose proof (cell_range n z side) as Hz.
  rewrite <- (floor_integer (Zfloor (MapDataManager.normalized x * IZR n))).
  rewrite <- (floor_integer (Zfloor (MapDataManager.normalized z * IZR n))).
  rewrite !clamp_integer.
  rewrite sample_cell by lia.
  apply nth_error_nth'. apply Nat2Z.inj_lt.
  rewrite square, Z2Nat.id by nia. nia.
Qed.

(** C8.  [getElevationAt] returns 0 when no snapshot or no raster is
    loaded.  Otherwise it normalises the world point by [(c + 1000) / 2000]
    ([-1000, 1000] goes to [0, 1]), takes the integer part of the normalised
    coordinate times the raster side, clamps column and row to
    [0, side - 1], and returns the raw sample stored at that cell: points at
    or beyond a world edge read the edge column or row, a point inside the
    world reads the cell whose span of [2000 / side] holds it, and nothing
    is interpolated. *)
Theorem getElevationAt_nearest_cell :
  (forall (this : MapDataManager.t) (x z : R),
      MapDataManager.mapData this = None \/
      (exists data, MapDataManager.mapData this = Some data /\
                    MapDataManager.elevation data = None) ->
      MapDataManager.getElevationAt this x z = 0) /\
  (forall (this : MapDataManager.t) (data : MapDataManager.MapData)
          (heightmap : list R) (n : Z) (x z : R),
      MapDataManager.mapData this = Some data ->
      MapDataManager.elevation data = Some heightmap ->
      (1 <= n)%Z ->
      Z.of_nat (List.length heightmap) = (n * n)%Z ->
      let column :=
        Z.max 0 (Z.min (n - 1) (Zfloor ((x + 1000) / 2000 * IZR n))) in
      let row :=
        Z.max 0 (Z.min (n - 1) (Zfloor ((z + 1000) / 2000 * IZR n))) in
      (-1000 <= x <= 1000 -> 0 <= (x + 1000) / 2000 <= 1) /\
      (-1000 <= z <= 1000 -> 0 <= (z + 1000) / 2000 <= 1) /\
      (0 <= column <= n - 1)%Z /\ (0 <= row <= n - 1)%Z /\
      nth_error heightmap (Z.to_nat (row * n + column))
      = Some (MapDataManager.getElevationAt this x z) /\
      (x <= -1000 -> column = 0%Z) /\ (1000 <= x -> column = (n - 1)%Z) /\
      (z <= -1000 -> row = 0%Z) /\ (1000 <= z -> row = (n - 1)%Z) /\
      (-1000 <= x < 1000 ->
       -1000 + IZR column * (2000 / IZR n) <= x
       < -1000 + (IZR column + 1) * (2000 / IZR n)) /\
      (-1000 <= z < 1000 ->
       -1000 + IZR row * (2000 / IZR n) <= z
       < -1000 + (IZR row + 1) * (2000 / IZR n))).
Proof.
  split.
  - intros this x z [H | [data [H1 H2]]]; unfold MapDataManager.getElevationAt.
    + now rewrite H.
    + now rewrite H1, H2.
  - intros this data heightmap n x z Hd He Hn Hlen column row.
    split; [lra |].
    split; [lra |].
    split; [unfold column; lia |].
    split; [unfold row; lia |].
    split; [exact (getElevationAt_cell this data heightmap n x z Hd He Hn Hlen) |].
    split; [intro; unfold column; apply (cell_low n x); assumption |].
    split; [intro; unfold column; apply (cell_high n x); assumption |].
    split; [intro; unfold row; apply (cell_low n z); assumption |].
    split; [intro; unfold row; apply (cell_high n z); assumption |].
    split.
    + intros Hx. unfold column. apply cell_inside; assumption.
    + intros Hz. unfold row. apply cell_inside; assumption.
Qed.

Lemma getElevationAt_nearest_cell_witness :
  MapDataManager.mapData (Scenarios.managerWith (Some Scenarios.raster4) [])
  = Some (Scenarios.snapshotWith (Some Scenarios.raster4) []) /\
  MapDataManager.elevation (Scenarios.snapshotWith (Some Scenarios.raster4) [])
  = Some Scenarios.raster4 /\
  (1 <= 4)%Z /\
  Z.of_nat (List.length Scenarios.raster4) = (4 * 4)%Z /\
  nth_error Scenarios.raster4
    (Z.to_nat
       (Z.max 0 (Z.min (4 - 1) (Zfloor ((2000 + 1000) / 2000 * IZR 4))) * 4 +
        Z.max 0 (Z.min (4 - 1) (Zfloor ((-2000 + 1000) / 2000 * IZR 4)))))
  = Some (MapDataManager.getElevationAt
            (Scenarios.managerWith (Some Scenarios.raster4) []) (-2000) 2000).
Proof.
  split; [reflexivity |]. split; [reflexivity |].
  split; [lia |]. split; [reflexivity |].
  apply (proj2 getElevationAt_nearest_cell
           (Scenarios.managerWith (Some Scenarios.raster4) [])
           (Scenarios.snapshotWith (Some Scenarios.raster4) [])
           Scenarios.raster4 4%Z (-2000) 2000);
    [reflexivity | reflexivity | lia | reflexivity].
Defined.

(** Far outside the world the lookup stays on the raster: [(-2000, 2000)]
    reads the first column of the last row. *)
Lemma getElevationAt_outside_example :
  MapDataManager.getElevationAt
    (Scenarios.managerWith (Some Scenarios.raster4) []) (-2000) 2000 = 15.
Proof.
  pose proof (getElevationAt_cell
                (Scenarios.managerWith (Some Scenarios.raster4) [])
                (Scenarios.snapshotWith (Some Scenarios.raster4) [])
                Scenarios.raster4 4%Z (-2000) 2000
                eq_refl eq_refl ltac:(lia) eq_refl) as H.
  rewrite (cell_low 4 (-2000)) in H by (lia || lra).
  rewrite (cell_high 4 2000) in H by (lia || lra).
  change (Some 15 = Some (MapDataManager.getElevationAt
            (Scenarios.managerWith (Some Scenarios.raster4) []) (-2000) 2000)) in H.
  now injection H.
Qed.

(** ** One world size for both components? *)

Lemma getElevationAt_south_west_quarter :
  MapDataManager.getElevationAt
    (Scenarios.managerWith (Some Scenarios.raster4) []) (-500) (-500) = 15.
Proof.
  pose proof (getElevationAt_cell
                (Scenarios.managerWith (Some Scenarios.raster4) [])
                (Scenarios.snapshotWith (Some Scenarios.raster4) [])
                Scenarios.raster4 4%Z (-500) (-500)
                eq_refl eq_refl ltac:(lia) eq_refl) as H.
  replace (Zfloor (MapDataManager.normalized (-500) * IZR 4)) with 1%Z in H
    by (symmetry; apply Zfloor_eq; unfold MapDataManager.normalized; lra).
  change (Some 15 = Some (MapDataManager.getElevationAt
            (Scenarios.managerWith (Some Scenarios.raster4) []) (-500) (-500))) in H.
  now injection H.
Qed.

Lemma heightmapCoordinate_default (heightmap : list R) (c : R) :
  TerrainSystem.heightmapCoordinate (Scenarios.terrainWith heightmap) c
  = (c + 500) / 1000.
Proof.
  cbv [TerrainSystem.heightmapCoordinate TerrainSystem.worldSize
       TerrainSystem.config Scenarios.terrainWith TerrainSystem.defaultConfig].
  lra.
Qed.

Lemma getHeightAt_default (heightmap : list R) (x z : R) :
  TerrainSystem.getHeightAt (Scenarios.terrainWith heightmap) x z
  = TerrainSystem.sampleHeightmap heightmap ((x + 500) / 1000) ((z + 500) / 1000)
      (JS.Math_sqrt (JS.length heightmap)) * 100.
Proof.
  unfold TerrainSystem.getHeightAt.
  rewrite !heightmapCoordinate_default.
  cbv [TerrainSystem.heightmapData TerrainSystem.heightScale
       TerrainSystem.config Scenarios.terrainWith TerrainSystem.defaultConfig].
  f_equal. lra.
Qed.

Lemma getHeightAt_south_west_quarter :
  TerrainSystem.getHeightAt (Scenarios.terrainWith Scenarios.raster4) (-500) (-500) = 0.
Proof.
  rewrite getHeightAt_default.
  rewrite (sqrt_square_length Scenarios.raster4 4) by (lia || reflexivity).
  replace ((-500 + 500) / 1000) with (IZR 0 / (IZR 4 - 1)) by lra.
  rewrite sampleHeightmap_corner by lia.
  read_raster. unfold Scenarios.raster4. cbn [nth]. lra.
Qed.

(** C6 (the code at a point where the two frames part).  The map data
    store works in a world of size 2000 and the terrain system in one of
    size 1000, so the world coordinate -500 is a quarter of the way across
    the raster for the first and on its very edge for the second; at
    [(-500, -500)] over the 4 x 4 test raster the store reads the sample of
    column 1, row 1 and the terrain system the sample of column 0, row 0. *)
Theorem world_sizes_disagree :
  MapDataManager.gameWorldSize
    (MapDataManager.coordinateTransform MapDataManager.create) = 2000 /\
  TerrainSystem.worldSize TerrainSystem.defaultConfig = 1000 /\
  MapDataManager.normalized (-500) = 0.25 /\
  TerrainSystem.heightmapCoordinate
    (Scenarios.terrainWith Scenarios.raster4) (-500) = 0 /\
  MapDataManager.getElevationAt
    (Scenarios.managerWith (Some Scenarios.raster4) []) (-500) (-500)
  = nth (1 * 4 + 1) Scenarios.raster4 0 /\
  TerrainSystem.getHeightAt (Scenarios.terrainWith Scenarios.raster4) (-500) (-500)
  = nth (0 * 4 + 0) Scenarios.raster4 0
    * TerrainSystem.heightScale TerrainSystem.defaultConfig.
Proof.
  split; [reflexivity |]. split; [reflexivity |].
  split; [unfold MapDataManager.normalized; lra |].
  split.
  { cbv [TerrainSystem.heightmapCoordinate TerrainSystem.worldSize
         TerrainSystem.config Scenarios.terrainWith
         TerrainSystem.defaultConfig]. lra. }
  split.
  - rewrite getElevationAt_south_west_quarter. reflexivity.
  - rewrite getHeightAt_south_west_quarter.
    cbn [Nat.mul Nat.add nth Scenarios.raster4]. lra.
Qed.

(** ** Nearby buildings of a location *)

Lemma filter_all {A : Type} (f : A -> bool) (l : list A) :
  Forall (fun a => f a = true) l -> filter f l = l.
Proof.
  induction 1 as [| a l Ha _ IH]; cbn; [reflexivity |].
  now rewrite Ha, IH.
Qed.

Lemma distance_on_axis (name : string) (x : R) :
  0 <= x ->
  MapDataManager.distanceTo 0 0
    (MapDataManager.pos_x (MapDataManager.gamePosition (Scenarios.buildingAt name x)))
    (MapDataManager.pos_z (MapDataManager.gamePosition (Scenarios.buildingAt name x)))
  = x.
Proof.
  intros Hx. unfold MapDataManager.distanceTo, JS.Math_sqrt.
  cbv [Scenarios.buildingAt MapDataManager.pos_x MapDataManager.pos_z
       MapDataManager.gamePosition].
  replace ((x - 0) * (x - 0) + (0 - 0) * (0 - 0)) with (x * x) by lra.
  now apply sqrt_square.
Qed.

Lemma sixBuildings_all_in_area :
  MapDataManager.getBuildingsInArea
    (Scenarios.managerWith None Scenarios.sixBuildings) 0 0 100
  = Scenarios.sixBuildings.
Proof.
  unfold MapDataManager.getBuildingsInArea.
  cbv beta iota delta [MapDataManager.mapData Scenarios.managerWith
                       MapDataManager.buildings Scenarios.snapshotWith].
  apply filter_all. unfold Scenarios.sixBuildings.
  repeat constructor;
    cbv [Scenarios.buildingAt MapDataManager.pos_x MapDataManager.pos_z
         MapDataManager.gamePosition];
    apply leb_true; apply sqrt_le_square; lra.
Qed.

(** C9 (the code on six buildings in range).  The snapshot stores five
    buildings at distance 60 from the origin and then one at distance 10,
    all within radius 100.  [getLocationInfo(0, 0)] returns the five stored
    first; the building at distance 10 is in range and is left out although
    it is nearer than each building returned. *)
Theorem getLocationInfo_keeps_stored_order :
  let this := Scenarios.managerWith None Scenarios.sixBuildings in
  let info := MapDataManager.getLocationInfo this 0 0 in
  let nearest := Scenarios.buildingAt "F" 10 in
  MapDataManager.nearbyBuildings info
  = [ Scenarios.buildingAt "A" 60; Scenarios.buildingAt "B" 60;
      Scenarios.buildingAt "C" 60; Scenarios.buildingAt "D" 60;
      Scenarios.buildingAt "E" 60 ] /\
  In nearest (MapDataManager.getBuildingsInArea this 0 0 100) /\
  ~ In nearest (MapDataManager.nearbyBuildings info) /\
  (forall b, In b (MapDataManager.nearbyBuildings info) ->
     MapDataManager.distanceTo 0 0
       (MapDataManager.pos_x (MapDataManager.gamePosition nearest))
       (MapDataManager.pos_z (MapDataManager.gamePosition nearest))
     < MapDataManager.distanceTo 0 0
         (MapDataManager.pos_x (MapDataManager.gamePosition b))
         (MapDataManager.pos_z (MapDataManager.gamePosition b))).
Proof.
  intros this info nearest.
  assert (E : MapDataManager.nearbyBuildings info
              = [ Scenarios.buildingAt "A" 60; Scenarios.buildingAt "B" 60;
                  Scenarios.buildingAt "C" 60; Scenarios.buildingAt "D" 60;
                  Scenarios.buildingAt "E" 60 ]).
  { unfold info, MapDataManager.getLocationInfo.
    cbv beta iota zeta delta [MapDataManager.nearbyBuildings].
    unfold this. rewrite sixBuildings_all_in_area. reflexivity. }
  rewrite E. split; [reflexivity |]. split.
  { unfold this. rewrite sixBuildings_all_in_area.
    unfold Scenarios.sixBuildings, nearest. cbn [In]. tauto. }
  split.
  { unfold nearest. cbn [In].
    intros [H | [H | [H | [H | [H | []]]]]];
      apply (f_equal (fun b => ViimsiMapLoader.building_name
                                 (MapDataManager.building b))) in H;
      discriminate H. }
  intros b Hb. unfold nearest. rewrite distance_on_axis by lra.
  cbn [In] in Hb.
  destruct Hb as [<- | [<- | [<- | [<- | [<- | []]]]]];
    rewrite distance_on_axis; lra.
Qed.

(** ** Height queries against the mesh *)

(** The running maximum dominates every height seen, the running minimum
    is below every height seen. *)
Lemma appliedMax_from (l : list TerrainSystem.Vertex) (acc : option R) :
  let f := fun (acc : option R) (p : TerrainSystem.Vertex) =>
             match acc with
             | None => Some (TerrainSystem.vy p)
             | Some m => Some (JS.Math_max m (TerrainSystem.vy p))
             end in
  (forall m, acc = Some m -> exists hi, fold_left f l acc = Some hi /\ m <= hi) /\
  (forall p, In p l ->
     exists hi, fold_left f l acc = Some hi /\ TerrainSystem.vy p <= hi).
Proof.
  intros f. revert acc. induction l as [| q l IH]; intros acc.
  - split; [| intros p []]. intros m ->. exists m. split; [reflexivity | lra].
  - cbn [fold_left]. destruct (IH (f acc q)) as [IHacc IHin]. split.
    + intros m ->. destruct (IHacc _ eq_refl) as [hi [E Hhi]].
      exists hi. split; [exact E |].
      apply Rle_trans with (JS.Math_max m (TerrainSystem.vy q));
        [apply Rmax_l | exact Hhi].
    + intros p [<- | Hp]; [| now apply IHin].
      destruct acc as [m |]; cbn in IHacc.
      * destruct (IHacc _ eq_refl) as [hi [E Hhi]].
        exists hi. split; [exact E |].
        apply Rle_trans with (JS.Math_max m (TerrainSystem.vy q));
          [apply Rmax_r | exact Hhi].
      * destruct (IHacc _ eq_refl) as [hi [E Hhi]]. now exists hi.
Qed.

Lemma appliedMin_from (l : list TerrainSystem.Vertex) (acc : option R) :
  let f := fun (acc : option R) (p : TerrainSystem.Vertex) =>
             match acc with
             | None => Some (TerrainSystem.vy p)
             | Some m => Some (JS.Math_min m (TerrainSystem.vy p))
             end in
  (forall m, acc = Some m -> exists lo, fold_left f l acc = Some lo /\ lo <= m) /\
  (forall p, In p l ->
     exists lo, fold_left f l acc = Some lo /\ lo <= TerrainSystem.vy p).
Proof.
  intros f. revert acc. induction l as [| q l IH]; intros acc.
  - split; [| intros p []]. intros m ->. exists m. split; [reflexivity | lra].
  - cbn [fold_left]. destruct (IH (f acc q)) as [IHacc IHin]. split.
    + intros m ->. destruct (IHacc _ eq_refl) as [lo [E Hlo]].
      exists lo. split; [exact E |].
      apply Rle_trans with (JS.Math_min m (TerrainSystem.vy q));
        [exact Hlo | apply Rmin_l].
    + intros p [<- | Hp]; [| now apply IHin].
      destruct acc as [m |]; cbn in IHacc.
      * destruct (IHacc _ eq_refl) as [lo [E Hlo]].
        exists lo. split; [exact E |].
        apply Rle_trans with (JS.Math_min m (TerrainSystem.vy q));
          [exact Hlo | apply Rmin_r].
      * destruct (IHacc _ eq_refl) as [lo [E Hlo]]. now exists lo.
Qed.

(** Two applied heights at least 50 apart keep the flatness correction
    off. *)
Lemma tooFlat_false (applied : list TerrainSystem.Vertex)
    (p q : TerrainSystem.Vertex) :
  In p applied -> In q applied ->
  50 <= TerrainSystem.vy p - TerrainSystem.vy q ->
  TerrainSystem.tooFlat applied = false.
Proof.
  intros Hp Hq Hpq. unfold TerrainSystem.tooFlat,
    TerrainSystem.appliedMaxHeight, TerrainSystem.appliedMinHeight.
  destruct (proj2 (appliedMax_from applied None) p Hp) as [hi [-> Hhi]].
  destruct (proj2 (appliedMin_from applied None) q Hq) as [lo [-> Hlo]].
  apply ltb_false. lra.
Qed.

(** Applied heights that are all the same switch it on. *)
Lemma appliedMax_constant (l : list TerrainSystem.Vertex) (c : R) :
  Forall (fun p => TerrainSystem.vy p = c) l ->
  fold_left
    (fun (acc : option R) (p : TerrainSystem.Vertex) =>
       match acc with
       | None => Some (TerrainSystem.vy p)
       | Some m => Some (JS.Math_max m (TerrainSystem.vy p))
       end) l (Some c) = Some c.
Proof.
  induction 1 as [| q l Hq _ IH]; [reflexivity |].
  cbn [fold_left]. rewrite Hq. unfold JS.Math_max.
  rewrite Rmax_left by lra. exact IH.
Qed.

Lemma appliedMin_constant (l : list TerrainSystem.Vertex) (c : R) :
  Forall (fun p => TerrainSystem.vy p = c) l ->
  fold_left
    (fun (acc : option R) (p : TerrainSystem.Vertex) =>
       match acc with
       | None => Some (TerrainSystem.vy p)
       | Some m => Some (JS.Math_min m (TerrainSystem.vy p))
       end) l (Some c) = Some c.
Proof.
  induction 1 as [| q l Hq _ IH]; [reflexivity |].
  cbn [fold_left]. rewrite Hq. unfold JS.Math_min.
  rewrite Rmin_left by lra. exact IH.
Qed.

Lemma tooFlat_constant (applied : list TerrainSystem.Vertex) (c : R) :
  Forall (fun p => TerrainSystem.vy p = c) applied ->
  TerrainSystem.tooFlat applied = true.
Proof.
  intros H. unfold TerrainSystem.tooFlat,
    TerrainSystem.appliedMaxHeight, TerrainSystem.appliedMinHeight.
  destruct H as [| p l Hp Hl]; [reflexivity |].
  cbn [fold_left]. rewrite Hp.
  rewrite (appliedMax_constant l c Hl), (appliedMin_constant l c Hl).
  apply ltb_true. lra.
Qed.

(** The main loop of [applyElevationData] gives a vertex the height that
    [getHeightAt] reports for it. *)
Lemma elevatedVertex_getHeightAt (this : TerrainSystem.t)
    (heightmap : list R) (p : TerrainSystem.Vertex) :
  TerrainSystem.heightmapData this = Some heightmap ->
  TerrainSystem.vy
    (TerrainSystem.elevatedVertex this heightmap
       (JS.Math_sqrt (JS.length heightmap)) p)
  = TerrainSystem.getHeightAt this (TerrainSystem.vx p) (TerrainSystem.vz p).
Proof.
  intros H. unfold TerrainSystem.getHeightAt. rewrite H. reflexivity.
Qed.

Lemma elevated_mesh (this : TerrainSystem.t) (heightmap : list R)
    (geometry : list TerrainSystem.Vertex) :
  TerrainSystem.heightmapData this = Some heightmap ->
  Forall2
    (fun p q =>
       TerrainSystem.vx q = TerrainSystem.vx p /\
       TerrainSystem.vz q = TerrainSystem.vz p /\
       TerrainSystem.vy q
       = TerrainSystem.getHeightAt this (TerrainSystem.vx p) (TerrainSystem.vz p))
    geometry
    (map (TerrainSystem.elevatedVertex this heightmap
            (JS.Math_sqrt (JS.length heightmap))) geometry).
Proof.
  intros Hmap. induction geometry as [| p l IH]; constructor; [| exact IH].
  split; [reflexivity |]. split; [reflexivity |].
  now apply elevatedVertex_getHeightAt.
Qed.

(** Samples that are all zero blend to zero. *)

Lemma or_else_get_zeros (heightmap : list R) (i : R) :
  Forall (fun h => h = 0) heightmap ->
  JS.or_else (JS.get heightmap i) 0 = 0.
Proof.
  intros H. unfold JS.get.
  destruct (Req_dec_T (IZR (Zfloor i)) i); [| reflexivity].
  destruct (0 <=? Zfloor i)%Z; [| reflexivity].
  rewrite or_else_nth.
  destruct (nth_in_or_default (Z.to_nat (Zfloor i)) heightmap 0) as [Hin | E];
    [| exact E].
  rewrite Forall_forall in H. now apply H.
Qed.

Lemma sampleHeightmap_zeros (heightmap : list R) (u v size : R) :
  Forall (fun h => h = 0) heightmap ->
  TerrainSystem.sampleHeightmap heightmap u v size = 0.
Proof.
  intros H. unfold TerrainSystem.sampleHeightmap.
  rewrite !or_else_get_zeros by exact H. lra.
Qed.

(** C5 (as amended).  When a heightmap is loaded and the mesh has two
    vertices whose heights, as [getHeightAt] reports them, are at least 50
    apart, [applyElevationData] leaves every vertex where it was in x and z
    and gives it exactly the height [getHeightAt] reports there. *)
Theorem getHeightAt_matches_mesh_unless_flat :
  forall (this : TerrainSystem.t) (heightmap : list R)
         (geometry : list TerrainSystem.Vertex) (segments : Z)
         (a b : TerrainSystem.Vertex),
    TerrainSystem.heightmapData this = Some heightmap ->
    In a geometry -> In b geometry ->
    50 <= TerrainSystem.getHeightAt this (TerrainSystem.vx a) (TerrainSystem.vz a)
          - TerrainSystem.getHeightAt this (TerrainSystem.vx b) (TerrainSystem.vz b) ->
    Forall2
      (fun p q =>
         TerrainSystem.vx q = TerrainSystem.vx p /\
         TerrainSystem.vz q = TerrainSystem.vz p /\
         TerrainSystem.vy q
         = TerrainSystem.getHeightAt this (TerrainSystem.vx p) (TerrainSystem.vz p))
      geometry
      (TerrainSystem.applyElevationData this geometry segments).
Proof.
  intros this heightmap geometry segments a b Hmap Ha Hb Hab.
  unfold TerrainSystem.applyElevationData. rewrite Hmap.
  destruct heightmap as [| h0 rest].
  { exfalso. unfold TerrainSystem.getHeightAt in Hab. rewrite Hmap in Hab.
    rewrite !sampleHeightmap_zeros in Hab by constructor. lra. }
  set (hm := h0 :: rest) in *.
  set (applied := map (TerrainSystem.elevatedVertex this hm
                         (JS.Math_sqrt (JS.length hm))) geometry).
  rewrite (tooFlat_false applied
             (TerrainSystem.elevatedVertex this hm (JS.Math_sqrt (JS.length hm)) a)
             (TerrainSystem.elevatedVertex this hm (JS.Math_sqrt (JS.length hm)) b)).
  - now apply elevated_mesh.
  - now apply in_map.
  - now apply in_map.
  - rewrite !elevatedVertex_getHeightAt by exact Hmap. exact Hab.
Qed.

(** *** The all-zero raster *)

Lemma zeros4_flat : Forall (fun h => h = 0) Scenarios.zeros4.
Proof. unfold Scenarios.zeros4. repeat constructor. Qed.

Lemma getHeightAt_zeros (x z : R) :
  TerrainSystem.getHeightAt (Scenarios.terrainWith Scenarios.zeros4) x z = 0.
Proof.
  rewrite getHeightAt_default, sampleHeightmap_zeros by exact zeros4_flat. lra.
Qed.

(** Over the all-zero raster every vertex first gets height 0, the spread
    is 0, and the second loop adds its variation to every vertex. *)
Lemma applyElevationData_zeros (geometry : list TerrainSystem.Vertex)
    (segments : Z) :
  TerrainSystem.applyElevationData (Scenarios.terrainWith Scenarios.zeros4)
    geometry segments
  = map (fun p => TerrainSystem.variedVertex (TerrainSystem.setY p 0)) geometry.
Proof.
  unfold TerrainSystem.applyElevationData.
  change (TerrainSystem.heightmapData (Scenarios.terrainWith Scenarios.zeros4))
    with (Some Scenarios.zeros4).
  unfold Scenarios.zeros4 at 1. cbv iota. fold Scenarios.zeros4.
  assert (E : map (TerrainSystem.elevatedVertex
                     (Scenarios.terrainWith Scenarios.zeros4) Scenarios.zeros4
                     (JS.Math_sqrt (JS.length Scenarios.zeros4))) geometry
              = map (fun p => TerrainSystem.setY p 0) geometry).
  { apply map_ext. intros p. unfold TerrainSystem.elevatedVertex.
    rewrite sampleHeightmap_zeros by exact zeros4_flat.
    f_equal. lra. }
  rewrite E. rewrite (tooFlat_constant _ 0).
  - now rewrite map_map.
  - apply Forall_forall. intros q Hq. apply in_map_iff in Hq.
    destruct Hq as [p [<- _]]. reflexivity.
Qed.

Lemma variedVertex_origin :
  TerrainSystem.variedVertex
    {| TerrainSystem.vx := 0; TerrainSystem.vy := 0; TerrainSystem.vz := 0 |}
  = {| TerrainSystem.vx := 0; TerrainSystem.vy := 200; TerrainSystem.vz := 0 |}.
Proof.
  unfold TerrainSystem.variedVertex, TerrainSystem.setY.
  cbv [TerrainSystem.vx TerrainSystem.vy TerrainSystem.vz
       JS.Math_sin JS.Math_cos JS.Math_sqrt JS.Math_max].
  f_equal.
  replace (0 * 0 + 0 * 0) with 0 by lra.
  replace (0 * 0.01) with 0 by lra.
  replace (0 * 0.005) with 0 by lra.
  replace (0 * 0.02) with 0 by lra.
  rewrite sqrt_0, sin_0, cos_0, Rmax_right by lra. lra.
Qed.

(** Near the centre line of the plane the variation is large: a vertex at
    [(x, 0)] with [0 <= x <= 100], such as the vertices at x = 500/63 of the
    64 x 64 plane and at x = 500/31 of the 32 x 32 plane of the default LOD
    levels, is raised by at least 150. *)
Lemma variedVertex_near_centre (x h : R) :
  0 <= x <= 100 ->
  h + 150 <= TerrainSystem.vy
               (TerrainSystem.variedVertex
                  {| TerrainSystem.vx := x; TerrainSystem.vy := h;
                     TerrainSystem.vz := 0 |}).
Proof.
  intros Hx. unfold TerrainSystem.variedVertex, TerrainSystem.setY.
  cbv [TerrainSystem.vx TerrainSystem.vy TerrainSystem.vz
       JS.Math_sin JS.Math_cos JS.Math_sqrt JS.Math_max].
  replace (x * x + 0 * 0) with (x * x) by lra.
  replace (0 * 0.01) with 0 by lra.
  replace (0 * 0.005) with 0 by lra.
  replace (0 * 0.02) with 0 by lra.
  rewrite sqrt_square, cos_0, Rmax_right by lra.
  pose proof PI2_1 as Hpi.
  assert (0 <= sin (x * 0.01)) by (apply sin_ge_0; lra).
  assert (0 <= sin (x * 0.005)) by (apply sin_ge_0; lra).
  assert (0 <= sin (x * 0.02)) by (apply sin_ge_0; lra).
  lra.
Qed.

(** So over the all-zero raster such a vertex ends at height 150 or more,
    whatever the rest of the geometry, while [getHeightAt] reports 0. *)
Lemma flat_mesh_near_centre (geometry : list TerrainSystem.Vertex)
    (segments : Z) (i : nat) (x y : R) (q : TerrainSystem.Vertex) :
  0 <= x <= 100 ->
  nth_error geometry i
  = Some {| TerrainSystem.vx := x; TerrainSystem.vy := y; TerrainSystem.vz := 0 |} ->
  nth_error (TerrainSystem.applyElevationData
               (Scenarios.terrainWith Scenarios.zeros4) geometry segments) i
  = Some q ->
  150 <= TerrainSystem.vy q /\
  TerrainSystem.getHeightAt (Scenarios.terrainWith Scenarios.zeros4) x 0 = 0.
Proof.
  intros Hx Hp Hq. split; [| apply getHeightAt_zeros].
  rewrite applyElevationData_zeros in Hq.
  rewrite nth_error_map, Hp in Hq. cbn [option_map] in Hq.
  injection Hq as <-.
  pose proof (variedVertex_near_centre x 0 Hx) as H.
  unfold TerrainSystem.setY. cbn [TerrainSystem.vx TerrainSystem.vz]. lra.
Qed.

Lemma Forall2_at {A B : Type} (P : A -> B -> Prop) (l : list A) (l' : list B)
    (i : nat) (a : A) (b : B) :
  Forall2 P l l' -> nth_error l i = Some a -> nth_error l' i = Some b -> P a b.
Proof.
  intros H. revert i. induction H as [| x y l l' Hxy _ IH]; intros [| i];
    cbn; try discriminate.
  - intros [= <-] [= <-]. exact Hxy.
  - apply IH.
Qed.

(** On the all-zero raster the centre vertex of the 3 x 3 plane ends up at
    height 200, while [getHeightAt] reports 0 there: the mesh and the height
    query part as soon as the flatness correction runs. *)
Lemma flat_mesh_leaves_getHeightAt :
  let this := Scenarios.terrainWith Scenarios.zeros4 in
  let centre :=
    {| TerrainSystem.vx := 0; TerrainSystem.vy := 0; TerrainSystem.vz := 0 |} in
  TerrainSystem.heightmapData this = Some Scenarios.zeros4 /\
  nth_error Scenarios.plane3 4 = Some centre /\
  nth_error (TerrainSystem.applyElevationData this Scenarios.plane3 3) 4
  = Some {| TerrainSystem.vx := 0; TerrainSystem.vy := 200; TerrainSystem.vz := 0 |} /\
  TerrainSystem.getHeightAt this 0 0 = 0 /\
  ~ Forall2
      (fun p q =>
         TerrainSystem.vy q
         = TerrainSystem.getHeightAt this (TerrainSystem.vx p) (TerrainSystem.vz p))
      Scenarios.plane3
      (TerrainSystem.applyElevationData this Scenarios.plane3 3).
Proof.
  intros this centre.
  assert (E : nth_error (TerrainSystem.applyElevationData this Scenarios.plane3 3) 4
              = Some {| TerrainSystem.vx := 0; TerrainSystem.vy := 200;
                        TerrainSystem.vz := 0 |}).
  { unfold this. rewrite applyElevationData_zeros.
    unfold Scenarios.plane3. cbn [map nth_error].
    f_equal. exact variedVertex_origin. }
  split; [reflexivity |]. split; [reflexivity |]. split; [exact E |].
  split; [apply getHeightAt_zeros |].
  intros H.
  pose proof (Forall2_at _ _ _ 4%nat centre _ H eq_refl E) as Hc.
  cbn [TerrainSystem.vx TerrainSystem.vy TerrainSystem.vz centre] in Hc.
  unfold this in Hc. rewrite getHeightAt_zeros in Hc. lra.
Qed.

(** *** A heightmap with relief *)

Lemma getHeightAt_ramp_east :
  TerrainSystem.getHeightAt (Scenarios.terrainWith Scenarios.ramp4) 500 0 = 100.
Proof.
  rewrite getHeightAt_default.
  rewrite (sqrt_square_length Scenarios.ramp4 2) by (lia || reflexivity).
  rewrite (sampleHeightmap_bilinear Scenarios.ramp4 2) by lia.
  rewrite !clamp01_id by lra.
  replace (Zfloor ((500 + 500) / 1000 * (2 - 1))) with 1%Z
    by (symmetry; apply Zfloor_eq; lra).
  replace (Zfloor ((0 + 500) / 1000 * (2 - 1))) with 0%Z
    by (symmetry; apply Zfloor_eq; lra).
  read_raster. unfold Scenarios.ramp4. cbn [nth]. lra.
Qed.

Lemma getHeightAt_ramp_west :
  TerrainSystem.getHeightAt (Scenarios.terrainWith Scenarios.ramp4) (-500) 0 = 0.
Proof.
  rewrite getHeightAt_default.
  rewrite (sqrt_square_length Scenarios.ramp4 2) by (lia || reflexivity).
  rewrite (sampleHeightmap_bilinear Scenarios.ramp4 2) by lia.
  rewrite !clamp01_id by lra.
  replace (Zfloor ((-500 + 500) / 1000 * (2 - 1))) with 0%Z
    by (symmetry; apply Zfloor_eq; lra).
  replace (Zfloor ((0 + 500) / 1000 * (2 - 1))) with 0%Z
    by (symmetry; apply Zfloor_eq; lra).
  read_raster. unfold Scenarios.ramp4. cbn [nth]. lra.
Qed.

Lemma getHeightAt_matches_mesh_unless_flat_witness :
  let this := Scenarios.terrainWith Scenarios.ramp4 in
  let east := {| TerrainSystem.vx := 500; TerrainSystem.vy := 0; TerrainSystem.vz := 0 |} in
  let west := {| TerrainSystem.vx := -500; TerrainSystem.vy := 0; TerrainSystem.vz := 0 |} in
  TerrainSystem.heightmapData this = Some Scenarios.ramp4 /\
  In east [west; east] /\ In west [west; east] /\
  50 <= TerrainSystem.getHeightAt this (TerrainSystem.vx east) (TerrainSystem.vz east)
        - TerrainSystem.getHeightAt this (TerrainSystem.vx west) (TerrainSystem.vz west) /\
  Forall2
    (fun p q =>
       TerrainSystem.vx q = TerrainSystem.vx p /\
       TerrainSystem.vz q = TerrainSystem.vz p /\
       TerrainSystem.vy q
       = TerrainSystem.getHeightAt this (TerrainSystem.vx p) (TerrainSystem.vz p))
    [west; east]
    (TerrainSystem.applyElevationData this [west; east] 2).
Proof.
  intros this east west.
  assert (H1 : TerrainSystem.heightmapData this = Some Scenarios.ramp4)
    by reflexivity.
  assert (H3 : In east [west; east]) by (right; left; reflexivity).
  assert (H4 : In west [west; east]) by (left; reflexivity).
  assert (H5 : 50 <= TerrainSystem.getHeightAt this (TerrainSystem.vx east)
                       (TerrainSystem.vz east)
                     - TerrainSystem.getHeightAt this (TerrainSystem.vx west)
                         (TerrainSystem.vz west)).
  { unfold this, east, west.
    cbn [TerrainSystem.vx TerrainSystem.vz].
    rewrite getHeightAt_ramp_east, getHeightAt_ramp_west. lra. }
  split; [exact H1 |]. split; [exact H3 |].
  split; [exact H4 |]. split; [exact H5 |].
  exact (getHeightAt_matches_mesh_unless_flat this Scenarios.ramp4
           [west; east] 2 east west H1 H3 H4 H5).
Defined.

(** ** Two overlapping calls of [loadMapData] *)

Lemma two_calls (this : MapDataManager.t) (events : list MapDataManager.event) :
  MapDataManager.isLoading this = false ->
  MapDataManager.run (MapDataManager.idle this)
    (MapDataManager.Call :: MapDataManager.Call :: events)
  = MapDataManager.run (Scenarios.bothPending this) events.
Proof.
  intros H. destruct this as [ct md il lc]. cbn in H. subst il. reflexivity.
Qed.

(** What can happen next, short of a third call. *)
Lemma step_bothPending (this : MapDataManager.t) (e : MapDataManager.event)
    (next : MapDataManager.system) :
  MapDataManager.step (Scenarios.bothPending this) e = Some next ->
  e <> MapDataManager.Call ->
  (e = MapDataManager.TimerFires 1 /\ next = Scenarios.bothPending this) \/
  (exists loaded,
      e = MapDataManager.LoaderSettles 0 loaded /\
      next = Scenarios.firstSettled this loaded).
Proof.
  intros H Hcall. destruct e as [| i loaded | i]; [contradiction | |].
  - destruct i as [| [| i]]; cbn in H; try discriminate H.
    + right. exists loaded. split; [reflexivity |].
      destruct loaded; cbn in H; injection H as <-; reflexivity.
    + destruct i; discriminate H.
  - destruct i as [| [| i]]; cbn in H; try discriminate H.
    + left. split; [reflexivity |]. now injection H as <-.
    + destruct i; discriminate H.
Qed.

Lemma step_firstSettled (this : MapDataManager.t)
    (loaded : JS.outcome ViimsiMapLoader.MapData) (e : MapDataManager.event)
    (next : MapDataManager.system) :
  MapDataManager.step (Scenarios.firstSettled this loaded) e = Some next ->
  e <> MapDataManager.Call ->
  e = MapDataManager.TimerFires 1 /\ next = Scenarios.bothSettled this loaded.
Proof.
  intros H Hcall. destruct e as [| i loaded' | i]; [contradiction | |].
  - destruct i as [| [| i]]; cbn in H; try discriminate H.
    destruct i; discriminate H.
  - destruct i as [| [| i]]; cbn in H; try discriminate H.
    + split; [reflexivity |]. now injection H as <-.
    + destruct i; discriminate H.
Qed.

Lemma step_bothSettled (this : MapDataManager.t)
    (loaded : JS.outcome ViimsiMapLoader.MapData) (e : MapDataManager.event)
    (next : MapDataManager.system) :
  MapDataManager.step (Scenarios.bothSettled this loaded) e = Some next ->
  e = MapDataManager.Call.
Proof.
  intros H. destruct e as [| i loaded' | i]; [reflexivity | |];
    destruct i as [| [| i]]; cbn in H; try discriminate H;
    destruct i; discriminate H.
Qed.

Lemma polling (this : MapDataManager.t) (k : nat)
    (events : list MapDataManager.event) :
  MapDataManager.run (Scenarios.bothPending this)
    (repeat (MapDataManager.TimerFires 1) k ++ events)
  = MapDataManager.run (Scenarios.bothPending this) events.
Proof.
  induction k as [| k IH]; [reflexivity | exact IH].
Qed.

Lemma loader_settles_then_timer (this : MapDataManager.t)
    (loaded : JS.outcome ViimsiMapLoader.MapData) :
  MapDataManager.run (Scenarios.bothPending this)
    [MapDataManager.LoaderSettles 0 loaded; MapDataManager.TimerFires 1]
  = Some (Scenarios.bothSettled this loaded).
Proof. destruct loaded; reflexivity. Qed.

(** A way two overlapping calls run to completion: the second call polls
    any number of times, the loader settles, the timer fires once more. *)
Lemma two_calls_run (this : MapDataManager.t) (k : nat)
    (loaded : JS.outcome ViimsiMapLoader.MapData) :
  MapDataManager.isLoading this = false ->
  MapDataManager.run (MapDataManager.idle this)
    (MapDataManager.Call :: MapDataManager.Call ::
     repeat (MapDataManager.TimerFires 1) k ++
     [MapDataManager.LoaderSettles 0 loaded; MapDataManager.TimerFires 1])
  = Some (Scenarios.bothSettled this loaded).
Proof.
  intros H. rewrite two_calls by exact H.
  rewrite polling. apply loader_settles_then_timer.
Qed.

(** There is no other way: a run of the two calls, with no third call, that
    leaves both settled is one of the schedules above. *)
Lemma two_calls_schedules (this : MapDataManager.t)
    (events : list MapDataManager.event) (final : MapDataManager.system) :
  MapDataManager.run (Scenarios.bothPending this) events = Some final ->
  ~ In MapDataManager.Call events ->
  Forall Scenarios.settled (MapDataManager.tasks final) ->
  exists k loaded,
    events = repeat (MapDataManager.TimerFires 1) k ++
             [MapDataManager.LoaderSettles 0 loaded; MapDataManager.TimerFires 1].
Proof.
  induction events as [| e rest IH]; intros Hrun Hcall Hdone.
  - injection Hrun as <-. cbn in Hdone. inversion Hdone as [| ? ? F _]. destruct F.
  - cbn [MapDataManager.run] in Hrun.
    destruct (MapDataManager.step (Scenarios.bothPending this) e) as [next |] eqn:E;
      [| discriminate Hrun].
    apply step_bothPending in E; [| intros ->; apply Hcall; left; reflexivity].
    destruct E as [[-> ->] | [loaded [-> ->]]].
    + destruct IH as [k [loaded E]]; [exact Hrun | | exact Hdone |].
      * intros F. apply Hcall. right. exact F.
      * exists (S k), loaded. cbn [repeat app]. now rewrite E.
    + exists 0%nat, loaded. cbn [repeat app]. f_equal.
      destruct rest as [| e' rest'].
      * exfalso. injection Hrun as <-. cbn in Hdone.
        inversion Hdone as [| ? ? _ F]. inversion F as [| ? ? G _]. destruct G.
      * cbn [MapDataManager.run] in Hrun.
        destruct (MapDataManager.step (Scenarios.firstSettled this loaded) e')
          as [next |] eqn:E'; [| discriminate Hrun].
        apply step_firstSettled in E';
          [| intros ->; apply Hcall; right; left; reflexivity].
        destruct E' as [-> ->]. f_equal.
        destruct rest' as [| e'' rest'']; [reflexivity |].
        exfalso. cbn [MapDataManager.run] in Hrun.
        destruct (MapDataManager.step (Scenarios.bothSettled this loaded) e'')
          as [next |] eqn:E''; [| discriminate Hrun].
        apply step_bothSettled in E''. subst e''.
        apply Hcall. right. right. left. reflexivity.
Qed.

(** When the load succeeds the two callers share it: one call of the
    loader, and the same snapshot for both. *)
Lemma two_calls_share_a_successful_load (this : MapDataManager.t) (k : nat)
    (rawMapData : ViimsiMapLoader.MapData) :
  MapDataManager.isLoading this = false ->
  exists final,
    MapDataManager.run (MapDataManager.idle this)
      (MapDataManager.Call :: MapDataManager.Call ::
       repeat (MapDataManager.TimerFires 1) k ++
       [MapDataManager.LoaderSettles 0 (JS.Resolved rawMapData);
        MapDataManager.TimerFires 1])
    = Some final /\
    MapDataManager.loaderCalls (MapDataManager.manager final)
    = S (MapDataManager.loaderCalls this) /\
    MapDataManager.tasks final =
      [ MapDataManager.Settled
          (JS.Resolved (Some (MapDataManager.transformMapData this rawMapData)));
        MapDataManager.Settled
          (JS.Resolved (Some (MapDataManager.transformMapData this rawMapData))) ].
Proof.
  intros H. eexists. split; [apply two_calls_run; exact H |].
  split; reflexivity.
Qed.

(** When the load fails the first call rejects, and the second call
    resolves with whatever [this.mapData] held before. *)
Lemma two_calls_after_a_failed_load (this : MapDataManager.t) (k : nat)
    (error : string) :
  MapDataManager.isLoading this = false ->
  exists final,
    MapDataManager.run (MapDataManager.idle this)
      (MapDataManager.Call :: MapDataManager.Call ::
       repeat (MapDataManager.TimerFires 1) k ++
       [MapDataManager.LoaderSettles 0 (JS.Rejected error);
        MapDataManager.TimerFires 1])
    = Some final /\
    MapDataManager.loaderCalls (MapDataManager.manager final)
    = S (MapDataManager.loaderCalls this) /\
    MapDataManager.isLoading (MapDataManager.manager final) = false /\
    MapDataManager.tasks final =
      [ MapDataManager.Settled (JS.Rejected error);
        MapDataManager.Settled (JS.Resolved (MapDataManager.mapData this)) ].
Proof.
  intros H. eexists. split; [apply two_calls_run; exact H |].
  repeat split.
Qed.

(** On a fresh manager, two overlapping calls and a loader that rejects:
    the first caller does not resolve, it rejects with the loader's error,
    and the second caller resolves with [null]. *)
Lemma overlapping_calls_with_failed_load :
  MapDataManager.run (MapDataManager.idle MapDataManager.create)
    [ MapDataManager.Call; MapDataManager.Call;
      MapDataManager.LoaderSettles 0 (JS.Rejected "Network error");
      MapDataManager.TimerFires 1 ]
  = Some {|
      MapDataManager.manager := {|
        MapDataManager.coordinateTransform :=
          MapDataManager.coordinateTransform MapDataManager.create;
        MapDataManager.mapData := None;
        MapDataManager.isLoading := false;
        MapDataManager.loaderCalls := 1
      |};
      MapDataManager.tasks :=
        [ MapDataManager.Settled (JS.Rejected "Network error");
          MapDataManager.Settled (JS.Resolved None) ]
    |}.
Proof. reflexivity. Qed.

(** C3 (as amended).  A call of [loadMapData] made while an earlier call is
    in flight shares its load.  In every run of the two calls to completion
    the loader is called exactly once; when that load resolves, both callers
    resolve with one and the same snapshot; when it rejects, the first
    caller rejects with the loader's error. *)
Theorem overlapping_calls_share_one_load :
  forall (this : MapDataManager.t) (events : list MapDataManager.event)
         (final : MapDataManager.system),
    MapDataManager.isLoading this = false ->
    MapDataManager.run (MapDataManager.idle this)
      (MapDataManager.Call :: MapDataManager.Call :: events) = Some final ->
    ~ In MapDataManager.Call events ->
    Forall Scenarios.settled (MapDataManager.tasks final) ->
    MapDataManager.loaderCalls (MapDataManager.manager final)
    = S (MapDataManager.loaderCalls this) /\
    exists first second,
      MapDataManager.tasks final
      = [MapDataManager.Settled first; MapDataManager.Settled second] /\
      (forall rawMapData,
          In (MapDataManager.LoaderSettles 0 (JS.Resolved rawMapData)) events ->
          first = JS.Resolved
                    (Some (MapDataManager.transformMapData this rawMapData)) /\
          second = first) /\
      (forall error,
          In (MapDataManager.LoaderSettles 0 (JS.Rejected error)) events ->
          first = JS.Rejected error).
Proof.
  intros this events final Hidle Hrun Hcall Hdone.
  rewrite two_calls in Hrun by exact Hidle.
  destruct (two_calls_schedules this events final Hrun Hcall Hdone)
    as [k [loaded ->]].
  rewrite polling, loader_settles_then_timer in Hrun.
  injection Hrun as <-.
  assert (Hin : forall loaded',
             In (MapDataManager.LoaderSettles 0 loaded')
                (repeat (MapDataManager.TimerFires 1) k ++
                 [MapDataManager.LoaderSettles 0 loaded;
                  MapDataManager.TimerFires 1]) ->
             loaded' = loaded).
  { intros loaded' H. apply in_app_or in H. destruct H as [H | H].
    - apply repeat_spec in H. discriminate H.
    - destruct H as [H | [H | []]]; [| discriminate H].
      now injection H as <-. }
  split; [reflexivity |].
  exists (Scenarios.firstResult this loaded),
         (JS.Resolved (MapDataManager.mapData (Scenarios.afterLoad this loaded))).
  split; [reflexivity |]. split.
  - intros rawMapData H. apply Hin in H. subst loaded. split; reflexivity.
  - intros error H. apply Hin in H. subst loaded. reflexivity.
Qed.

Lemma overlapping_calls_share_one_load_witness :
  let this := MapDataManager.create in
  let events :=
    [ MapDataManager.TimerFires 1;
      MapDataManager.LoaderSettles 0 (JS.Resolved Scenarios.rawSquare);
      MapDataManager.TimerFires 1 ] in
  let final := Scenarios.bothSettled this (JS.Resolved Scenarios.rawSquare) in
  MapDataManager.isLoading this = false /\
  MapDataManager.run (MapDataManager.idle this)
    (MapDataManager.Call :: MapDataManager.Call :: events) = Some final /\
  ~ In MapDataManager.Call events /\
  Forall Scenarios.settled (MapDataManager.tasks final) /\
  (MapDataManager.loaderCalls (MapDataManager.manager final)
   = S (MapDataManager.loaderCalls this) /\
   exists first second,
     MapDataManager.tasks final
     = [MapDataManager.Settled first; MapDataManager.Settled second] /\
     (forall rawMapData,
         In (MapDataManager.LoaderSettles 0 (JS.Resolved rawMapData)) events ->
         first = JS.Resolved
                   (Some (MapDataManager.transformMapData this rawMapData)) /\
         second = first) /\
     (forall error,
         In (MapDataManager.LoaderSettles 0 (JS.Rejected error)) events ->
         first = JS.Rejected error)).
Proof.
  intros this events final.
  assert (H1 : MapDataManager.isLoading this = false) by reflexivity.
  assert (H2 : MapDataManager.run (MapDataManager.idle this)
                 (MapDataManager.Call :: MapDataManager.Call :: events)
               = Some final) by reflexivity.
  assert (H3 : ~ In MapDataManager.Call events).
  { intros [H | [H | [H | []]]]; discriminate H. }
  assert (H4 : Forall Scenarios.settled (MapDataManager.tasks final)).
  { repeat constructor. }
  split; [exact H1 |]. split; [exact H2 |]. split; [exact H3 |].
  split; [exact H4 |].
  exact (overlapping_calls_share_one_load this events final H1 H2 H3 H4).
Defined.

(** * Further properties of the three components *)

(** ** The coordinate transform, both ways *)

Lemma leb_iff (x y : R) : JS.leb x y = true <-> x <= y.
Proof.
  unfold JS.leb. destruct (Rle_dec x y); split; intros; try assumption;
    try reflexivity; try discriminate; contradiction.
Qed.

Lemma ltb_iff (x y : R) : JS.ltb x y = true <-> x < y.
Proof.
  unfold JS.ltb. destruct (Rlt_dec x y); split; intros; try assumption;
    try reflexivity; try discriminate; contradiction.
Qed.

(** X1.  The transform is a bijection between the two frames: going from a
    game-world point to latitude and longitude and back gives the point
    itself, for any box that is not degenerate and any world size other
    than zero. *)
Theorem realWorldToGameWorld_gameWorldToRealWorld :
  forall (this : MapDataManager.t) (x z : R),
    let bounds :=
      MapDataManager.realWorldBounds (MapDataManager.coordinateTransform this) in
    MapDataManager.gameWorldSize (MapDataManager.coordinateTransform this) <> 0 ->
    ViimsiMapLoader.east bounds <> ViimsiMapLoader.west bounds ->
    ViimsiMapLoader.north bounds <> ViimsiMapLoader.south bounds ->
    let geo := MapDataManager.gameWorldToRealWorld this x z in
    MapDataManager.realWorldToGameWorld this
      (ViimsiMapLoader.lat geo) (ViimsiMapLoader.lon geo)
    = {| MapDataManager.coord_x := x; MapDataManager.coord_z := z |}.
Proof.
  intros this x z bounds Hsize Hew Hns geo.
  unfold geo, MapDataManager.realWorldToGameWorld,
    MapDataManager.gameWorldToRealWorld.
  cbn [ViimsiMapLoader.lat ViimsiMapLoader.lon]. fold bounds.
  f_equal; field; repeat split; lra.
Qed.

Lemma realWorldToGameWorld_gameWorldToRealWorld_witness :
  let this := MapDataManager.create in
  let bounds :=
    MapDataManager.realWorldBounds (MapDataManager.coordinateTransform this) in
  MapDataManager.gameWorldSize (MapDataManager.coordinateTransform this) <> 0 /\
  ViimsiMapLoader.east bounds <> ViimsiMapLoader.west bounds /\
  ViimsiMapLoader.north bounds <> ViimsiMapLoader.south bounds /\
  let geo := MapDataManager.gameWorldToRealWorld this 250 (-400) in
  MapDataManager.realWorldToGameWorld this
    (ViimsiMapLoader.lat geo) (ViimsiMapLoader.lon geo)
  = {| MapDataManager.coord_x := 250; MapDataManager.coord_z := -400 |}.
Proof.
  intros this bounds.
  assert (H1 : MapDataManager.gameWorldSize
                 (MapDataManager.coordinateTransform this) <> 0) by (cbn; lra).
  assert (H2 : ViimsiMapLoader.east bounds <> ViimsiMapLoader.west bounds)
    by (cbn; lra).
  assert (H3 : ViimsiMapLoader.north bounds <> ViimsiMapLoader.south bounds)
    by (cbn; lra).
  split; [exact H1 |]. split; [exact H2 |]. split; [exact H3 |].
  exact (realWorldToGameWorld_gameWorldToRealWorld this 250 (-400) H1 H2 H3).
Defined.

(** X2.  [realWorldToGameWorld] maps the Viimsi box onto the world square
    and nothing else into it: a latitude lies between the southern and the
    northern boundary exactly when z lies in [-1000, 1000], a longitude
    between the western and the eastern boundary exactly when x does.  It
    does not clamp; differences of longitude and latitude are scaled by
    [scaleX] and [scaleZ]. *)
Theorem realWorldToGameWorld_box_onto_square :
  forall lat lon lat' lon' : R,
    let ct := MapDataManager.coordinateTransform MapDataManager.create in
    let g := MapDataManager.realWorldToGameWorld MapDataManager.create lat lon in
    let g' := MapDataManager.realWorldToGameWorld MapDataManager.create lat' lon' in
    (59.4167 <= lat <= 59.5167 <-> -1000 <= MapDataManager.coord_z g <= 1000) /\
    (24.7000 <= lon <= 24.8333 <-> -1000 <= MapDataManager.coord_x g <= 1000) /\
    MapDataManager.coord_x g' - MapDataManager.coord_x g
    = MapDataManager.scaleX ct * (lon' - lon) /\
    MapDataManager.coord_z g' - MapDataManager.coord_z g
    = MapDataManager.scaleZ ct * (lat' - lat).
Proof.
  intros lat lon lat' lon' ct g g'.
  unfold g, g', ct, MapDataManager.realWorldToGameWorld,
    MapDataManager.scaleX, MapDataManager.scaleZ.
  cbn [MapDataManager.coord_x MapDataManager.coord_z
       MapDataManager.coordinateTransform MapDataManager.create
       MapDataManager.realWorldBounds MapDataManager.gameWorldSize
       ViimsiMapLoader.viimsiParishBounds ViimsiMapLoader.north
       ViimsiMapLoader.south ViimsiMapLoader.east ViimsiMapLoader.west].
  repeat split; intros; try lra; field; lra.
Qed.

Lemma isInViimsiParish_iff (lat lon : R) :
  MapDataManager.isInViimsiParish lat lon = true <->
  59.4167 <= lat <= 59.5167 /\ 24.7000 <= lon <= 24.8333.
Proof.
  unfold MapDataManager.isInViimsiParish.
  cbn [ViimsiMapLoader.viimsiParishBounds ViimsiMapLoader.north
       ViimsiMapLoader.south ViimsiMapLoader.east ViimsiMapLoader.west].
  rewrite !andb_true_iff, !leb_iff. tauto.
Qed.

(** X3.  The [inViimsiParish] flag of [getLocationInfo] tells whether the
    point lies in the world square: for a manager with the coordinate
    transform of the constructor it is true exactly for the points with x
    and z in [-1000, 1000], whatever snapshot is loaded. *)
Theorem inViimsiParish_iff_in_world_square :
  forall (this : MapDataManager.t) (x z : R),
    MapDataManager.coordinateTransform this
    = MapDataManager.coordinateTransform MapDataManager.create ->
    (MapDataManager.inViimsiParish (MapDataManager.getLocationInfo this x z) = true
     <-> -1000 <= x <= 1000 /\ -1000 <= z <= 1000).
Proof.
  intros this x z Hct.
  unfold MapDataManager.getLocationInfo.
  cbn [MapDataManager.inViimsiParish].
  rewrite isInViimsiParish_iff.
  unfold MapDataManager.gameWorldToRealWorld. rewrite Hct.
  cbn [ViimsiMapLoader.lat ViimsiMapLoader.lon
       MapDataManager.coordinateTransform MapDataManager.create
       MapDataManager.realWorldBounds MapDataManager.gameWorldSize
       ViimsiMapLoader.viimsiParishBounds ViimsiMapLoader.north
       ViimsiMapLoader.south ViimsiMapLoader.east ViimsiMapLoader.west].
  split; intros; lra.
Qed.

Lemma inViimsiParish_iff_in_world_square_witness :
  MapDataManager.coordinateTransform
    (Scenarios.managerWith None Scenarios.sixBuildings)
  = MapDataManager.coordinateTransform MapDataManager.create /\
  (MapDataManager.inViimsiParish
     (MapDataManager.getLocationInfo
        (Scenarios.managerWith None Scenarios.sixBuildings) 1000 (-1000)) = true
   <-> -1000 <= 1000 <= 1000 /\ -1000 <= -1000 <= 1000).
Proof.
  split; [reflexivity |].
  exact (inViimsiParish_iff_in_world_square
           (Scenarios.managerWith None Scenarios.sixBuildings) 1000 (-1000)
           eq_refl).
Defined.

(** ** The entity transforms *)


(** X5.  Where [transformBuildingData] puts a building.  With a latitude and
    a longitude that are both present and not zero the building stands at
    their image, so that its game position maps back to its real-world
    coordinates; a latitude or longitude of zero counts as missing.  With
    neither coordinates nor a footprint the building stands at the world
    origin. *)
Theorem transformBuilding_position :
  forall (this : MapDataManager.t) (raw : ViimsiMapLoader.Building),
    let bounds :=
      MapDataManager.realWorldBounds (MapDataManager.coordinateTransform this) in
    let position :=
      MapDataManager.gamePosition (MapDataManager.transformBuilding this raw) in
    MapDataManager.gameWorldSize (MapDataManager.coordinateTransform this) <> 0 ->
    ViimsiMapLoader.east bounds <> ViimsiMapLoader.west bounds ->
    ViimsiMapLoader.north bounds <> ViimsiMapLoader.south bounds ->
    (forall lat lon,
        ViimsiMapLoader.building_lat raw = Some lat ->
        ViimsiMapLoader.building_lon raw = Some lon ->
        lat <> 0 -> lon <> 0 ->
        MapDataManager.gameWorldToRealWorld this
          (MapDataManager.pos_x position) (MapDataManager.pos_z position)
        = {| ViimsiMapLoader.lat := lat; ViimsiMapLoader.lon := lon |}) /\
    (ViimsiMapLoader.building_lat raw = None \/
     ViimsiMapLoader.building_lat raw = Some 0 \/
     ViimsiMapLoader.building_lon raw = None \/
     ViimsiMapLoader.building_lon raw = Some 0 ->
     (forall first rest,
         ViimsiMapLoader.building_geometry raw = Some (first :: rest) ->
         MapDataManager.gameWorldToRealWorld this
           (MapDataManager.pos_x position) (MapDataManager.pos_z position)
         = first) /\
     (ViimsiMapLoader.building_geometry raw = None \/
      ViimsiMapLoader.building_geometry raw = Some [] ->
      MapDataManager.pos_x position = 0 /\ MapDataManager.pos_z position = 0)).
Proof.
  intros this raw bounds position Hsize Hew Hns.
  assert (Back : forall lat lon,
             MapDataManager.gameWorldToRealWorld this
               (MapDataManager.coord_x
                  (MapDataManager.realWorldToGameWorld this lat lon))
               (MapDataManager.coord_z
                  (MapDataManager.realWorldToGameWorld this lat lon))
             = {| ViimsiMapLoader.lat := lat; ViimsiMapLoader.lon := lon |}).
  { intros lat lon.
    apply gameWorldToRealWorld_realWorldToGameWorld; assumption. }
  unfold position, MapDataManager.transformBuilding.
  cbn [MapDataManager.gamePosition MapDataManager.pos_x MapDataManager.pos_z].
  split.
  - intros lat lon -> -> Hlat Hlon.
    rewrite !truthy_true by assumption. cbn [andb]. apply Back.
  - intros Hmissing.
    assert (Hgeo :
      match ViimsiMapLoader.building_lat raw, ViimsiMapLoader.building_lon raw,
            ViimsiMapLoader.building_geometry raw with
      | Some lat, Some lon, geometry =>
          if JS.truthy lat && JS.truthy lon
          then MapDataManager.realWorldToGameWorld this lat lon
          else
            match geometry with
            | Some (firstPoint :: _) =>
                MapDataManager.realWorldToGameWorld this
                  (ViimsiMapLoader.lat firstPoint) (ViimsiMapLoader.lon firstPoint)
            | _ => {| MapDataManager.coord_x := 0; MapDataManager.coord_z := 0 |}
            end
      | _, _, Some (firstPoint :: _) =>
          MapDataManager.realWorldToGameWorld this
            (ViimsiMapLoader.lat firstPoint) (ViimsiMapLoader.lon firstPoint)
      | _, _, _ => {| MapDataManager.coord_x := 0; MapDataManager.coord_z := 0 |}
      end
      = match ViimsiMapLoader.building_geometry raw with
        | Some (firstPoint :: _) =>
            MapDataManager.realWorldToGameWorld this
              (ViimsiMapLoader.lat firstPoint) (ViimsiMapLoader.lon firstPoint)
        | _ => {| MapDataManager.coord_x := 0; MapDataManager.coord_z := 0 |}
        end).
    { destruct Hmissing as [-> | [-> | [-> | ->]]].
      - destruct (ViimsiMapLoader.building_lon raw);
          destruct (ViimsiMapLoader.building_geometry raw) as [[| ? ?] |];
          reflexivity.
      - destruct (ViimsiMapLoader.building_lon raw);
          rewrite ?truthy_zero; cbn [andb];
          destruct (ViimsiMapLoader.building_geometry raw) as [[| ? ?] |];
          reflexivity.
      - destruct (ViimsiMapLoader.building_lat raw);
          destruct (ViimsiMapLoader.building_geometry raw) as [[| ? ?] |];
          reflexivity.
      - destruct (ViimsiMapLoader.building_lat raw);
          rewrite ?truthy_zero, ?andb_false_r;
          destruct (ViimsiMapLoader.building_geometry raw) as [[| ? ?] |];
          reflexivity. }
    rewrite Hgeo. split.
    + intros first rest ->. rewrite Back. now destruct first.
    + intros [-> | ->]; split; reflexivity.
Qed.

Lemma transformBuilding_position_witness :
  let this := MapDataManager.create in
  let raw := {|
    ViimsiMapLoader.building_name := "Viimsi Manor";
    ViimsiMapLoader.building_type := "historic";
    ViimsiMapLoader.building_lat := Some 59.4833;
    ViimsiMapLoader.building_lon := Some 24.7667;
    ViimsiMapLoader.building_geometry := None;
    ViimsiMapLoader.building_height := Some (JS.Number 12) |} in
  let bounds :=
    MapDataManager.realWorldBounds (MapDataManager.coordinateTransform this) in
  let position :=
    MapDataManager.gamePosition (MapDataManager.transformBuilding this raw) in
  MapDataManager.gameWorldSize (MapDataManager.coordinateTransform this) <> 0 /\
  ViimsiMapLoader.east bounds <> ViimsiMapLoader.west bounds /\
  ViimsiMapLoader.north bounds <> ViimsiMapLoader.south bounds /\
  MapDataManager.gameWorldToRealWorld this
    (MapDataManager.pos_x position) (MapDataManager.pos_z position)
  = {| ViimsiMapLoader.lat := 59.4833; ViimsiMapLoader.lon := 24.7667 |}.
Proof.
  intros this raw bounds position.
  assert (H1 : MapDataManager.gameWorldSize
                 (MapDataManager.coordinateTransform this) <> 0) by (cbn; lra).
  assert (H2 : ViimsiMapLoader.east bounds <> ViimsiMapLoader.west bounds)
    by (cbn; lra).
  assert (H3 : ViimsiMapLoader.north bounds <> ViimsiMapLoader.south bounds)
    by (cbn; lra).
  split; [exact H1 |]. split; [exact H2 |]. split; [exact H3 |].
  apply (proj1 (transformBuilding_position this raw H1 H2 H3) 59.4833 24.7667);
    try reflexivity; lra.
Defined.

(** X6.  [transformRoadData] keeps every road and every vertex: one output
    road per input road, with the width of [getRoadWidth] for its type
    whatever width the raw record carried, no game geometry for a road
    without geometry, and otherwise one game vertex per vertex, in order,
    each storing the latitude and longitude it came from and mapping back to
    exactly these under [gameWorldToRealWorld]. *)
Theorem transformRoadData_vertices :
  forall (this : MapDataManager.t) (roads : list ViimsiMapLoader.Road),
    let bounds :=
      MapDataManager.realWorldBounds (MapDataManager.coordinateTransform this) in
    MapDataManager.gameWorldSize (MapDataManager.coordinateTransform this) <> 0 ->
    ViimsiMapLoader.east bounds <> ViimsiMapLoader.west bounds ->
    ViimsiMapLoader.north bounds <> ViimsiMapLoader.south bounds ->
    Forall2
      (fun raw r =>
         MapDataManager.road r = raw /\
         MapDataManager.width r
         = MapDataManager.getRoadWidth (ViimsiMapLoader.road_type raw) /\
         Forall2
           (fun point q =>
              MapDataManager.realLat q = ViimsiMapLoader.lat point /\
              MapDataManager.realLon q = ViimsiMapLoader.lon point /\
              MapDataManager.gameWorldToRealWorld this
                (MapDataManager.point_x q) (MapDataManager.point_z q)
              = point)
           match ViimsiMapLoader.road_geometry raw with
           | Some geometry => geometry
           | None => []
           end
           (MapDataManager.gameGeometry r))
      roads (MapDataManager.transformRoadData this roads).
Proof.
  intros this roads bounds Hsize Hew Hns.
  unfold MapDataManager.transformRoadData.
  induction roads as [| raw rest IH]; constructor; [| exact IH].
  split; [reflexivity |]. split; [reflexivity |].
  unfold MapDataManager.transformRoad. cbn [MapDataManager.gameGeometry].
  destruct (ViimsiMapLoader.road_geometry raw) as [geometry |];
    [| constructor].
  induction geometry as [| point more IHg]; constructor; [| exact IHg].
  cbn [MapDataManager.realLat MapDataManager.realLon
       MapDataManager.point_x MapDataManager.point_z].
  split; [reflexivity |]. split; [reflexivity |].
  rewrite gameWorldToRealWorld_realWorldToGameWorld by assumption.
  now destruct point.
Qed.

Lemma transformRoadData_vertices_witness :
  let this := MapDataManager.create in
  let roads := ViimsiMapLoader.generateRealisticViimsiRoads in
  let bounds :=
    MapDataManager.realWorldBounds (MapDataManager.coordinateTransform this) in
  MapDataManager.gameWorldSize (MapDataManager.coordinateTransform this) <> 0 /\
  ViimsiMapLoader.east bounds <> ViimsiMapLoader.west bounds /\
  ViimsiMapLoader.north bounds <> ViimsiMapLoader.south bounds /\
  Forall2
    (fun raw r =>
       MapDataManager.road r = raw /\
       MapDataManager.width r
       = MapDataManager.getRoadWidth (ViimsiMapLoader.road_type raw) /\
       Forall2
         (fun point q =>
            MapDataManager.realLat q = ViimsiMapLoader.lat point /\
            MapDataManager.realLon q = ViimsiMapLoader.lon point /\
            MapDataManager.gameWorldToRealWorld this
              (MapDataManager.point_x q) (MapDataManager.point_z q)
            = point)
         match ViimsiMapLoader.road_geometry raw with
         | Some geometry => geometry
         | None => []
         end
         (MapDataManager.gameGeometry r))
    roads (MapDataManager.transformRoadData this roads).
Proof.
  intros this roads bounds.
  assert (H1 : MapDataManager.gameWorldSize
                 (MapDataManager.coordinateTransform this) <> 0) by (cbn; lra).
  assert (H2 : ViimsiMapLoader.east bounds <> ViimsiMapLoader.west bounds)
    by (cbn; lra).
  assert (H3 : ViimsiMapLoader.north bounds <> ViimsiMapLoader.south bounds)
    by (cbn; lra).
  split; [exact H1 |]. split; [exact H2 |]. split; [exact H3 |].
  exact (transformRoadData_vertices this roads H1 H2 H3).
Defined.

(** X7.  [transformForestData] yields a proper rectangle that covers the
    forest: whatever the order of the corners in the raw bounds, the game
    bounds have [minX <= maxX] and [minZ <= maxZ], and every point whose
    latitude and longitude lie between the raw bounds is mapped by
    [realWorldToGameWorld] into the rectangle. *)
Theorem transformForest_covers :
  forall (f : ViimsiMapLoader.Forest) (lat lon : R),
    let this := MapDataManager.create in
    let raw := ViimsiMapLoader.forest_bounds f in
    let rectangle :=
      MapDataManager.gameBounds (MapDataManager.transformForest this f) in
    let g := MapDataManager.realWorldToGameWorld this lat lon in
    MapDataManager.minX rectangle <= MapDataManager.maxX rectangle /\
    MapDataManager.minZ rectangle <= MapDataManager.maxZ rectangle /\
    (Rmin (ViimsiMapLoader.west raw) (ViimsiMapLoader.east raw) <= lon
       <= Rmax (ViimsiMapLoader.west raw) (ViimsiMapLoader.east raw) ->
     MapDataManager.minX rectangle <= MapDataManager.coord_x g
       <= MapDataManager.maxX rectangle) /\
    (Rmin (ViimsiMapLoader.south raw) (ViimsiMapLoader.north raw) <= lat
       <= Rmax (ViimsiMapLoader.south raw) (ViimsiMapLoader.north raw) ->
     MapDataManager.minZ rectangle <= MapDataManager.coord_z g
       <= MapDataManager.maxZ rectangle).
Proof.
  intros f lat lon this raw rectangle g.
  unfold rectangle, g, this, MapDataManager.transformForest,
    MapDataManager.realWorldToGameWorld.
  fold raw.
  cbn [MapDataManager.gameBounds MapDataManager.minX MapDataManager.maxX
       MapDataManager.minZ MapDataManager.maxZ
       MapDataManager.coord_x MapDataManager.coord_z
       MapDataManager.coordinateTransform MapDataManager.create
       MapDataManager.realWorldBounds MapDataManager.gameWorldSize
       ViimsiMapLoader.viimsiParishBounds ViimsiMapLoader.north
       ViimsiMapLoader.south ViimsiMapLoader.east ViimsiMapLoader.west].
  unfold JS.Math_min, JS.Math_max, Rmin, Rmax.
  repeat match goal with
  | |- context [Rle_dec ?a ?b] => destruct (Rle_dec a b)
  end;
  repeat split; intros; lra.
Qed.

(** ** Area queries *)

Lemma sqrt_nonneg_sum (a b : R) : 0 <= JS.Math_sqrt (a * a + b * b).
Proof. unfold JS.Math_sqrt. apply sqrt_pos. Qed.

(** X8.  [getBuildingsInArea] returns exactly the buildings of the snapshot
    whose game position is at distance at most the radius from the centre:
    never one that is farther, never one that is not in the snapshot, and
    every one that qualifies.  Without a snapshot and for a negative radius
    it returns nothing, and a larger radius never loses a building. *)
Theorem getBuildingsInArea_exact :
  forall (this : MapDataManager.t) (x z radius : R),
    (MapDataManager.mapData this = None ->
     MapDataManager.getBuildingsInArea this x z radius = []) /\
    (radius < 0 -> MapDataManager.getBuildingsInArea this x z radius = []) /\
    (forall data b,
        MapDataManager.mapData this = Some data ->
        (In b (MapDataManager.getBuildingsInArea this x z radius) <->
         In b (MapDataManager.buildings data) /\
         MapDataManager.distanceTo x z
           (MapDataManager.pos_x (MapDataManager.gamePosition b))
           (MapDataManager.pos_z (MapDataManager.gamePosition b)) <= radius)) /\
    (forall wider,
        radius <= wider ->
        incl (MapDataManager.getBuildingsInArea this x z radius)
             (MapDataManager.getBuildingsInArea this x z wider)).
Proof.
  intros this x z radius. unfold MapDataManager.getBuildingsInArea.
  destruct (MapDataManager.mapData this) as [data |].
  - split; [discriminate |]. split.
    + intros Hneg. induction (MapDataManager.buildings data) as [| b l IH];
        [reflexivity |].
      cbn [filter]. rewrite leb_false; [exact IH |].
      pose proof (sqrt_nonneg_sum
                    (MapDataManager.pos_x (MapDataManager.gamePosition b) - x)
                    (MapDataManager.pos_z (MapDataManager.gamePosition b) - z)).
      lra.
    + split.
      * intros data' b [= <-]. rewrite filter_In, leb_iff. reflexivity.
      * intros wider Hw b. rewrite !filter_In, !leb_iff.
        intros [Hin Hd]. split; [exact Hin | lra].
  - split; [reflexivity |]. split; [reflexivity |].
    split; [discriminate |]. intros wider _ b [].
Qed.

(** X9.  [getRoadsInArea] returns exactly the roads of the snapshot with at
    least one vertex at distance at most the radius; a road whose raw record
    had no geometry has no vertex after the transform and is never
    returned, whatever the centre and the radius. *)
Theorem getRoadsInArea_exact :
  forall (this : MapDataManager.t) (x z radius : R),
    (MapDataManager.mapData this = None ->
     MapDataManager.getRoadsInArea this x z radius = []) /\
    (forall data r,
        MapDataManager.mapData this = Some data ->
        (In r (MapDataManager.getRoadsInArea this x z radius) <->
         In r (MapDataManager.roads data) /\
         exists q,
           In q (MapDataManager.gameGeometry r) /\
           MapDataManager.distanceTo x z
             (MapDataManager.point_x q) (MapDataManager.point_z q) <= radius)) /\
    (forall (other : MapDataManager.t) (raw : ViimsiMapLoader.Road),
        ViimsiMapLoader.road_geometry raw = None ->
        ~ In (MapDataManager.transformRoad other raw)
             (MapDataManager.getRoadsInArea this x z radius)).
Proof.
  intros this x z radius. unfold MapDataManager.getRoadsInArea.
  assert (Hiff : forall data r,
             In r (filter
                     (fun r =>
                        existsb
                          (fun point =>
                             JS.leb
                               (JS.Math_sqrt
                                  ((MapDataManager.point_x point - x) *
                                   (MapDataManager.point_x point - x) +
                                   (MapDataManager.point_z point - z) *
                                   (MapDataManager.point_z point - z))) radius)
                          (MapDataManager.gameGeometry r))
                     (MapDataManager.roads data)) <->
             In r (MapDataManager.roads data) /\
             exists q,
               In q (MapDataManager.gameGeometry r) /\
               MapDataManager.distanceTo x z
                 (MapDataManager.point_x q) (MapDataManager.point_z q) <= radius).
  { intros data r. rewrite filter_In, existsb_exists.
    split; intros [Hin [q [Hq Hd]]]; (split; [exact Hin |]); exists q;
      (split; [exact Hq |]); apply leb_iff; exact Hd. }
  destruct (MapDataManager.mapData this) as [data |].
  - split; [discriminate |]. split.
    + intros data' r [= <-]. apply Hiff.
    + intros other raw Hraw Hin. apply Hiff in Hin.
      destruct Hin as [_ [q [Hq _]]].
      unfold MapDataManager.transformRoad in Hq.
      cbn [MapDataManager.gameGeometry] in Hq. rewrite Hraw in Hq.
      destruct Hq.
  - split; [reflexivity |]. split; [discriminate |].
    intros other raw _ [].
Qed.

Lemma firstn_incl {A : Type} (n : nat) (l : list A) : incl (firstn n l) l.
Proof.
  intros a Ha. rewrite <- (firstn_skipn n l). apply in_or_app. now left.
Qed.

(** X10.  [getLocationInfo] echoes the point, reports the elevation of
    [getElevationAt] and lists at most five buildings and three roads, all
    of them from the area queries with radius 100 and 50, in the order of
    the snapshot; when no more than five buildings (three roads) are in
    range none is left out. *)
Theorem getLocationInfo_limits :
  forall (this : MapDataManager.t) (x z : R),
    let info := MapDataManager.getLocationInfo this x z in
    MapDataManager.info_gameCoords info
    = {| MapDataManager.coord_x := x; MapDataManager.coord_z := z |} /\
    MapDataManager.info_elevation info = MapDataManager.getElevationAt this x z /\
    (List.length (MapDataManager.nearbyBuildings info) <= 5)%nat /\
    (List.length (MapDataManager.nearbyRoads info) <= 3)%nat /\
    incl (MapDataManager.nearbyBuildings info)
         (MapDataManager.getBuildingsInArea this x z 100) /\
    incl (MapDataManager.nearbyRoads info)
         (MapDataManager.getRoadsInArea this x z 50) /\
    ((List.length (MapDataManager.getBuildingsInArea this x z 100) <= 5)%nat ->
     MapDataManager.nearbyBuildings info
     = MapDataManager.getBuildingsInArea this x z 100) /\
    ((List.length (MapDataManager.getRoadsInArea this x z 50) <= 3)%nat ->
     MapDataManager.nearbyRoads info
     = MapDataManager.getRoadsInArea this x z 50).
Proof.
  intros this x z info. unfold info, MapDataManager.getLocationInfo.
  cbn [MapDataManager.info_gameCoords MapDataManager.info_elevation
       MapDataManager.nearbyBuildings MapDataManager.nearbyRoads].
  unfold JS.slice0.
  split; [reflexivity |]. split; [reflexivity |].
  split; [apply firstn_le_length |]. split; [apply firstn_le_length |].
  split; [apply firstn_incl |]. split; [apply firstn_incl |].
  split; intros H; apply firstn_all2; exact H.
Qed.

(** ** Loading, one call after the other *)

(** X11.  A call of [loadMapData] on an idle manager whose load succeeds
    publishes a complete snapshot and resolves with it: the flag is cleared,
    the raster is the loader's raster, there is one building, road and
    forest per raw record, and bounds and timestamp are the loader's.  The
    snapshot is not a cache: a second call made afterwards goes to the
    loader again and replaces the snapshot with the new result. *)
Theorem loadMapData_publishes_snapshot :
  forall (this : MapDataManager.t) (first second : ViimsiMapLoader.MapData),
    MapDataManager.isLoading this = false ->
    let snapshot := MapDataManager.transformMapData this first in
    (exists after,
        MapDataManager.run (MapDataManager.idle this)
          [ MapDataManager.Call;
            MapDataManager.LoaderSettles 0 (JS.Resolved first) ]
        = Some after /\
        MapDataManager.tasks after
        = [MapDataManager.Settled (JS.Resolved (Some snapshot))] /\
        MapDataManager.mapData (MapDataManager.manager after) = Some snapshot /\
        MapDataManager.isLoading (MapDataManager.manager after) = false /\
        MapDataManager.loaderCalls (MapDataManager.manager after)
        = S (MapDataManager.loaderCalls this)) /\
    MapDataManager.elevation snapshot = ViimsiMapLoader.elevation first /\
    List.length (MapDataManager.buildings snapshot)
    = List.length (ViimsiMapLoader.buildings first) /\
    List.length (MapDataManager.roads snapshot)
    = List.length (ViimsiMapLoader.roads first) /\
    List.length (MapDataManager.forests snapshot)
    = List.length (ViimsiMapLoader.forests first) /\
    MapDataManager.bounds snapshot = ViimsiMapLoader.bounds first /\
    MapDataManager.timestamp snapshot = ViimsiMapLoader.timestamp first /\
    (exists after,
        MapDataManager.run (MapDataManager.idle this)
          [ MapDataManager.Call;
            MapDataManager.LoaderSettles 0 (JS.Resolved first);
            MapDataManager.Call;
            MapDataManager.LoaderSettles 1 (JS.Resolved second) ]
        = Some after /\
        MapDataManager.mapData (MapDataManager.manager after)
        = Some (MapDataManager.transformMapData this second) /\
        MapDataManager.loaderCalls (MapDataManager.manager after)
        = S (S (MapDataManager.loaderCalls this))).
Proof.
  intros this first second Hidle snapshot.
  destruct this as [ct md il lc]. cbn in Hidle. subst il.
  split.
  { eexists. split; [reflexivity |]. repeat split. }
  split.
  { unfold snapshot, MapDataManager.transformMapData,
      MapDataManager.transformElevationData.
    cbn [MapDataManager.elevation].
    destruct (ViimsiMapLoader.elevation first); [| reflexivity].
    now rewrite map_id. }
  split; [apply length_map |]. split; [apply length_map |].
  split; [apply length_map |]. split; [reflexivity |]. split; [reflexivity |].
  eexists. split; [reflexivity |]. split; reflexivity.
Qed.

Lemma loadMapData_publishes_snapshot_witness :
  let this := MapDataManager.create in
  let first := Scenarios.rawSquare in
  let snapshot := MapDataManager.transformMapData this first in
  MapDataManager.isLoading this = false /\
  (exists after,
      MapDataManager.run (MapDataManager.idle this)
        [ MapDataManager.Call;
          MapDataManager.LoaderSettles 0 (JS.Resolved first) ]
      = Some after /\
      MapDataManager.tasks after
      = [MapDataManager.Settled (JS.Resolved (Some snapshot))] /\
      MapDataManager.mapData (MapDataManager.manager after) = Some snapshot /\
      MapDataManager.isLoading (MapDataManager.manager after) = false /\
      MapDataManager.loaderCalls (MapDataManager.manager after)
      = S (MapDataManager.loaderCalls this)).
Proof.
  intros this first snapshot.
  assert (H : MapDataManager.isLoading this = false) by reflexivity.
  split; [exact H |].
  exact (proj1 (loadMapData_publishes_snapshot this first first H)).
Defined.

(** X12.  A load that fails leaves the store as it was: the call rejects
    with the loader's error, the snapshot of before (if any) is still the one
    the queries read, and the flag is cleared, so that the next call is a
    fresh attempt that goes to the loader rather than a wait. *)
Theorem loadMapData_failure_keeps_snapshot :
  forall (this : MapDataManager.t) (error : string),
    MapDataManager.isLoading this = false ->
    exists after,
      MapDataManager.run (MapDataManager.idle this)
        [ MapDataManager.Call;
          MapDataManager.LoaderSettles 0 (JS.Rejected error) ]
      = Some after /\
      MapDataManager.tasks after = [MapDataManager.Settled (JS.Rejected error)] /\
      MapDataManager.mapData (MapDataManager.manager after)
      = MapDataManager.mapData this /\
      MapDataManager.isLoading (MapDataManager.manager after) = false /\
      (forall x z,
          MapDataManager.getLocationInfo (MapDataManager.manager after) x z
          = MapDataManager.getLocationInfo this x z) /\
      exists retried,
        MapDataManager.step after MapDataManager.Call = Some retried /\
        MapDataManager.tasks retried
        = [ MapDataManager.Settled (JS.Rejected error);
            MapDataManager.Suspended MapDataManager.AwaitLoader ] /\
        MapDataManager.loaderCalls (MapDataManager.manager retried)
        = S (S (MapDataManager.loaderCalls this)).
Proof.
  intros this error Hidle.
  destruct this as [ct md il lc]. cbn in Hidle. subst il.
  eexists. split; [reflexivity |].
  split; [reflexivity |]. split; [reflexivity |]. split; [reflexivity |].
  split; [reflexivity |].
  eexists. split; [reflexivity |]. split; reflexivity.
Qed.

Lemma loadMapData_failure_keeps_snapshot_witness :
  let this := Scenarios.managerWith (Some Scenarios.raster4) Scenarios.sixBuildings in
  MapDataManager.isLoading this = false /\
  exists after,
    MapDataManager.run (MapDataManager.idle this)
      [ MapDataManager.Call;
        MapDataManager.LoaderSettles 0 (JS.Rejected "Network error") ]
    = Some after /\
    MapDataManager.tasks after
    = [MapDataManager.Settled (JS.Rejected "Network error")] /\
    MapDataManager.mapData (MapDataManager.manager after)
    = MapDataManager.mapData this /\
    MapDataManager.isLoading (MapDataManager.manager after) = false /\
    (forall x z,
        MapDataManager.getLocationInfo (MapDataManager.manager after) x z
        = MapDataManager.getLocationInfo this x z) /\
    exists retried,
      MapDataManager.step after MapDataManager.Call = Some retried /\
      MapDataManager.tasks retried
      = [ MapDataManager.Settled (JS.Rejected "Network error");
          MapDataManager.Suspended MapDataManager.AwaitLoader ] /\
      MapDataManager.loaderCalls (MapDataManager.manager retried)
      = S (S (MapDataManager.loaderCalls this)).
Proof.
  intros this.
  assert (H : MapDataManager.isLoading this = false) by reflexivity.
  split; [exact H |].
  exact (loadMapData_failure_keeps_snapshot this "Network error" H).
Defined.

(** X13.  [dispose] empties the store but cancels nothing.  Afterwards
    [getStats] answers [null] and every query answers as before the first
    load, while the coordinate transform is untouched; a load that was in
    flight when [dispose] was called still publishes its snapshot when the
    loader settles.  [getStats] is [null] exactly when there is no
    snapshot. *)
Theorem dispose_empties_the_store :
  forall (this : MapDataManager.t) (x z radius : R)
         (rawMapData : ViimsiMapLoader.MapData),
    let disposed := MapDataManager.dispose this in
    (MapDataManager.getStats this tt = None <-> MapDataManager.mapData this = None) /\
    MapDataManager.getStats disposed tt = None /\
    MapDataManager.getBuildingsInArea disposed x z radius = [] /\
    MapDataManager.getRoadsInArea disposed x z radius = [] /\
    MapDataManager.getElevationAt disposed x z = 0 /\
    MapDataManager.nearbyBuildings (MapDataManager.getLocationInfo disposed x z) = [] /\
    MapDataManager.realWorldToGameWorld disposed x z
    = MapDataManager.realWorldToGameWorld this x z /\
    MapDataManager.isLoading disposed = MapDataManager.isLoading this /\
    MapDataManager.mapData
      (fst (MapDataManager.loadMapData_loaded disposed (JS.Resolved rawMapData)))
    = Some (MapDataManager.transformMapData this rawMapData).
Proof.
  intros this x z radius rawMapData disposed.
  split.
  { unfold MapDataManager.getStats.
    destruct (MapDataManager.mapData this); split; intros H;
      try reflexivity; discriminate H. }
  repeat split.
Qed.

(** ** Terrain heights beyond the grid and the world *)

(** Two points with the same clamped coordinates sample alike. *)
Lemma sampleHeightmap_clamped (hm : list R) (u v u' v' size : R) :
  JS.Math_max 0 (JS.Math_min 1 u) = JS.Math_max 0 (JS.Math_min 1 u') ->
  JS.Math_max 0 (JS.Math_min 1 v) = JS.Math_max 0 (JS.Math_min 1 v') ->
  TerrainSystem.sampleHeightmap hm u v size
  = TerrainSystem.sampleHeightmap hm u' v' size.
Proof.
  intros Hu Hv. unfold TerrainSystem.sampleHeightmap. cbv zeta.
  rewrite Hu, Hv. reflexivity.
Qed.

Lemma clamp01_idempotent (u : R) :
  JS.Math_max 0 (JS.Math_min 1 u)
  = JS.Math_max 0 (JS.Math_min 1 (JS.Math_max 0 (JS.Math_min 1 u))).
Proof. symmetry. apply clamp01_id, clamp01_range. Qed.

Lemma clamp01_low (u : R) : u <= 0 -> JS.Math_max 0 (JS.Math_min 1 u) = 0.
Proof.
  intros H. unfold JS.Math_max, JS.Math_min, Rmax, Rmin.
  destruct (Rle_dec 1 u); destruct (Rle_dec 0 _); lra.
Qed.

Lemma clamp01_high (u : R) : 1 <= u -> JS.Math_max 0 (JS.Math_min 1 u) = 1.
Proof.
  intros H. unfold JS.Math_max, JS.Math_min, Rmax, Rmin.
  destruct (Rle_dec 1 u); destruct (Rle_dec 0 _); lra.
Qed.

(** X14.  [sampleHeightmap] never reads outside the unit square: a point
    outside is sampled at the nearest point of the square, so that
    everything left of the raster reads its first column, everything right
    of it the last column, and likewise for the rows. *)
Theorem sampleHeightmap_held_at_edges :
  forall (hm : list R) (u v size : R),
    TerrainSystem.sampleHeightmap hm u v size
    = TerrainSystem.sampleHeightmap hm
        (JS.Math_max 0 (JS.Math_min 1 u)) (JS.Math_max 0 (JS.Math_min 1 v)) size /\
    (u <= 0 -> TerrainSystem.sampleHeightmap hm u v size
               = TerrainSystem.sampleHeightmap hm 0 v size) /\
    (1 <= u -> TerrainSystem.sampleHeightmap hm u v size
               = TerrainSystem.sampleHeightmap hm 1 v size) /\
    (v <= 0 -> TerrainSystem.sampleHeightmap hm u v size
               = TerrainSystem.sampleHeightmap hm u 0 size) /\
    (1 <= v -> TerrainSystem.sampleHeightmap hm u v size
               = TerrainSystem.sampleHeightmap hm u 1 size).
Proof.
  intros hm u v size.
  split; [apply sampleHeightmap_clamped; apply clamp01_idempotent |].
  split; [intros H; apply sampleHeightmap_clamped; [| reflexivity];
          rewrite (clamp01_low u H), (clamp01_low 0); lra |].
  split; [intros H; apply sampleHeightmap_clamped; [| reflexivity];
          rewrite (clamp01_high u H), (clamp01_high 1); lra |].
  split; [intros H; apply sampleHeightmap_clamped; [reflexivity |];
          rewrite (clamp01_low v H), (clamp01_low 0); lra |].
  intros H; apply sampleHeightmap_clamped; [reflexivity |].
  rewrite (clamp01_high v H), (clamp01_high 1); lra.
Qed.

(** The cell and the weight of a grid coordinate. *)
Lemma grid_cell (n : Z) (x : R) :
  0 <= x <= IZR n - 1 ->
  (0 <= Zfloor x <= n - 1)%Z /\ 0 <= x - IZR (Zfloor x) < 1.
Proof.
  intros [H0 H1]. pose proof (Zfloor_bound x) as [Hlo Hhi].
  split; [| lra].
  split; [apply Zfloor_lub; exact H0 |].
  apply le_IZR. rewrite minus_IZR. lra.
Qed.

(** A blend of two values with a weight in the unit interval lies between
    their bounds. *)
Lemma blend_between (a b f lo hi : R) :
  lo <= a <= hi -> lo <= b <= hi -> 0 <= f <= 1 ->
  lo <= a * (1 - f) + b * f <= hi.
Proof. intros Ha Hb Hf. split; nra. Qed.

(** X15.  Interpolation never leaves the range of the stored samples: on an
    [n] x [n] raster whose samples all lie between [lo] and [hi], every
    result of [sampleHeightmap], inside or outside the unit square, lies
    between [lo] and [hi], and with a non-negative height scale every height
    reported by [getHeightAt] lies between the scaled bounds. *)
Theorem sampleHeightmap_within_sample_range :
  forall (this : TerrainSystem.t) (hm : list R) (n : Z) (lo hi : R),
    TerrainSystem.heightmapData this = Some hm ->
    (1 <= n)%Z ->
    Z.of_nat (List.length hm) = (n * n)%Z ->
    Forall (fun h => lo <= h <= hi) hm ->
    0 <= TerrainSystem.heightScale (TerrainSystem.config this) ->
    (forall u v, lo <= TerrainSystem.sampleHeightmap hm u v (IZR n) <= hi) /\
    (forall x z,
        lo * TerrainSystem.heightScale (TerrainSystem.config this)
        <= TerrainSystem.getHeightAt this x z
        <= hi * TerrainSystem.heightScale (TerrainSystem.config this)).
Proof.
  intros this hm n lo hi Hmap Hn Hlen Hall Hscale.
  assert (Hsample :
            forall u v, lo <= TerrainSystem.sampleHeightmap hm u v (IZR n) <= hi).
  { intros u v.
    rewrite sampleHeightmap_bilinear by exact Hn. cbv zeta.
    set (x := JS.Math_max 0 (JS.Math_min 1 u) * (IZR n - 1)).
    set (y := JS.Math_max 0 (JS.Math_min 1 v) * (IZR n - 1)).
    assert (Hn' : 0 <= IZR n - 1) by (apply IZR_le in Hn; lra).
    assert (Hx : 0 <= x <= IZR n - 1)
      by (unfold x; pose proof (clamp01_range u); nra).
    assert (Hy : 0 <= y <= IZR n - 1)
      by (unfold y; pose proof (clamp01_range v); nra).
    destruct (grid_cell n x Hx) as [Hi Hfx].
    destruct (grid_cell n y Hy) as [Hj Hfy].
    assert (Hread : forall a b : Z,
               (0 <= a <= n - 1)%Z -> (0 <= b <= n - 1)%Z ->
               lo <= nth (Z.to_nat (b * n + a)) hm 0 <= hi).
    { intros a b Ha Hb.
      apply (proj1 (Forall_nth (fun h => lo <= h <= hi) hm) Hall).
      apply Nat2Z.inj_lt. rewrite Z2Nat.id by nia. rewrite Hlen. nia. }
    apply blend_between; [| | lra];
      (apply blend_between; [| | lra]); apply Hread; lia. }
  split; [exact Hsample |].
  intros x z. unfold TerrainSystem.getHeightAt. rewrite Hmap. cbv zeta.
  rewrite (sqrt_square_length hm n) by (lia || exact Hlen).
  specialize (Hsample (TerrainSystem.heightmapCoordinate this x)
                      (TerrainSystem.heightmapCoordinate this z)).
  split; apply Rmult_le_compat_r; lra.
Qed.

Lemma sampleHeightmap_within_sample_range_witness :
  let this := Scenarios.terrainWith Scenarios.raster4 in
  (forall u v, 0 <= TerrainSystem.sampleHeightmap Scenarios.raster4 u v (IZR 4) <= 45) /\
  (forall x z,
      0 * TerrainSystem.heightScale (TerrainSystem.config this)
      <= TerrainSystem.getHeightAt this x z
      <= 45 * TerrainSystem.heightScale (TerrainSystem.config this)).
Proof.
  intros this.
  assert (Hall : Forall (fun h => 0 <= h <= 45) Scenarios.raster4).
  { unfold Scenarios.raster4.
    repeat (apply Forall_cons; [lra |]). apply Forall_nil. }
  assert (Hscale : 0 <= TerrainSystem.heightScale (TerrainSystem.config this)).
  { unfold this, Scenarios.terrainWith, TerrainSystem.defaultConfig.
    cbn [TerrainSystem.config TerrainSystem.heightScale]. lra. }
  exact (sampleHeightmap_within_sample_range this Scenarios.raster4 4 0 45
           eq_refl ltac:(lia) eq_refl Hall Hscale).
Defined.




(** ** What [applyElevationData] does to a mesh *)

Lemma Forall2_map_same {A B : Type} (f : A -> B) (P : A -> B -> Prop)
    (l : list A) :
  (forall a, P a (f a)) -> Forall2 P l (map f l).
Proof.
  intros H. induction l as [| a l IH]; cbn; constructor; [apply H | exact IH].
Qed.

(** X17.  [applyElevationData] moves vertices vertically only: whichever of
    its three paths runs (procedural terrain, heightmap, heightmap with the
    flatness correction), the mesh keeps its number of vertices and every
    vertex keeps its [x] and [z]. *)
Theorem applyElevationData_moves_heights_only :
  forall (this : TerrainSystem.t) (geometry : list TerrainSystem.Vertex)
         (segments : Z),
    Forall2 (fun before after =>
               TerrainSystem.vx after = TerrainSystem.vx before /\
               TerrainSystem.vz after = TerrainSystem.vz before)
            geometry
            (TerrainSystem.applyElevationData this geometry segments).
Proof.
  intros this geometry segments.
  unfold TerrainSystem.applyElevationData.
  destruct (TerrainSystem.heightmapData this) as [[| h hm] |].
  - apply Forall2_map_same. intros p. split; reflexivity.
  - cbv zeta.
    destruct (TerrainSystem.tooFlat _).
    + rewrite map_map. apply Forall2_map_same. intros p. split; reflexivity.
    + apply Forall2_map_same. intros p. split; reflexivity.
  - apply Forall2_map_same. intros p. split; reflexivity.
Qed.

Lemma wave_bounded (a b : R) : -1 <= sin a * cos b <= 1.
Proof.
  pose proof (SIN_bound a). pose proof (COS_bound b). split; nra.
Qed.

(** X18.  Without a heightmap ([null] or an empty array) the procedural
    terrain stays at or above sea level and at or below 250, and a vertex at
    the centre of the world gets exactly 150, whatever height it had. *)
Theorem applyElevationData_procedural_range :
  forall (this : TerrainSystem.t) (geometry : list TerrainSystem.Vertex)
         (segments : Z),
    TerrainSystem.heightmapData this = None \/
    TerrainSystem.heightmapData this = Some [] ->
    Forall (fun after => 0 <= TerrainSystem.vy after <= 250)
           (TerrainSystem.applyElevationData this geometry segments) /\
    (forall y,
        TerrainSystem.applyElevationData this
          [ {| TerrainSystem.vx := 0; TerrainSystem.vy := y; TerrainSystem.vz := 0 |} ]
          segments
        = [ {| TerrainSystem.vx := 0; TerrainSystem.vy := 150; TerrainSystem.vz := 0 |} ]).
Proof.
  intros this geometry segments Hmap.
  assert (Happly : forall g,
             TerrainSystem.applyElevationData this g segments
             = map TerrainSystem.proceduralVertex g).
  { intros g. unfold TerrainSystem.applyElevationData.
    destruct Hmap as [-> | ->]; reflexivity. }
  split.
  - rewrite Happly. apply Forall_map, Forall_forall. intros p _.
    unfold TerrainSystem.proceduralVertex, TerrainSystem.setY.
    cbn [TerrainSystem.vy].
    unfold JS.Math_sin, JS.Math_cos, JS.Math_max.
    set (d := JS.Math_sqrt _).
    assert (Hd : 0 <= d) by apply sqrt_pos.
    pose proof (wave_bounded (TerrainSystem.vx p * 0.01) (TerrainSystem.vz p * 0.01)).
    pose proof (wave_bounded (TerrainSystem.vx p * 0.005) (TerrainSystem.vz p * 0.005)).
    pose proof (wave_bounded (TerrainSystem.vx p * 0.02) (TerrainSystem.vz p * 0.02)).
    assert (Hm : 0 <= Rmax 0 (150 - d * 0.3) <= 150).
    { unfold Rmax. destruct (Rle_dec 0 (150 - d * 0.3)); lra. }
    split; [apply Rmax_r |].
    apply Rmax_lub; lra.
  - intros y. rewrite Happly. cbn [map]. f_equal.
    unfold TerrainSystem.proceduralVertex, TerrainSystem.setY.
    cbn [TerrainSystem.vx TerrainSystem.vy TerrainSystem.vz].
    f_equal.
    unfold JS.Math_sin, JS.Math_cos, JS.Math_max, JS.Math_sqrt.
    rewrite !Rmult_0_l, sin_0, Rplus_0_l, sqrt_0.
    unfold Rmax.
    destruct (Rle_dec 0 (150 - 0 * 0.3)); [| lra].
    destruct (Rle_dec _ 0); lra.
Qed.

Lemma applyElevationData_procedural_range_witness :
  let this := TerrainSystem.dispose (Scenarios.terrainWith Scenarios.raster4) in
  Forall (fun after => 0 <= TerrainSystem.vy after <= 250)
         (TerrainSystem.applyElevationData this Scenarios.plane3 2).
Proof.
  intros this.
  exact (proj1 (applyElevationData_procedural_range this Scenarios.plane3 2
                  (or_introl eq_refl))).
Defined.

(** ** Level of detail *)

Lemma setVisible_length (objects : list TerrainSystem.Mesh) (ref : nat)
    (flag : bool) :
  List.length (TerrainSystem.setVisible objects ref flag) = List.length objects.
Proof.
  revert ref. induction objects as [| m rest IH]; intros [| r]; cbn;
    try reflexivity.
  now rewrite IH.
Qed.

Lemma setVisible_other (objects : list TerrainSystem.Mesh) (ref ref' : nat)
    (flag : bool) :
  ref <> ref' ->
  nth_error (TerrainSystem.setVisible objects ref flag) ref'
  = nth_error objects ref'.
Proof.
  revert ref ref'.
  induction objects as [| m rest IH]; intros [| r] [| r'] H; cbn;
    try reflexivity.
  - contradiction.
  - apply IH. intros E. apply H. now rewrite E.
Qed.

Lemma setVisible_same (objects : list TerrainSystem.Mesh) (ref : nat)
    (flag : bool) (m : TerrainSystem.Mesh) :
  nth_error (TerrainSystem.setVisible objects ref flag) ref = Some m ->
  TerrainSystem.visible m = flag /\
  exists before,
    nth_error objects ref = Some before /\
    TerrainSystem.positions m = TerrainSystem.positions before.
Proof.
  revert ref.
  induction objects as [| o rest IH]; intros [| r] H; cbn in H;
    try discriminate H.
  - injection H as <-. split; [reflexivity |]. exists o. split; reflexivity.
  - apply IH. exact H.
Qed.

Lemma at_index_in_range {A : Type} (a : list A) (i : Z) :
  (0 <= i < Z.of_nat (List.length a))%Z ->
  exists x, TerrainSystem.at_index a i = Some x /\
            nth_error a (Z.to_nat i) = Some x.
Proof.
  intros Hi. unfold TerrainSystem.at_index.
  replace (i <? 0)%Z with false by (symmetry; apply Z.ltb_ge; lia).
  destruct (nth_error a (Z.to_nat i)) as [x |] eqn:E.
  - exists x. split; reflexivity.
  - apply nth_error_None in E. lia.
Qed.

(** X19.  [switchLOD] with an index in range keeps the level-of-detail
    meshes consistent: starting from a state where exactly the mesh of
    [currentLOD] is visible and primary, it ends in such a state for the new
    level; it counts one switch (also when the new level is the current
    one), stamps the time, and leaves the list of meshes, the size of the
    object store and every mesh's geometry alone. *)
Theorem switchLOD_shows_one_level :
  forall (this : TerrainSystem.t) (newLOD : Z) (now : R),
    Scenarios.oneLevelShown this ->
    (0 <= newLOD < Z.of_nat (List.length (TerrainSystem.lodMeshes this)))%Z ->
    let next := TerrainSystem.switchLOD this newLOD now in
    Scenarios.oneLevelShown next /\
    TerrainSystem.currentLOD next = newLOD /\
    TerrainSystem.lodMeshes next = TerrainSystem.lodMeshes this /\
    TerrainSystem.lodSwitches (TerrainSystem.stats next)
    = S (TerrainSystem.lodSwitches (TerrainSystem.stats this)) /\
    TerrainSystem.lastLODSwitch (TerrainSystem.stats next) = now /\
    List.length (TerrainSystem.objects next)
    = List.length (TerrainSystem.objects this) /\
    (forall ref after,
        nth_error (TerrainSystem.objects next) ref = Some after ->
        exists before,
          nth_error (TerrainSystem.objects this) ref = Some before /\
          TerrainSystem.positions after = TerrainSystem.positions before).
Proof.
  intros this newLOD now (Hdistinct & Hlive & Hcurrent & Hprimary & Hshown)
         Hrange next.
  destruct (at_index_in_range _ _ Hcurrent) as (current & Hcur & Hcur').
  destruct (at_index_in_range _ _ Hrange) as (shown & Hnew & Hnew').
  assert (Hnext :
            next =
            {| TerrainSystem.config := TerrainSystem.config this;
               TerrainSystem.objects :=
                 TerrainSystem.setVisible
                   (TerrainSystem.setVisible (TerrainSystem.objects this)
                      current false) shown true;
               TerrainSystem.lodMeshes := TerrainSystem.lodMeshes this;
               TerrainSystem.terrainMesh := Some shown;
               TerrainSystem.currentLOD := newLOD;
               TerrainSystem.heightmapData := TerrainSystem.heightmapData this;
               TerrainSystem.stats :=
                 {| TerrainSystem.triangles :=
                      TerrainSystem.triangles (TerrainSystem.stats this);
                    TerrainSystem.vertices :=
                      TerrainSystem.vertices (TerrainSystem.stats this);
                    TerrainSystem.lodSwitches :=
                      S (TerrainSystem.lodSwitches (TerrainSystem.stats this));
                    TerrainSystem.lastLODSwitch := now |} |}).
  { unfold next, TerrainSystem.switchLOD.
    replace (newLOD <? 0)%Z with false by (symmetry; apply Z.ltb_ge; lia).
    replace (Z.of_nat (List.length (TerrainSystem.lodMeshes this)) <=? newLOD)%Z
      with false by (symmetry; apply Z.leb_gt; lia).
    cbn [orb]. rewrite Hcur, Hnew. reflexivity. }
  clearbody next. subst next.
  cbn [TerrainSystem.currentLOD TerrainSystem.lodMeshes TerrainSystem.stats
       TerrainSystem.lodSwitches TerrainSystem.lastLODSwitch
       TerrainSystem.objects].
  assert (Hgeometry :
            forall ref after,
              nth_error
                (TerrainSystem.setVisible
                   (TerrainSystem.setVisible (TerrainSystem.objects this)
                      current false) shown true) ref = Some after ->
              exists before,
                nth_error (TerrainSystem.objects this) ref = Some before /\
                TerrainSystem.positions after = TerrainSystem.positions before).
  { intros ref after H.
    assert (Hinner :
              forall m,
                nth_error (TerrainSystem.setVisible (TerrainSystem.objects this)
                             current false) ref = Some m ->
                exists before,
                  nth_error (TerrainSystem.objects this) ref = Some before /\
                  TerrainSystem.positions m = TerrainSystem.positions before).
    { intros m Hm. destruct (Nat.eq_dec current ref) as [<- | Hne].
      - apply setVisible_same in Hm. tauto.
      - rewrite setVisible_other in Hm by exact Hne.
        exists m. split; [exact Hm | reflexivity]. }
    destruct (Nat.eq_dec shown ref) as [<- | Hne].
    - apply setVisible_same in H. destruct H as (_ & mid & Hmid & Hpos).
      destruct (Hinner mid Hmid) as (before & Hbefore & Hpos').
      exists before. split; [exact Hbefore | congruence].
    - rewrite setVisible_other in H by exact Hne. apply Hinner. exact H. }
  split; [| repeat split; try reflexivity;
            [now rewrite !setVisible_length | exact Hgeometry]].
  unfold Scenarios.oneLevelShown.
  cbn [TerrainSystem.currentLOD TerrainSystem.lodMeshes TerrainSystem.objects
       TerrainSystem.terrainMesh].
  split; [exact Hdistinct |].
  split; [intros ref Hin; rewrite !setVisible_length; now apply Hlive |].
  split; [exact Hrange |].
  split; [symmetry; exact Hnew' |].
  intros i ref m Hi Hm.
  destruct (Nat.eq_dec shown ref) as [<- | Hne].
  - apply setVisible_same in Hm. destruct Hm as [-> _].
    assert (i = Z.to_nat newLOD).
    { apply (proj1 (NoDup_nth_error (TerrainSystem.lodMeshes this)) Hdistinct).
      - apply nth_error_Some. congruence.
      - congruence. }
    subst i. symmetry. apply Nat.eqb_refl.
  - assert (Hi' : i <> Z.to_nat newLOD) by congruence.
    rewrite (proj2 (Nat.eqb_neq _ _) Hi').
    rewrite setVisible_other in Hm by exact Hne.
    destruct (Nat.eq_dec current ref) as [<- | Hne'].
    + apply setVisible_same in Hm. tauto.
    + rewrite setVisible_other in Hm by exact Hne'.
      rewrite (Hshown i ref m Hi Hm).
      apply Nat.eqb_neq. congruence.
Qed.

Lemma oneLevelShown_terrainTwoLevels :
  Scenarios.oneLevelShown Scenarios.terrainTwoLevels.
Proof.
  unfold Scenarios.oneLevelShown, Scenarios.terrainTwoLevels.
  cbn [TerrainSystem.currentLOD TerrainSystem.lodMeshes TerrainSystem.objects
       TerrainSystem.terrainMesh].
  split; [repeat constructor; cbn; intuition discriminate |].
  split; [intros ref [<- | [<- | []]]; cbn; lia |].
  split; [cbn; lia |].
  split; [reflexivity |].
  intros [| [| i]] ref m Hi Hm; cbn in Hi.
  - injection Hi as <-. cbn in Hm. injection Hm as <-. reflexivity.
  - injection Hi as <-. cbn in Hm. injection Hm as <-. reflexivity.
  - destruct i; discriminate Hi.
Qed.

Lemma switchLOD_shows_one_level_witness :
  let next := TerrainSystem.switchLOD Scenarios.terrainTwoLevels 1 1000 in
  Scenarios.oneLevelShown Scenarios.terrainTwoLevels /\
  Scenarios.oneLevelShown next /\
  TerrainSystem.currentLOD next = 1%Z.
Proof.
  intros next.
  assert (Hrange :
            (0 <= 1 < Z.of_nat (List.length
                        (TerrainSystem.lodMeshes Scenarios.terrainTwoLevels)))%Z)
    by (cbn; lia).
  pose proof (switchLOD_shows_one_level Scenarios.terrainTwoLevels 1 1000
                oneLevelShown_terrainTwoLevels Hrange) as H.
  split; [exact oneLevelShown_terrainTwoLevels |].
  split; [exact (proj1 H) | exact (proj1 (proj2 H))].
Defined.

Lemma firstWithin_found (distance : R) (thresholds : list R) (i otherwise : Z)
    (k : nat) (t : R) :
  nth_error thresholds k = Some t ->
  distance <= t ->
  (forall j t', (j < k)%nat -> nth_error thresholds j = Some t' -> t' < distance) ->
  TerrainSystem.firstWithin distance thresholds i otherwise = (i + Z.of_nat k)%Z.
Proof.
  revert i k.
  induction thresholds as [| d rest IH]; intros i [| k] Hk Hle Hbefore;
    cbn in Hk; try discriminate Hk.
  - injection Hk as ->. cbn. rewrite leb_true by exact Hle. lia.
  - cbn [TerrainSystem.firstWithin].
    rewrite leb_false by (apply (Hbefore 0%nat d); [lia | reflexivity]).
    rewrite (IH (i + 1)%Z k Hk Hle); [lia |].
    intros j t' Hj Ht'. apply (Hbefore (S j) t'); [lia | exact Ht'].
Qed.

Lemma firstWithin_beyond (distance : R) (thresholds : list R) (i otherwise : Z) :
  (forall t, In t thresholds -> t < distance) ->
  TerrainSystem.firstWithin distance thresholds i otherwise = otherwise.
Proof.
  revert i. induction thresholds as [| d rest IH]; intros i H; cbn.
  - reflexivity.
  - rewrite leb_false by (apply H; left; reflexivity).
    apply IH. intros t Ht. apply H. right. exact Ht.
Qed.

Lemma switchLOD_currentLOD (this : TerrainSystem.t) (newLOD : Z) (now : R) :
  (0 <= newLOD < Z.of_nat (List.length (TerrainSystem.lodMeshes this)))%Z ->
  TerrainSystem.currentLOD (TerrainSystem.switchLOD this newLOD now) = newLOD.
Proof.
  intros Hrange. unfold TerrainSystem.switchLOD.
  replace (newLOD <? 0)%Z with false by (symmetry; apply Z.ltb_ge; lia).
  replace (Z.of_nat (List.length (TerrainSystem.lodMeshes this)) <=? newLOD)%Z
    with false by (symmetry; apply Z.leb_gt; lia).
  cbn [orb].
  destruct (at_index_in_range _ _ Hrange) as (shown & -> & _). reflexivity.
Qed.

Lemma switchLOD_outside (this : TerrainSystem.t) (newLOD : Z) (now : R) :
  ~ (0 <= newLOD < Z.of_nat (List.length (TerrainSystem.lodMeshes this)))%Z ->
  TerrainSystem.switchLOD this newLOD now = this.
Proof.
  intros Hrange. unfold TerrainSystem.switchLOD.
  destruct (newLOD <? 0)%Z eqn:E1; [reflexivity |].
  destruct (Z.of_nat (List.length (TerrainSystem.lodMeshes this)) <=? newLOD)%Z
    eqn:E2; [reflexivity |].
  apply Z.ltb_ge in E1. apply Z.leb_gt in E2. lia.
Qed.

(** X20.  [updateLOD] picks the level by the camera's distance from the
    origin: the first threshold of [config.lod.distances] that is not below
    the distance gives the level, and beyond all thresholds the level is
    [config.lod.levels - 1], provided a mesh of that level exists.  It
    never counts a switch without changing the level: if the level after
    the update is the level before, nothing at all has changed.  Without a
    camera position it does nothing. *)
Theorem updateLOD_selects_by_distance :
  forall (this : TerrainSystem.t) (primary : nat)
         (camera : TerrainSystem.Vertex) (now : R),
    TerrainSystem.terrainMesh this = Some primary ->
    let distance :=
      sqrt (TerrainSystem.vx camera * TerrainSystem.vx camera +
            TerrainSystem.vy camera * TerrainSystem.vy camera +
            TerrainSystem.vz camera * TerrainSystem.vz camera) in
    let thresholds :=
      TerrainSystem.distances (TerrainSystem.lod (TerrainSystem.config this)) in
    let meshes := Z.of_nat (List.length (TerrainSystem.lodMeshes this)) in
    let next := TerrainSystem.updateLOD this (Some camera) now in
    (forall (k : nat) (t : R),
        nth_error thresholds k = Some t ->
        distance <= t ->
        (forall j t', (j < k)%nat -> nth_error thresholds j = Some t' ->
                      t' < distance) ->
        (Z.of_nat k < meshes)%Z ->
        TerrainSystem.currentLOD next = Z.of_nat k) /\
    ((forall t, In t thresholds -> t < distance) ->
     (0 <= TerrainSystem.levels (TerrainSystem.lod (TerrainSystem.config this)) - 1
      < meshes)%Z ->
     TerrainSystem.currentLOD next
     = (TerrainSystem.levels (TerrainSystem.lod (TerrainSystem.config this)) - 1)%Z) /\
    (TerrainSystem.currentLOD next = TerrainSystem.currentLOD this -> next = this) /\
    TerrainSystem.updateLOD this None now = this.
Proof.
  intros this primary camera now Hprimary distance thresholds meshes next.
  assert (Hnext :
            forall newLOD,
              TerrainSystem.firstWithin distance thresholds 0
                (TerrainSystem.levels (TerrainSystem.lod (TerrainSystem.config this)) - 1)
              = newLOD ->
              next = if (newLOD =? TerrainSystem.currentLOD this)%Z then this
                     else TerrainSystem.switchLOD this newLOD now).
  { intros newLOD <-. unfold next, TerrainSystem.updateLOD.
    rewrite Hprimary. reflexivity. }
  assert (Hlevel :
            forall newLOD,
              TerrainSystem.firstWithin distance thresholds 0
                (TerrainSystem.levels (TerrainSystem.lod (TerrainSystem.config this)) - 1)
              = newLOD ->
              (0 <= newLOD < meshes)%Z ->
              TerrainSystem.currentLOD next = newLOD).
  { intros newLOD Hfirst Hrange. rewrite (Hnext newLOD Hfirst).
    destruct (newLOD =? TerrainSystem.currentLOD this)%Z eqn:E.
    - apply Z.eqb_eq in E. symmetry. exact E.
    - apply switchLOD_currentLOD. exact Hrange. }
  split.
  { intros k t Hk Hle Hbefore Hmesh. apply Hlevel; [| lia].
    rewrite (firstWithin_found distance thresholds 0 _ k t Hk Hle Hbefore). lia. }
  split.
  { intros Hbeyond Hrange. apply Hlevel; [| exact Hrange].
    apply firstWithin_beyond. exact Hbeyond. }
  split; [| unfold TerrainSystem.updateLOD; rewrite Hprimary; reflexivity].
  intros Hsame. rewrite (Hnext _ eq_refl) in Hsame |- *.
  set (newLOD := TerrainSystem.firstWithin _ _ _ _) in *.
  destruct (newLOD =? TerrainSystem.currentLOD this)%Z eqn:E; [reflexivity |].
  apply Z.eqb_neq in E.
  destruct (Z_lt_dec newLOD 0) as [Hneg | Hpos].
  - apply switchLOD_outside. lia.
  - destruct (Z_lt_dec newLOD meshes) as [Hin | Hout].
    + rewrite switchLOD_currentLOD in Hsame by (unfold meshes in Hin; lia).
      contradiction.
    + apply switchLOD_outside. unfold meshes in Hout. lia.
Qed.

Lemma updateLOD_selects_by_distance_witness :
  let this := Scenarios.terrainTwoLevels in
  let far :=
    {| TerrainSystem.vx := 0; TerrainSystem.vy := 1500; TerrainSystem.vz := 0 |} in
  TerrainSystem.terrainMesh this = Some 0%nat /\
  TerrainSystem.currentLOD (TerrainSystem.updateLOD this (Some far) 0) = 1%Z.
Proof.
  intros this far.
  split; [reflexivity |].
  assert (Hdistance :
            sqrt (TerrainSystem.vx far * TerrainSystem.vx far +
                  TerrainSystem.vy far * TerrainSystem.vy far +
                  TerrainSystem.vz far * TerrainSystem.vz far) = 1500).
  { unfold far. cbn [TerrainSystem.vx TerrainSystem.vy TerrainSystem.vz].
    replace (0 * 0 + 1500 * 1500 + 0 * 0) with (1500 * 1500) by lra.
    apply sqrt_square. lra. }
  apply (proj1 (updateLOD_selects_by_distance this 0%nat far 0 eq_refl) 1%nat 2000).
  - reflexivity.
  - rewrite Hdistance. lra.
  - intros [| j] t' Hj Ht'; [| lia]. cbn in Ht'. injection Ht' as <-.
    rewrite Hdistance. lra.
  - cbn. lia.
Defined.

(** X21.  After [dispose] the terrain system is inert: [getHeightAt]
    answers 0 everywhere, no [switchLOD] and no [updateLOD] changes
    anything, whatever the level or the camera, a mesh handed to
    [applyElevationData] gets the procedural terrain, and a second
    [dispose] changes nothing; the counters of [stats] survive. *)
Theorem dispose_leaves_terrain_inert :
  forall (this : TerrainSystem.t) (x z now : R) (newLOD : Z)
         (camera : option TerrainSystem.Vertex)
         (geometry : list TerrainSystem.Vertex) (segments : Z),
    let disposed := TerrainSystem.dispose this in
    TerrainSystem.getHeightAt disposed x z = 0 /\
    TerrainSystem.switchLOD disposed newLOD now = disposed /\
    TerrainSystem.updateLOD disposed camera now = disposed /\
    TerrainSystem.applyElevationData disposed geometry segments
    = map TerrainSystem.proceduralVertex geometry /\
    TerrainSystem.dispose disposed = disposed /\
    TerrainSystem.stats disposed = TerrainSystem.stats this.
Proof.
  intros this x z now newLOD camera geometry segments disposed.
  split; [reflexivity |].
  split; [apply switchLOD_outside; cbn; lia |].
  repeat split.
Qed.

(** ** The loader's cache *)

Lemma cache_get_set_same (cache : ViimsiMapLoader.Cache) (key : string)
    (entry : ViimsiMapLoader.CacheEntry) :
  ViimsiMapLoader.cache_get (ViimsiMapLoader.cache_set cache key entry) key
  = Some entry.
Proof.
  induction cache as [| [k e] rest IH]; cbn.
  - now rewrite String.eqb_refl.
  - destruct (String.eqb k key) eqn:E; cbn; rewrite E; [reflexivity | exact IH].
Qed.

Lemma cache_get_set_other (cache : ViimsiMapLoader.Cache) (key other : string)
    (entry : ViimsiMapLoader.CacheEntry) :
  other <> key ->
  ViimsiMapLoader.cache_get (ViimsiMapLoader.cache_set cache key entry) other
  = ViimsiMapLoader.cache_get cache other.
Proof.
  intros Hne. induction cache as [| [k e] rest IH]; cbn.
  - replace (String.eqb key other) with false; [reflexivity |].
    symmetry. apply String.eqb_neq. congruence.
  - destruct (String.eqb k key) eqn:E; cbn.
    + apply String.eqb_eq in E. subst k.
      replace (String.eqb key other) with false; [reflexivity |].
      symmetry. apply String.eqb_neq. congruence.
    + destruct (String.eqb k other); [reflexivity | exact IH].
Qed.

Lemma isCacheValid_set (cache : ViimsiMapLoader.Cache) (key : string)
    (payload : ViimsiMapLoader.CachedData) (stored now : R) :
  ViimsiMapLoader.isCacheValid
    (ViimsiMapLoader.cache_set cache key
       {| ViimsiMapLoader.data := payload; ViimsiMapLoader.cached_at := stored |})
    key now = true
  <-> now - stored < 1800000.
Proof.
  unfold ViimsiMapLoader.isCacheValid. rewrite cache_get_set_same.
  cbn [ViimsiMapLoader.cached_at]. rewrite ltb_iff.
  unfold ViimsiMapLoader.cacheTimeout. split; intros; lra.
Qed.

(** X22.  A dataset stored in the cache is served for thirty minutes and
    not a millisecond longer: after [cache.set] the entry is valid exactly
    while its age is below 1 800 000 ms, so it is already stale at the
    thirtieth minute; storing one dataset does not touch the validity of
    another; a key that was never stored is not valid; and [clearCache]
    makes every key stale at once. *)
Theorem cache_entry_valid_for_thirty_minutes :
  forall (cache : ViimsiMapLoader.Cache) (key : string)
         (payload : ViimsiMapLoader.CachedData) (stored now : R),
    let entry :=
      {| ViimsiMapLoader.data := payload; ViimsiMapLoader.cached_at := stored |} in
    let cache' := ViimsiMapLoader.cache_set cache key entry in
    ViimsiMapLoader.cache_get cache' key = Some entry /\
    (ViimsiMapLoader.isCacheValid cache' key now = true
     <-> now - stored < 1800000) /\
    ViimsiMapLoader.isCacheValid cache' key (stored + 1800000) = false /\
    (forall other,
        other <> key ->
        ViimsiMapLoader.isCacheValid cache' other now
        = ViimsiMapLoader.isCacheValid cache other now) /\
    (ViimsiMapLoader.cache_get cache key = None ->
     ViimsiMapLoader.isCacheValid cache key now = false) /\
    ViimsiMapLoader.isCacheValid (ViimsiMapLoader.clearCache cache') key now
    = false.
Proof.
  intros cache key payload stored now entry cache'.
  split; [apply cache_get_set_same |].
  split; [apply isCacheValid_set |].
  split.
  { destruct (ViimsiMapLoader.isCacheValid cache' key (stored + 1800000)) eqn:E;
      [| reflexivity].
    apply isCacheValid_set in E. lra. }
  split.
  { intros other Hne. unfold ViimsiMapLoader.isCacheValid, cache'.
    now rewrite cache_get_set_other. }
  split.
  { intros Hnone. unfold ViimsiMapLoader.isCacheValid. now rewrite Hnone. }
  reflexivity.
Qed.

Lemma isCacheValid_entry (cache : ViimsiMapLoader.Cache) (key : string) (now : R) :
  ViimsiMapLoader.isCacheValid cache key now = true ->
  exists entry,
    ViimsiMapLoader.cache_get cache key = Some entry /\
    now - ViimsiMapLoader.cached_at entry < 1800000.
Proof.
  unfold ViimsiMapLoader.isCacheValid.
  destruct (ViimsiMapLoader.cache_get cache key) as [entry |];
    [| discriminate].
  intros H. apply ltb_iff in H. unfold ViimsiMapLoader.cacheTimeout in H.
  exists entry. split; [reflexivity | lra].
Qed.

Lemma isCacheValid_later (cache : ViimsiMapLoader.Cache) (key : string)
    (now now' : R) :
  ViimsiMapLoader.isCacheValid cache key now = false ->
  now <= now' ->
  ViimsiMapLoader.isCacheValid cache key now' = false.
Proof.
  unfold ViimsiMapLoader.isCacheValid.
  destruct (ViimsiMapLoader.cache_get cache key) as [entry |];
    [| reflexivity].
  intros H Hle.
  destruct (JS.ltb (now' - ViimsiMapLoader.cached_at entry)
                   ViimsiMapLoader.cacheTimeout) eqn:E; [| reflexivity].
  apply ltb_iff in E.
  rewrite ltb_true in H by lra. discriminate H.
Qed.

(** X23.  [fetchRoadData] caches successes only.  While the cached roads
    are valid they are returned whatever the network would answer, and the
    cache is left alone.  Otherwise, when [fetchOSMRoads] throws, the four
    roads of [generateRealisticViimsiRoads] are returned and nothing is
    stored, so that every later call asks the network again; when it
    succeeds, the processed roads are returned and stored, and served again
    for thirty minutes, whatever the network answers meanwhile. *)
Theorem fetchRoadData_caches_successes_only :
  forall (cache : ViimsiMapLoader.Cache) (now later : R)
         (answer : ViimsiMapLoader.FetchResult),
    (ViimsiMapLoader.isCacheValid cache "viimsi-roads" now = true ->
     exists entry,
       ViimsiMapLoader.cache_get cache "viimsi-roads" = Some entry /\
       ViimsiMapLoader.fetchRoadData cache now answer later
       = (ViimsiMapLoader.data entry, cache)) /\
    (ViimsiMapLoader.isCacheValid cache "viimsi-roads" now = false ->
     (forall message,
         ViimsiMapLoader.fetchOSMRoads answer = inl message ->
         ViimsiMapLoader.fetchRoadData cache now answer later
         = (ViimsiMapLoader.RoadData ViimsiMapLoader.generateRealisticViimsiRoads,
            cache) /\
         forall now',
           now <= now' ->
           ViimsiMapLoader.isCacheValid cache "viimsi-roads" now' = false) /\
     (forall roads,
         ViimsiMapLoader.fetchOSMRoads answer = inr roads ->
         let result := ViimsiMapLoader.fetchRoadData cache now answer later in
         fst result = ViimsiMapLoader.RoadData roads /\
         forall now' later' answer',
           now' - later < 1800000 ->
           ViimsiMapLoader.fetchRoadData (snd result) now' answer' later'
           = (ViimsiMapLoader.RoadData roads, snd result))).
Proof.
  intros cache now later answer. split.
  - intros Hvalid. unfold ViimsiMapLoader.fetchRoadData. rewrite Hvalid.
    destruct (isCacheValid_entry _ _ _ Hvalid) as (entry & Hentry & _).
    exists entry. rewrite Hentry. split; reflexivity.
  - intros Hstale. split.
    + intros message Hfails. split.
      * unfold ViimsiMapLoader.fetchRoadData. rewrite Hstale, Hfails. reflexivity.
      * intros now' Hle. apply (isCacheValid_later _ _ now); assumption.
    + intros roads Hroads result.
      assert (Hresult :
                result =
                (ViimsiMapLoader.RoadData roads,
                 ViimsiMapLoader.cache_set cache "viimsi-roads"
                   {| ViimsiMapLoader.data := ViimsiMapLoader.RoadData roads;
                      ViimsiMapLoader.cached_at := later |})).
      { unfold result, ViimsiMapLoader.fetchRoadData.
        rewrite Hstale, Hroads. reflexivity. }
      rewrite Hresult. cbn [fst snd]. split; [reflexivity |].
      intros now' later' answer' Hfresh.
      unfold ViimsiMapLoader.fetchRoadData.
      rewrite (proj2 (isCacheValid_set cache "viimsi-roads" _ later now') Hfresh).
      rewrite cache_get_set_same. reflexivity.
Qed.

(** X24.  [fetchBuildingData] caches failures too.  [fetchOSMBuildings]
    turns every failure of the request into the three fallback landmarks
    without throwing, so when the cache is stale and the request fails, the
    landmarks are returned and stored like real data: for the next thirty
    minutes every call gets the landmarks from the cache, also when the
    network is back. *)
Theorem fetchBuildingData_caches_the_fallback :
  forall (parseFloat parseInt : string -> option R)
         (cache : ViimsiMapLoader.Cache) (now later : R)
         (answer : ViimsiMapLoader.FetchResult),
    ViimsiMapLoader.isCacheValid cache "viimsi-buildings" now = false ->
    (forall elements,
        answer <> ViimsiMapLoader.Response true
                    (ViimsiMapLoader.JsonData (Some elements))) ->
    let result :=
      ViimsiMapLoader.fetchBuildingData parseFloat parseInt cache now answer later in
    fst result
    = ViimsiMapLoader.BuildingData ViimsiMapLoader.generateFallbackBuildings /\
    forall now' later' answer',
      now' - later < 1800000 ->
      ViimsiMapLoader.fetchBuildingData parseFloat parseInt (snd result)
        now' answer' later'
      = (ViimsiMapLoader.BuildingData ViimsiMapLoader.generateFallbackBuildings,
         snd result).
Proof.
  intros parseFloat parseInt cache now later answer Hstale Hfails result.
  assert (Hfallback :
            ViimsiMapLoader.fetchOSMBuildings parseFloat parseInt answer
            = ViimsiMapLoader.generateFallbackBuildings).
  { destruct answer as [message | [|] [message | [elements |]]];
      try reflexivity.
    exfalso. apply (Hfails elements). reflexivity. }
  assert (Hresult :
            result =
            (ViimsiMapLoader.BuildingData ViimsiMapLoader.generateFallbackBuildings,
             ViimsiMapLoader.cache_set cache "viimsi-buildings"
               {| ViimsiMapLoader.data :=
                    ViimsiMapLoader.BuildingData
                      ViimsiMapLoader.generateFallbackBuildings;
                  ViimsiMapLoader.cached_at := later |})).
  { unfold result, ViimsiMapLoader.fetchBuildingData.
    rewrite Hstale, Hfallback. reflexivity. }
  rewrite Hresult. cbn [fst snd]. split; [reflexivity |].
  intros now' later' answer' Hfresh.
  unfold ViimsiMapLoader.fetchBuildingData.
  rewrite (proj2 (isCacheValid_set cache "viimsi-buildings" _ later now') Hfresh).
  rewrite cache_get_set_same. reflexivity.
Qed.

Lemma fetchBuildingData_caches_the_fallback_witness :
  let answer := ViimsiMapLoader.FetchFails "Failed to fetch" in
  let result :=
    ViimsiMapLoader.fetchBuildingData Scenarios.parsesNothing
      Scenarios.parsesNothing [] 0 answer 5 in
  ViimsiMapLoader.isCacheValid [] "viimsi-buildings" 0 = false /\
  fst result
  = ViimsiMapLoader.BuildingData ViimsiMapLoader.generateFallbackBuildings /\
  forall now' later' answer',
    now' - 5 < 1800000 ->
    ViimsiMapLoader.fetchBuildingData Scenarios.parsesNothing
      Scenarios.parsesNothing (snd result) now' answer' later'
    = (ViimsiMapLoader.BuildingData ViimsiMapLoader.generateFallbackBuildings,
       snd result).
Proof.
  intros answer result.
  split; [reflexivity |].
  apply (fetchBuildingData_caches_the_fallback Scenarios.parsesNothing
           Scenarios.parsesNothing [] 0 5 answer).
  - reflexivity.
  - intros elements H. discriminate H.
Defined.

(** ** From an Overpass answer to the game world *)

Lemma fold_sum_bounds (f : ViimsiMapLoader.GeoPoint -> R)
    (coords : list ViimsiMapLoader.GeoPoint) (lo hi start : R) :
  (forall p, In p coords -> lo <= f p <= hi) ->
  start + INR (List.length coords) * lo
  <= fold_left (fun sum coord => sum + f coord) coords start
  <= start + INR (List.length coords) * hi.
Proof.
  revert start. induction coords as [| p rest IH]; intros start H.
  - cbn. lra.
  - cbn [fold_left List.length]. rewrite S_INR.
    assert (Hp : lo <= f p <= hi) by (apply H; left; reflexivity).
    assert (Hrest : forall q, In q rest -> lo <= f q <= hi)
      by (intros q Hq; apply H; right; exact Hq).
    specialize (IH (start + f p) Hrest). lra.
Qed.

(** The mean of the values of [f] over a footprint lies between their
    bounds. *)
Lemma centre_within (f : ViimsiMapLoader.GeoPoint -> R)
    (coords : list ViimsiMapLoader.GeoPoint) (lo hi : R) :
  coords <> [] ->
  (forall p, In p coords -> lo <= f p <= hi) ->
  lo <= ViimsiMapLoader.sumOf f coords / JS.length coords <= hi.
Proof.
  intros Hne H.
  assert (Hn : 0 < JS.length coords).
  { unfold JS.length. destruct coords as [| p rest]; [contradiction |].
    apply lt_0_INR. cbn. lia. }
  pose proof (fold_sum_bounds f coords lo hi 0 H) as [Hlo Hhi].
  fold (ViimsiMapLoader.sumOf f coords) in Hlo, Hhi.
  fold (JS.length coords) in Hlo, Hhi.
  split.
  - apply Rmult_le_reg_r with (JS.length coords); [exact Hn |].
    unfold Rdiv. rewrite Rmult_assoc, Rinv_l by lra. lra.
  - apply Rmult_le_reg_r with (JS.length coords); [exact Hn |].
    unfold Rdiv. rewrite Rmult_assoc, Rinv_l by lra. lra.
Qed.

(** Where a building of [processOSMBuildings] comes from. *)
Lemma processOSMBuildings_origin (parseFloat parseInt : string -> option R)
    (elements : list ViimsiMapLoader.OsmElement) (b : ViimsiMapLoader.Building) :
  In b (ViimsiMapLoader.processOSMBuildings parseFloat parseInt elements) ->
  exists element tags coords,
    In element elements /\
    ViimsiMapLoader.element_type element = "way"%string /\
    ViimsiMapLoader.element_tags element = Some tags /\
    ViimsiMapLoader.element_geometry element = Some coords /\
    coords <> [] /\
    JS.property tags "building" = Some (ViimsiMapLoader.building_type b) /\
    ViimsiMapLoader.building_type b <> ""%string /\
    ViimsiMapLoader.building_geometry b = Some coords /\
    ViimsiMapLoader.building_lat b
    = Some (ViimsiMapLoader.sumOf ViimsiMapLoader.lat coords / JS.length coords) /\
    ViimsiMapLoader.building_lon b
    = Some (ViimsiMapLoader.sumOf ViimsiMapLoader.lon coords / JS.length coords) /\
    ViimsiMapLoader.building_height b
    = ViimsiMapLoader.estimateBuildingHeight parseFloat parseInt tags.
Proof.
  unfold ViimsiMapLoader.processOSMBuildings. intros Hin.
  apply in_flat_map in Hin. destruct Hin as (element & Helement & Hb).
  apply filter_In in Helement. destruct Helement as [Helement Hpass].
  unfold ViimsiMapLoader.isBuildingElement in Hpass.
  apply andb_true_iff in Hpass. destruct Hpass as [Hway Htagged].
  apply String.eqb_eq in Hway.
  destruct (ViimsiMapLoader.element_tags element) as [tags |] eqn:Etags;
    [| discriminate Htagged].
  destruct (ViimsiMapLoader.element_geometry element) as [coords |] eqn:Egeo;
    [| discriminate Htagged].
  destruct coords as [| first rest]; [destruct Hb |].
  destruct (JS.property tags "building") as [kind |] eqn:Ekind;
    [| destruct Hb].
  destruct Hb as [<- | []].
  exists element, tags, (first :: rest).
  cbn [ViimsiMapLoader.building_type ViimsiMapLoader.building_geometry
       ViimsiMapLoader.building_lat ViimsiMapLoader.building_lon
       ViimsiMapLoader.building_height].
  split; [exact Helement |]. split; [exact Hway |]. split; [exact Etags |].
  split; [exact Egeo |]. split; [discriminate |].
  split; [exact Ekind |].
  split.
  { intros ->. cbn in Htagged. discriminate Htagged. }
  repeat split.
Qed.

Lemma flat_map_length_le {A B : Type} (f : A -> list B) (l : list A) :
  (forall a, (List.length (f a) <= 1)%nat) ->
  (List.length (flat_map f l) <= List.length l)%nat.
Proof.
  intros H. induction l as [| a l IH]; cbn; [lia |].
  rewrite length_app. specialize (H a). lia.
Qed.

(** The sum that [reduce] accumulates from the left is the sum of the
    values. *)
Lemma sumOf_sum (f : ViimsiMapLoader.GeoPoint -> R)
    (coords : list ViimsiMapLoader.GeoPoint) :
  ViimsiMapLoader.sumOf f coords = fold_right Rplus 0 (map f coords).
Proof.
  unfold ViimsiMapLoader.sumOf.
  assert (H : forall start,
             fold_left (fun sum coord => sum + f coord) coords start
             = start + fold_right Rplus 0 (map f coords)).
  { induction coords as [| p rest IH]; intros start; cbn.
    - lra.
    - rewrite IH. lra. }
  rewrite H. lra.
Qed.

(** The centre that [processOSMBuildings] computes is the arithmetic mean of
    the vertices. *)
Lemma centre_is_mean (f : ViimsiMapLoader.GeoPoint -> R)
    (coords : list ViimsiMapLoader.GeoPoint) :
  ViimsiMapLoader.sumOf f coords / JS.length coords
  = fold_right Rplus 0 (map f coords) / INR (List.length coords).
Proof. rewrite sumOf_sum. reflexivity. Qed.

(** Every way with a building tag and a footprint gives a building. *)
Lemma processOSMBuildings_image (parseFloat parseInt : string -> option R)
    (elements : list ViimsiMapLoader.OsmElement)
    (element : ViimsiMapLoader.OsmElement) (tags : list (string * string))
    (kind : string) (coords : list ViimsiMapLoader.GeoPoint) :
  In element elements ->
  ViimsiMapLoader.element_type element = "way"%string ->
  ViimsiMapLoader.element_tags element = Some tags ->
  JS.property tags "building" = Some kind -> kind <> ""%string ->
  ViimsiMapLoader.element_geometry element = Some coords -> coords <> [] ->
  exists b,
    In b (ViimsiMapLoader.processOSMBuildings parseFloat parseInt elements) /\
    ViimsiMapLoader.building_type b = kind /\
    ViimsiMapLoader.building_geometry b = Some coords /\
    ViimsiMapLoader.building_lat b
    = Some (ViimsiMapLoader.sumOf ViimsiMapLoader.lat coords / JS.length coords) /\
    ViimsiMapLoader.building_lon b
    = Some (ViimsiMapLoader.sumOf ViimsiMapLoader.lon coords / JS.length coords) /\
    ViimsiMapLoader.building_height b
    = ViimsiMapLoader.estimateBuildingHeight parseFloat parseInt tags.
Proof.
  intros Hin Hway Htags Hkind Hne Hgeo Hcoords.
  destruct coords as [| first rest]; [contradiction |].
  eexists. split.
  - unfold ViimsiMapLoader.processOSMBuildings. apply in_flat_map.
    exists element. split.
    + apply filter_In. split; [exact Hin |].
      unfold ViimsiMapLoader.isBuildingElement.
      rewrite Hway, Htags, Hgeo, Hkind. cbn.
      apply negb_true_iff, String.eqb_neq. exact Hne.
    + rewrite Htags, Hgeo, Hkind. left. reflexivity.
  - repeat split.
Qed.

(** X25.  [processOSMBuildings] makes at most one building per element.
    Every way that has tags, a non-empty [building] tag and a footprint with
    at least one vertex gives a building of that type with that footprint,
    and every building made comes from such a way.  The position of the
    building is the arithmetic mean of the vertices of its footprint, which
    lies within any box that holds the footprint. *)
Theorem processOSMBuildings_centre_within_footprint :
  forall (parseFloat parseInt : string -> option R)
         (elements : list ViimsiMapLoader.OsmElement),
    (List.length (ViimsiMapLoader.processOSMBuildings parseFloat parseInt elements)
     <= List.length elements)%nat /\
    (forall element tags kind coords,
        In element elements ->
        ViimsiMapLoader.element_type element = "way"%string ->
        ViimsiMapLoader.element_tags element = Some tags ->
        JS.property tags "building" = Some kind -> kind <> ""%string ->
        ViimsiMapLoader.element_geometry element = Some coords ->
        coords <> [] ->
        exists b,
          In b (ViimsiMapLoader.processOSMBuildings parseFloat parseInt elements) /\
          ViimsiMapLoader.building_type b = kind /\
          ViimsiMapLoader.building_geometry b = Some coords /\
          ViimsiMapLoader.building_lat b
          = Some (fold_right Rplus 0 (map ViimsiMapLoader.lat coords)
                  / INR (List.length coords)) /\
          ViimsiMapLoader.building_lon b
          = Some (fold_right Rplus 0 (map ViimsiMapLoader.lon coords)
                  / INR (List.length coords))) /\
    Forall
      (fun b =>
         exists element tags coords,
           In element elements /\
           ViimsiMapLoader.element_type element = "way"%string /\
           ViimsiMapLoader.element_tags element = Some tags /\
           JS.property tags "building" = Some (ViimsiMapLoader.building_type b) /\
           ViimsiMapLoader.building_type b <> ""%string /\
           ViimsiMapLoader.element_geometry element = Some coords /\
           coords <> [] /\
           ViimsiMapLoader.building_geometry b = Some coords /\
           ViimsiMapLoader.building_lat b
           = Some (fold_right Rplus 0 (map ViimsiMapLoader.lat coords)
                   / INR (List.length coords)) /\
           ViimsiMapLoader.building_lon b
           = Some (fold_right Rplus 0 (map ViimsiMapLoader.lon coords)
                   / INR (List.length coords)) /\
           forall box : ViimsiMapLoader.GeoBoundingBox,
             (forall p, In p coords ->
                        ViimsiMapLoader.south box <= ViimsiMapLoader.lat p
                        <= ViimsiMapLoader.north box /\
                        ViimsiMapLoader.west box <= ViimsiMapLoader.lon p
                        <= ViimsiMapLoader.east box) ->
             ViimsiMapLoader.south box
             <= fold_right Rplus 0 (map ViimsiMapLoader.lat coords)
                / INR (List.length coords)
             <= ViimsiMapLoader.north box /\
             ViimsiMapLoader.west box
             <= fold_right Rplus 0 (map ViimsiMapLoader.lon coords)
                / INR (List.length coords)
             <= ViimsiMapLoader.east box)
      (ViimsiMapLoader.processOSMBuildings parseFloat parseInt elements).
Proof.
  intros parseFloat parseInt elements. split.
  { unfold ViimsiMapLoader.processOSMBuildings.
    apply Nat.le_trans
      with (List.length (filter ViimsiMapLoader.isBuildingElement elements));
      [| apply filter_length_le].
    apply flat_map_length_le. intros element.
    destruct (ViimsiMapLoader.element_tags element) as [tags |]; [| cbn; lia].
    destruct (ViimsiMapLoader.element_geometry element) as [[| first rest] |];
      [cbn; lia | | cbn; lia].
    destruct (JS.property tags "building"); cbn; lia. }
  split.
  { intros element tags kind coords Hin Hway Htags Hkind Hne Hgeo Hcoords.
    destruct (processOSMBuildings_image parseFloat parseInt elements element
                tags kind coords Hin Hway Htags Hkind Hne Hgeo Hcoords)
      as (b & Hb & Htype & Hkeeps & Hlat & Hlon & _).
    exists b. rewrite <- !centre_is_mean.
    split; [exact Hb |]. split; [exact Htype |]. split; [exact Hkeeps |].
    split; [exact Hlat | exact Hlon]. }
  apply Forall_forall. intros b Hb.
  destruct (processOSMBuildings_origin _ _ _ _ Hb)
    as (element & tags & coords & Hin & Hway & Htags & Hgeo & Hne & Hkind
        & Hnamed & Hkeeps & Hlat & Hlon & _).
  exists element, tags, coords. rewrite <- !centre_is_mean.
  repeat (split; [assumption |]).
  intros box Hbox. split.
  - apply centre_within; [exact Hne |]. intros p Hp. apply Hbox. exact Hp.
  - apply centre_within; [exact Hne |]. intros p Hp. apply Hbox. exact Hp.
Qed.

Lemma viimsi_point_in_square (lat lon : R) :
  59.4167 <= lat <= 59.5167 -> 24.7000 <= lon <= 24.8333 ->
  let g := MapDataManager.realWorldToGameWorld MapDataManager.create lat lon in
  -1000 <= MapDataManager.coord_x g <= 1000 /\
  -1000 <= MapDataManager.coord_z g <= 1000.
Proof.
  intros Hlat Hlon g.
  unfold g, MapDataManager.realWorldToGameWorld.
  cbn [MapDataManager.coord_x MapDataManager.coord_z
       MapDataManager.coordinateTransform MapDataManager.create
       MapDataManager.realWorldBounds MapDataManager.gameWorldSize
       ViimsiMapLoader.viimsiParishBounds ViimsiMapLoader.north
       ViimsiMapLoader.south ViimsiMapLoader.east ViimsiMapLoader.west].
  repeat split; lra.
Qed.

(** X26.  A building read from an Overpass answer whose footprint lies in
    Viimsi Parish is placed inside the game world: its latitude and
    longitude are the arithmetic means of the vertices of its footprint,
    [transformBuildingData] puts it at the image of that centre, with x and
    z in [-1000, 1000]; the position maps back to the centre, and the centre
    passes [isInViimsiParish]. *)
Theorem osm_building_placed_in_world :
  forall (parseFloat parseInt : string -> option R)
         (elements : list ViimsiMapLoader.OsmElement)
         (raw : ViimsiMapLoader.Building),
    In raw (ViimsiMapLoader.processOSMBuildings parseFloat parseInt elements) ->
    (forall coords p,
        ViimsiMapLoader.building_geometry raw = Some coords ->
        In p coords ->
        MapDataManager.isInViimsiParish
          (ViimsiMapLoader.lat p) (ViimsiMapLoader.lon p) = true) ->
    let placed := MapDataManager.transformBuilding MapDataManager.create raw in
    let position := MapDataManager.gamePosition placed in
    -1000 <= MapDataManager.pos_x position <= 1000 /\
    -1000 <= MapDataManager.pos_z position <= 1000 /\
    exists coords,
      ViimsiMapLoader.building_geometry raw = Some coords /\
      coords <> [] /\
      let centerLat :=
        fold_right Rplus 0 (map ViimsiMapLoader.lat coords)
        / INR (List.length coords) in
      let centerLon :=
        fold_right Rplus 0 (map ViimsiMapLoader.lon coords)
        / INR (List.length coords) in
      MapDataManager.realWorldCoords placed = (Some centerLat, Some centerLon) /\
      {| MapDataManager.coord_x := MapDataManager.pos_x position;
         MapDataManager.coord_z := MapDataManager.pos_z position |}
      = MapDataManager.realWorldToGameWorld MapDataManager.create
          centerLat centerLon /\
      MapDataManager.gameWorldToRealWorld MapDataManager.create
        (MapDataManager.pos_x position) (MapDataManager.pos_z position)
      = {| ViimsiMapLoader.lat := centerLat; ViimsiMapLoader.lon := centerLon |} /\
      MapDataManager.isInViimsiParish centerLat centerLon = true.
Proof.
  intros parseFloat parseInt elements raw Hraw Hinside placed position.
  destruct (processOSMBuildings_origin _ _ _ _ Hraw)
    as (element & tags & coords & _ & _ & _ & _ & Hne & _ & _ & Hkeeps
        & Hlat & Hlon & _).
  rewrite centre_is_mean in Hlat, Hlon.
  set (centerLat :=
         fold_right Rplus 0 (map ViimsiMapLoader.lat coords)
         / INR (List.length coords)) in *.
  set (centerLon :=
         fold_right Rplus 0 (map ViimsiMapLoader.lon coords)
         / INR (List.length coords)) in *.
  assert (Hbox : forall p, In p coords ->
             (59.4167 <= ViimsiMapLoader.lat p <= 59.5167) /\
             (24.7000 <= ViimsiMapLoader.lon p <= 24.8333)).
  { intros p Hp. apply isInViimsiParish_iff. apply (Hinside coords p Hkeeps Hp). }
  assert (HcLat : 59.4167 <= centerLat <= 59.5167).
  { unfold centerLat. rewrite <- centre_is_mean.
    apply centre_within; [exact Hne |]. intros p Hp. apply Hbox. exact Hp. }
  assert (HcLon : 24.7000 <= centerLon <= 24.8333).
  { unfold centerLon. rewrite <- centre_is_mean.
    apply centre_within; [exact Hne |]. intros p Hp. apply Hbox. exact Hp. }
  assert (Hposition :
            MapDataManager.pos_x position
            = MapDataManager.coord_x
                (MapDataManager.realWorldToGameWorld MapDataManager.create
                   centerLat centerLon) /\
            MapDataManager.pos_z position
            = MapDataManager.coord_z
                (MapDataManager.realWorldToGameWorld MapDataManager.create
                   centerLat centerLon)).
  { unfold position, placed, MapDataManager.transformBuilding.
    cbn [MapDataManager.gamePosition MapDataManager.pos_x MapDataManager.pos_z].
    rewrite Hlat, Hlon.
    rewrite !truthy_true by lra. cbn [andb]. split; reflexivity. }
  destruct Hposition as [Hx Hz].
  destruct (viimsi_point_in_square centerLat centerLon HcLat HcLon) as [Hsx Hsz].
  split; [rewrite Hx; exact Hsx |].
  split; [rewrite Hz; exact Hsz |].
  exists coords. split; [exact Hkeeps |]. split; [exact Hne |].
  cbv zeta. fold centerLat centerLon.
  split.
  { unfold placed, MapDataManager.transformBuilding.
    cbn [MapDataManager.realWorldCoords]. now rewrite Hlat, Hlon. }
  split.
  { rewrite Hx, Hz. reflexivity. }
  split.
  { rewrite Hx, Hz.
    apply gameWorldToRealWorld_realWorldToGameWorld; cbn; lra. }
  apply isInViimsiParish_iff. split; assumption.
Qed.

Lemma osm_building_placed_in_world_witness :
  exists raw,
    In raw (ViimsiMapLoader.processOSMBuildings Scenarios.parsesNothing
              Scenarios.parsesNothing [Scenarios.osmTrack; Scenarios.osmHouse]) /\
    let placed := MapDataManager.transformBuilding MapDataManager.create raw in
    let position := MapDataManager.gamePosition placed in
    -1000 <= MapDataManager.pos_x position <= 1000 /\
    -1000 <= MapDataManager.pos_z position <= 1000.
Proof.
  assert (Hin :
            In (hd {| ViimsiMapLoader.building_name := "";
                      ViimsiMapLoader.building_type := "";
                      ViimsiMapLoader.building_lat := None;
                      ViimsiMapLoader.building_lon := None;
                      ViimsiMapLoader.building_geometry := None;
                      ViimsiMapLoader.building_height := None |}
                  (ViimsiMapLoader.processOSMBuildings Scenarios.parsesNothing
                     Scenarios.parsesNothing
                     [Scenarios.osmTrack; Scenarios.osmHouse]))
               (ViimsiMapLoader.processOSMBuildings Scenarios.parsesNothing
                  Scenarios.parsesNothing [Scenarios.osmTrack; Scenarios.osmHouse])).
  { left. reflexivity. }
  eexists. split; [exact Hin |].
  assert (Hinside :
            forall coords p,
              ViimsiMapLoader.building_geometry
                (hd {| ViimsiMapLoader.building_name := "";
                       ViimsiMapLoader.building_type := "";
                       ViimsiMapLoader.building_lat := None;
                       ViimsiMapLoader.building_lon := None;
                       ViimsiMapLoader.building_geometry := None;
                       ViimsiMapLoader.building_height := None |}
                   (ViimsiMapLoader.processOSMBuildings Scenarios.parsesNothing
                      Scenarios.parsesNothing
                      [Scenarios.osmTrack; Scenarios.osmHouse]))
              = Some coords ->
              In p coords ->
              MapDataManager.isInViimsiParish
                (ViimsiMapLoader.lat p) (ViimsiMapLoader.lon p) = true).
  { intros coords p Hcoords Hp.
    injection Hcoords as <-.
    apply isInViimsiParish_iff.
    destruct Hp as [<- | [<- | [<- | [<- | []]]]];
      cbn [ViimsiMapLoader.lat ViimsiMapLoader.lon]; lra. }
  pose proof (osm_building_placed_in_world Scenarios.parsesNothing
                Scenarios.parsesNothing [Scenarios.osmTrack; Scenarios.osmHouse]
                _ Hin Hinside) as H.
  split; [exact (proj1 H) | exact (proj1 (proj2 H))].
Defined.

(** ** Heights and widths read from the tables *)

Lemma own_in_table (table : list (string * R)) (key : string) (lo hi : R) :
  Forall (fun entry => lo <= snd entry <= hi /\ snd entry <> 0) table ->
  forall v, JS.own table key = Some v -> lo <= v <= hi /\ v <> 0.
Proof.
  intros Htable v. induction Htable as [| [k w] rest Hentry _ IH]; cbn.
  - discriminate.
  - destruct (String.eqb k key); [| exact IH].
    intros H. injection H as <-. exact Hentry.
Qed.

(** A table whose numbers lie in a range, read at a key that is no name of
    [Object.prototype], gives a number of that range, the default
    included. *)
Lemma or_default_number (table : list (string * R)) (key : string)
    (d lo hi : R) :
  Forall (fun entry => lo <= snd entry <= hi /\ snd entry <> 0) table ->
  lo <= d <= hi ->
  ~ In key JS.objectPrototype ->
  exists w, JS.or_default (JS.lookup table key) d = JS.Number w /\ lo <= w <= hi.
Proof.
  intros Htable Hd Hkey. unfold JS.lookup.
  destruct (JS.own table key) as [v |] eqn:E.
  - destruct (own_in_table table key lo hi Htable v E) as [Hv Hnz].
    exists v. cbn [JS.or_default JS.truthy_entry].
    rewrite truthy_true by exact Hnz. split; [reflexivity | exact Hv].
  - rewrite (inherits_false key Hkey). exists d. split; [reflexivity | exact Hd].
Qed.

(** X27.  How tall a building from OpenStreetMap stands in the game.  The
    height tag wins over the levels: when it is present and does not parse,
    the estimate is [NaN] and the game falls back to 6, whatever the levels
    say.  A height that parses to a number other than zero is the game
    height.  Without height and levels tags the height comes from the table
    of building types: the table's number for a type it lists, 6 for a type
    it does not list, always between 6 and 15, unless the type is the name
    of a member of [Object.prototype]; then the estimate is that member and
    the game height is no number. *)
Theorem osm_building_game_height :
  forall (parseFloat parseInt : string -> option R)
         (this : MapDataManager.t) (raw : ViimsiMapLoader.Building)
         (tags : list (string * string)),
    ViimsiMapLoader.building_height raw
    = ViimsiMapLoader.estimateBuildingHeight parseFloat parseInt tags ->
    let gameHeight :=
      MapDataManager.gameHeight (MapDataManager.transformBuilding this raw) in
    (forall text,
        JS.property tags "height" = Some text -> text <> ""%string ->
        (parseFloat text = None -> gameHeight = JS.Number 6) /\
        (forall h, parseFloat text = Some h -> h <> 0 ->
                   gameHeight = JS.Number h)) /\
    (JS.truthy_string (JS.property tags "height") = false ->
     JS.truthy_string (JS.property tags "levels") = false ->
     JS.truthy_string (JS.property tags "building:levels") = false ->
     (forall kind h,
         JS.property tags "building" = Some kind ->
         In (kind, h)
            [ ("house", 6); ("residential", 8); ("commercial", 10);
              ("industrial", 12); ("school", 8); ("hospital", 12);
              ("church", 15) ]%string ->
         gameHeight = JS.Number h) /\
     ((forall kind,
          JS.property tags "building" = Some kind ->
          ~ In kind
               [ "constructor"; "hasOwnProperty"; "isPrototypeOf";
                 "propertyIsEnumerable"; "toLocaleString"; "toString";
                 "valueOf"; "__proto__"; "__defineGetter__";
                 "__defineSetter__"; "__lookupGetter__";
                 "__lookupSetter__" ]%string) ->
      exists h, gameHeight = JS.Number h /\ 6 <= h <= 15) /\
     (forall kind,
         JS.property tags "building" = Some kind ->
         In kind
            [ "constructor"; "hasOwnProperty"; "isPrototypeOf";
              "propertyIsEnumerable"; "toLocaleString"; "toString";
              "valueOf"; "__proto__"; "__defineGetter__";
              "__defineSetter__"; "__lookupGetter__";
              "__lookupSetter__" ]%string ->
         gameHeight = JS.Inherited kind)).
Proof.
  intros parseFloat parseInt this raw tags Hheight gameHeight.
  assert (Hgame : gameHeight
                  = JS.or_default
                      (ViimsiMapLoader.estimateBuildingHeight parseFloat parseInt tags)
                      6).
  { unfold gameHeight, MapDataManager.transformBuilding.
    cbn [MapDataManager.gameHeight]. now rewrite Hheight. }
  rewrite Hgame. unfold ViimsiMapLoader.estimateBuildingHeight. split.
  - intros text Htext Hne. rewrite Htext.
    assert (Htruthy : JS.truthy_string (Some text) = true).
    { cbn. apply negb_true_iff, String.eqb_neq. exact Hne. }
    rewrite Htruthy. split.
    + intros ->. reflexivity.
    + intros h -> Hh. cbn [option_map JS.or_default JS.truthy_entry].
      now rewrite truthy_true.
  - intros -> -> ->. cbn [orb].
    assert (Hkeep :
              forall v, v <> JS.Number 0 ->
                        JS.or_default (Some v) 6 = v).
    { intros [x | name] Hv; cbn [JS.or_default JS.truthy_entry];
        [| reflexivity].
      rewrite truthy_true; [reflexivity |]. intros ->. now apply Hv. }
    split; [| split].
    + intros kind h -> Hin. cbn [In] in Hin.
      repeat (destruct Hin as [Hin | Hin];
              [injection Hin as <- <-; road_table;
               cbn [JS.or_default JS.truthy_entry];
               rewrite truthy_true by lra; reflexivity |]).
      contradiction.
    + intros Hkind.
      destruct (JS.property tags "building") as [kind |].
      * destruct (or_default_number
                    [ ("house"%string, 6); ("residential"%string, 8);
                      ("commercial"%string, 10); ("industrial"%string, 12);
                      ("school"%string, 8); ("hospital"%string, 12);
                      ("church"%string, 15) ] kind 6 6 15) as (w & Hw & Hrange).
        { repeat (apply Forall_cons; [cbn [snd]; split; lra |]).
          apply Forall_nil. }
        { lra. }
        { apply Hkind. reflexivity. }
        exists w. rewrite Hw. split; [| exact Hrange].
        apply Hkeep. intros H. injection H as H. lra.
      * exists 6. cbn [JS.or_default JS.truthy_entry].
        rewrite !truthy_true by lra. split; [reflexivity | lra].
    + intros kind -> Hin.
      assert (Hmember :
                JS.or_default
                  (JS.lookup
                     [ ("house"%string, 6); ("residential"%string, 8);
                       ("commercial"%string, 10); ("industrial"%string, 12);
                       ("school"%string, 8); ("hospital"%string, 12);
                       ("church"%string, 15) ] kind) 6
                = JS.Inherited kind).
      { change (In kind JS.objectPrototype) in Hin. inherited_member. }
      rewrite Hmember. reflexivity.
Qed.

Lemma osm_building_game_height_witness :
  let tags := [ ("building"%string, "house"%string);
                ("name"%string, "Rannamaja"%string) ] in
  let raw :=
    hd {| ViimsiMapLoader.building_name := "";
          ViimsiMapLoader.building_type := "";
          ViimsiMapLoader.building_lat := None;
          ViimsiMapLoader.building_lon := None;
          ViimsiMapLoader.building_geometry := None;
          ViimsiMapLoader.building_height := None |}
       (ViimsiMapLoader.processOSMBuildings Scenarios.parsesNothing
          Scenarios.parsesNothing [Scenarios.osmHouse]) in
  ViimsiMapLoader.building_height raw
  = ViimsiMapLoader.estimateBuildingHeight Scenarios.parsesNothing
      Scenarios.parsesNothing tags /\
  MapDataManager.gameHeight
    (MapDataManager.transformBuilding MapDataManager.create raw)
  = JS.Number 6.
Proof.
  intros tags raw.
  assert (H : ViimsiMapLoader.building_height raw
              = ViimsiMapLoader.estimateBuildingHeight Scenarios.parsesNothing
                  Scenarios.parsesNothing tags) by reflexivity.
  split; [exact H |].
  apply (proj1 (proj2 (osm_building_game_height Scenarios.parsesNothing
                         Scenarios.parsesNothing MapDataManager.create raw tags H)
                  eq_refl eq_refl eq_refl) "house"%string 6).
  - reflexivity.
  - left. reflexivity.
Defined.

Lemma or_string_nonempty (v d : option string) (s : string) :
  (forall t, d = Some t -> t <> ""%string) ->
  JS.or_string v d = Some s -> s <> ""%string.
Proof.
  intros Hd. unfold JS.or_string.
  destruct (JS.truthy_string v) eqn:E.
  - intros ->. cbn in E. apply negb_true_iff, String.eqb_neq in E. exact E.
  - apply Hd.
Qed.

Lemma estimateRoadWidth_range (highway : string) :
  ~ In highway JS.objectPrototype ->
  exists w,
    ViimsiMapLoader.estimateRoadWidth highway = JS.Number w /\ 1.5 <= w <= 8.
Proof.
  intros Hkey. unfold ViimsiMapLoader.estimateRoadWidth. cbv zeta.
  apply or_default_number; [| lra | exact Hkey].
  repeat (apply Forall_cons; [cbn [snd]; split; lra |]). apply Forall_nil.
Qed.

(** The elements that [processOSMRoads] keeps. *)
Lemma isRoadElement_iff (element : ViimsiMapLoader.OsmElement) :
  ViimsiMapLoader.isRoadElement element = true <->
  exists tags geometry highway,
    ViimsiMapLoader.element_type element = "way"%string /\
    ViimsiMapLoader.element_tags element = Some tags /\
    ViimsiMapLoader.element_geometry element = Some geometry /\
    JS.property tags "highway" = Some highway /\
    highway <> ""%string.
Proof.
  unfold ViimsiMapLoader.isRoadElement. split.
  - intros H. apply andb_true_iff in H. destruct H as [Hway H].
    apply String.eqb_eq in Hway.
    destruct (ViimsiMapLoader.element_tags element) as [tags |];
      [| discriminate H].
    destruct (ViimsiMapLoader.element_geometry element) as [geometry |];
      [| discriminate H].
    destruct (JS.property tags "highway") as [highway |] eqn:E;
      [| discriminate H].
    exists tags, geometry, highway.
    split; [exact Hway |].
    split; [reflexivity |]. split; [reflexivity |]. split; [exact E |].
    cbn in H. apply negb_true_iff, String.eqb_neq in H. exact H.
  - intros (tags & geometry & highway & Hway & -> & -> & -> & Hne).
    rewrite Hway. cbn. apply negb_true_iff, String.eqb_neq. exact Hne.
Qed.

(** X28.  [processOSMRoads] makes exactly one road for every way that has
    tags, a non-empty [highway] tag and a geometry, and none for any other
    element: every such way gives a road of that type with that geometry,
    and every road made comes from such a way.  Every road has a non-empty
    name (the [name] tag, else the [ref] tag, else 'Road') and the width of
    [estimateRoadWidth] for its type, which is a number between 1.5 and 8
    unless the type is the name of a member of [Object.prototype]. *)
Theorem processOSMRoads_one_road_per_highway :
  forall (elements : list ViimsiMapLoader.OsmElement),
    List.length (ViimsiMapLoader.processOSMRoads elements)
    = List.length
        (filter
           (fun element =>
              String.eqb (ViimsiMapLoader.element_type element) "way" &&
              match ViimsiMapLoader.element_tags element,
                    ViimsiMapLoader.element_geometry element with
              | Some tags, Some _ =>
                  match JS.property tags "highway" with
                  | Some highway => negb (String.eqb highway "")
                  | None => false
                  end
              | _, _ => false
              end)
           elements) /\
    (forall element tags highway geometry,
        In element elements ->
        ViimsiMapLoader.element_type element = "way"%string ->
        ViimsiMapLoader.element_tags element = Some tags ->
        JS.property tags "highway" = Some highway -> highway <> ""%string ->
        ViimsiMapLoader.element_geometry element = Some geometry ->
        exists r,
          In r (ViimsiMapLoader.processOSMRoads elements) /\
          ViimsiMapLoader.road_type r = highway /\
          ViimsiMapLoader.road_geometry r = Some geometry /\
          (forall name, JS.property tags "name" = Some name ->
                        name <> ""%string ->
                        ViimsiMapLoader.road_name r = name) /\
          (JS.truthy_string (JS.property tags "name") = false ->
           JS.truthy_string (JS.property tags "ref") = false ->
           ViimsiMapLoader.road_name r = "Road"%string)) /\
    Forall
      (fun r =>
         (exists element tags geometry,
             In element elements /\
             ViimsiMapLoader.element_type element = "way"%string /\
             ViimsiMapLoader.element_tags element = Some tags /\
             JS.property tags "highway" = Some (ViimsiMapLoader.road_type r) /\
             ViimsiMapLoader.element_geometry element = Some geometry /\
             ViimsiMapLoader.road_geometry r = Some geometry) /\
         ViimsiMapLoader.road_type r <> ""%string /\
         ViimsiMapLoader.road_name r <> ""%string /\
         ViimsiMapLoader.road_width r
         = Some (ViimsiMapLoader.estimateRoadWidth (ViimsiMapLoader.road_type r)) /\
         (~ In (ViimsiMapLoader.road_type r)
               [ "constructor"; "hasOwnProperty"; "isPrototypeOf";
                 "propertyIsEnumerable"; "toLocaleString"; "toString";
                 "valueOf"; "__proto__"; "__defineGetter__";
                 "__defineSetter__"; "__lookupGetter__";
                 "__lookupSetter__" ]%string ->
          exists w,
            ViimsiMapLoader.road_width r = Some (JS.Number w) /\
            1.5 <= w <= 8))
      (ViimsiMapLoader.processOSMRoads elements).
Proof.
  intros elements.
  unfold ViimsiMapLoader.processOSMRoads. split.
  { induction elements as [| element rest IH]; [reflexivity |].
    cbn [filter].
    change (String.eqb (ViimsiMapLoader.element_type element) "way" &&
            match ViimsiMapLoader.element_tags element,
                  ViimsiMapLoader.element_geometry element with
            | Some tags, Some _ =>
                match JS.property tags "highway" with
                | Some highway => negb (String.eqb highway "")
                | None => false
                end
            | _, _ => false
            end)
      with (ViimsiMapLoader.isRoadElement element).
    destruct (ViimsiMapLoader.isRoadElement element) eqn:E; [| exact IH].
    destruct (proj1 (isRoadElement_iff element) E)
      as (tags & geometry & highway & _ & Ht & Hg & Hh & _).
    cbn [flat_map List.length]. rewrite Ht, Hg, Hh.
    cbn [app List.length]. now rewrite IH. }
  split.
  { intros element tags highway geometry Hin Hway Htags Hhighway Hne Hgeo.
    eexists. split.
    - apply in_flat_map. exists element. split.
      + apply filter_In. split; [exact Hin |].
        apply isRoadElement_iff. exists tags, geometry, highway.
        repeat split; assumption.
      + rewrite Htags, Hgeo, Hhighway. left. reflexivity.
    - cbn [ViimsiMapLoader.road_type ViimsiMapLoader.road_geometry
           ViimsiMapLoader.road_name].
      split; [reflexivity |]. split; [reflexivity |]. split.
      + intros name Hname Hnonempty. rewrite Hname.
        unfold JS.or_string at 1. cbn [JS.truthy_string].
        replace (String.eqb name "") with false
          by (symmetry; apply String.eqb_neq; exact Hnonempty).
        reflexivity.
      + intros Hnoname Hnoref. unfold JS.or_string.
        rewrite Hnoname, Hnoref. reflexivity. }
  apply Forall_flat_map, Forall_forall. intros element Hin.
  apply filter_In in Hin. destruct Hin as [Hin E].
  destruct (proj1 (isRoadElement_iff element) E)
    as (tags & geometry & highway & Hway & Ht & Hg & Hh & Hne).
  rewrite Ht, Hg, Hh.
  apply Forall_cons; [| apply Forall_nil].
  cbn [ViimsiMapLoader.road_geometry ViimsiMapLoader.road_type
       ViimsiMapLoader.road_name ViimsiMapLoader.road_width].
  split.
  { exists element, tags, geometry.
    split; [exact Hin |]. split; [exact Hway |]. split; [exact Ht |].
    split; [exact Hh |]. split; [exact Hg | reflexivity]. }
  split; [exact Hne |]. split.
  - destruct (JS.or_string (JS.property tags "name")
                (JS.or_string (JS.property tags "ref") (Some "Road"%string)))
      as [name |] eqn:En; [| discriminate].
    apply (or_string_nonempty _ _ _) with (2 := En).
    intros t Ht'.
    apply (or_string_nonempty _ _ _) with (2 := Ht').
    intros t' Ht''. injection Ht'' as <-. discriminate.
  - split; [reflexivity |].
    intros Hkey.
    destruct (estimateRoadWidth_range highway Hkey) as (w & Hw & Hrange).
    exists w. rewrite Hw. split; [reflexivity | exact Hrange].
Qed.
